(** * A shallow embedding of the DummyJSON loader ([processor.py]) and of its
    inspector ([view_db.py]).

    The development has these parts.
    - Python strings (UTF-8 bytes grouped into code points), the exceptions
      the code can raise, and IEEE 754 binary64 floats: correct rounding
      of decimal literals and of sums, [repr] and the [.2f] format.
    - JSON values as Python's [json] module decodes them, with a decoder
      ([json_loads]), an encoder ([json_dumps]) and Python's [str] of a
      decoded value ([py_str]).
    - The dynamic Python operations the processors apply to decoded values
      (truthiness, [in], indexing, [dict.get], iteration, [len], [+]); each
      may raise exactly where Python does.
    - A world made of the SQLite database, the network and the log, and a
      state-and-exception monad over it.
    - The storage functions [init_db_table] and [save_data_to_db] and the
      API client [fetch_api_data].
    - The three processors and the entry point of [processor.py].
    - The inspector [view_db.py]: [format_value], [get_table_info],
      [print_table_data] and [view_database] over a model of the
      database file it opens. *)

From Stdlib Require Import String Ascii List ZArith Bool Lia.
From Stdlib Require Import Sorting.Sorted Sorting.Permutation.
Local Set Warnings "-register-all".
Import ListNotations.
Open Scope string_scope.
Open Scope Z_scope.

(* ------------------------------------------------------------------ *)
(** ** Strings and exceptions *)

Definition ascii_val (c : ascii) : Z := Z.of_nat (nat_of_ascii c).
Definition ascii_of_Z (z : Z) : ascii := ascii_of_nat (Z.to_nat z).

Fixpoint list_of_string (s : string) : list ascii :=
  match s with EmptyString => [] | String c r => c :: list_of_string r end.

Fixpoint string_of_list (l : list ascii) : string :=
  match l with [] => EmptyString | c :: r => String c (string_of_list r) end.

(** A Python [str] is a sequence of code points; here a string holds their
    UTF-8 bytes (a lone surrogate, which a Python [str] may hold, is
    written with the three-byte pattern of any code point below
    [0x10000]). A continuation byte [10xxxxxx] belongs to the code point
    of the byte before it. *)
Definition is_cont (c : ascii) : bool :=
  Nat.leb 128 (nat_of_ascii c) && Nat.ltb (nat_of_ascii c) 192.

Definition code_points (s : string) : list string :=
  let '(pending, groups) :=
    fold_right (fun c acc =>
                  let '(p, gs) := acc in
                  if is_cont c then (c :: p, gs)
                  else ([], string_of_list (c :: p) :: gs))
               ([], []) (list_of_string s) in
  match pending with [] => groups | _ => string_of_list pending :: groups end.

(** The value of one code point (one group of [code_points]). *)
Definition cp_value (g : string) : Z :=
  match list_of_string g with
  | [a] => ascii_val a
  | [a; b] => (ascii_val a - 192) * 64 + (ascii_val b - 128)
  | [a; b; c] =>
      ((ascii_val a - 224) * 64 + (ascii_val b - 128)) * 64 + (ascii_val c - 128)
  | [a; b; c; d] =>
      (((ascii_val a - 240) * 64 + (ascii_val b - 128)) * 64
       + (ascii_val c - 128)) * 64 + (ascii_val d - 128)
  | _ => 65533
  end.

Definition is_surrogate (v : Z) : bool := (55296 <=? v) && (v <=? 57343).

(** Whether a string holds a lone surrogate: the UTF-8 pattern of a code
    point from [0xD800] to [0xDFFF] starts with the byte [0xED] followed
    by a byte from [0xA0] to [0xBF]. *)
Fixpoint has_surrogate (s : string) : bool :=
  match s with
  | String a ((String b _) as r) =>
      ((ascii_val a =? 237) && (160 <=? ascii_val b) && (ascii_val b <? 192))
      || has_surrogate r
  | _ => false
  end.

(** The decimal digits of a non-negative integer. *)
Fixpoint nat_digits (fuel : nat) (z : Z) (acc : list ascii) : list ascii :=
  match fuel with
  | O => acc
  | S f =>
      let acc' := ascii_of_Z (48 + z mod 10) :: acc in
      if z / 10 =? 0 then acc' else nat_digits f (z / 10) acc'
  end.

Definition digits_of (z : Z) : list ascii :=
  nat_digits (S (Z.to_nat (Z.log2 (Z.abs z)))) (Z.abs z) [].

(** [str] of a Python [int]. *)
Definition z_to_string (z : Z) : string :=
  string_of_list (if z <? 0 then "-"%char :: digits_of z else digits_of z).

(** The exceptions that can leave the code. [SqliteError] is any
    [sqlite3.Error] (the class the storage functions catch), [KeyError]
    a failed dict subscript, [UnicodeEncodeError] the failure to encode a
    lone surrogate to UTF-8, [RecursionError] the interpreter's depth
    limit, [ValueError] the refusal of [int] to convert a literal of more
    than 4300 digits. *)
Inductive exc : Type :=
| TypeError
| AttributeError
| KeyError
| OverflowError
| UnicodeEncodeError
| RecursionError
| ValueError
| SqliteError.

Inductive result (A : Type) : Type :=
| Ok (a : A)
| Raise (e : exc).
Arguments Ok {A} a.
Arguments Raise {A} e.

(* ------------------------------------------------------------------ *)
(** ** Binary64 floats

    A Python [float] is an IEEE 754 double: [Fin neg m k] is the finite
    value [(-1)^neg * m * 2^k], in canonical form ([2^52 <= m < 2^53] and
    [-1074 <= k <= 971], or a subnormal [m < 2^52] with [k = -1074]; the
    zeros are [Fin neg 0 (-1074)]). Operations round to nearest, ties to
    even. *)
Inductive float : Type :=
| Fin (neg : bool) (m k : Z)
| Inf (neg : bool)
| NaN.

Definition emin : Z := -1074.

(** [n / d] rounded to the nearest integer, ties to even. *)
Definition round_div (n d : Z) : Z :=
  let q := n / d in
  let r := n mod d in
  if 2 * r <? d then q else if d <? 2 * r then q + 1 else if Z.even q then q else q + 1.

Definition pow2_le (n d j : Z) : bool :=
  if 0 <=? j then d * 2 ^ j <=? n else d <=? n * 2 ^ (- j).

(** The double nearest to [(-1)^neg * n / d] ([n >= 0], [d > 0]). *)
Definition round_binary (neg : bool) (n d : Z) : float :=
  if n <=? 0 then Fin neg 0 emin
  else
    let e0 := Z.log2 n - Z.log2 d in
    let e := if pow2_le n d e0 then e0 else e0 - 1 in
    let k := Z.max (e - 52) emin in
    let q := if 0 <=? k then round_div n (d * 2 ^ k) else round_div (n * 2 ^ (- k)) d in
    let '(m, k') := if q =? 2 ^ 53 then (2 ^ 52, k + 1) else (q, k) in
    if 971 <? k' then Inf neg else Fin neg m k'.

(** The double a decimal literal [(-1)^neg * mag * 10^e] denotes (what
    [float(s)] returns): correctly rounded, [inf] past the largest double,
    a signed zero below the smallest. *)
Definition of_decimal (neg : bool) (mag e : Z) : float :=
  let nd := Z.of_nat (length (digits_of mag)) in
  if mag =? 0 then Fin neg 0 emin
  else if nd + e <=? -324 then Fin neg 0 emin
  else if 309 <=? nd - 1 + e then Inf neg
  else if 0 <=? e then round_binary neg (mag * 10 ^ e) 1
  else round_binary neg mag (10 ^ (- e)).

(** [float(z)] of an [int]: [None] where Python raises [OverflowError]. *)
Definition int_to_float (z : Z) : option float :=
  match round_binary (z <? 0) (Z.abs z) 1 with
  | Inf _ => None
  | f => Some f
  end.

(** [a + b] on doubles. *)
Definition float_add (a b : float) : float :=
  match a, b with
  | NaN, _ | _, NaN => NaN
  | Inf s, Inf t => if Bool.eqb s t then Inf s else NaN
  | Inf s, Fin _ _ _ | Fin _ _ _, Inf s => Inf s
  | Fin s1 m1 k1, Fin s2 m2 k2 =>
      let k := Z.min k1 k2 in
      let v := (if s1 then - m1 else m1) * 2 ^ (k1 - k)
               + (if s2 then - m2 else m2) * 2 ^ (k2 - k) in
      if v =? 0 then Fin (s1 && s2) 0 emin
      else if 0 <=? k then round_binary (v <? 0) (Z.abs v * 2 ^ k) 1
      else round_binary (v <? 0) (Z.abs v) (2 ^ (- k))
  end.

Definition float_is_zero (f : float) : bool :=
  match f with Fin _ m _ => m =? 0 | _ => false end.

(* ------------------------------------------------------------------ *)
(** ** JSON values *)

(** A decoded JSON value. Python decodes a JSON number without fraction
    or exponent to an [int] ([JInt]); any other number, and the constants
    [NaN], [Infinity] and [-Infinity], to a [float] ([JFloat]). Objects
    keep their keys in insertion order, as Python dicts do. *)
Inductive json : Type :=
| JNull
| JBool (b : bool)
| JInt (z : Z)
| JFloat (f : float)
| JStr (s : string)
| JArr (l : list json)
| JObj (kvs : list (string * json)).

(** Python's [dict(pairs)]: a later binding of a key replaces the value and
    keeps the position of the first one. *)
Fixpoint dict_set (k : string) (v : json) (kvs : list (string * json))
  : list (string * json) :=
  match kvs with
  | [] => [(k, v)]
  | (k', v') :: r =>
      if String.eqb k k' then (k, v) :: r else (k', v') :: dict_set k v r
  end.

Definition dict_of_pairs (ps : list (string * json)) : list (string * json) :=
  fold_left (fun acc kv => dict_set (fst kv) (snd kv) acc) ps [].

Fixpoint dict_lookup (k : string) (kvs : list (string * json)) : option json :=
  match kvs with
  | [] => None
  | (k', v) :: r => if String.eqb k k' then Some v else dict_lookup k r
  end.

(* ------------------------------------------------------------------ *)
(** ** [json.loads]

    The decoder follows Python's [json] scanner in its default (strict)
    mode: the literals [null], [true], [false], [NaN], [Infinity] and
    [-Infinity]; numbers (an optional minus sign, then [0] or digits not
    starting with [0], an optional fraction [.digits] and an optional
    exponent; a [.] or an [e] without digits after it is not part of the
    number); strings without raw control characters, with the
    two-character escapes of JSON and the six-character [\uXXXX] escape,
    where a high surrogate followed by an escaped low surrogate makes one
    code point; arrays; objects; whitespace around tokens; nothing after
    the value.

    Two errors are not decode errors. An integer literal of more than
    4300 digits makes [int] raise [ValueError]. Each array and object is
    parsed by a recursive call, and the interpreter raises
    [RecursionError] on entering one nested too deep: [depth] is the
    number of nested arrays and objects that fit under the recursion limit
    at the call, which depends on the stack of the caller. *)

Definition is_ws (c : ascii) : bool :=
  match c with " " | "009" | "010" | "013" => true | _ => false end%char.

Fixpoint skip_ws (l : list ascii) : list ascii :=
  match l with c :: r => if is_ws c then skip_ws r else l | [] => [] end.

Definition is_digit (c : ascii) : bool :=
  (48 <=? ascii_val c) && (ascii_val c <=? 57).

Fixpoint take_digits (l : list ascii) : list ascii * list ascii :=
  match l with
  | c :: r =>
      if is_digit c then let (ds, rest) := take_digits r in (c :: ds, rest)
      else ([], l)
  | [] => ([], [])
  end.

Definition digits_value (ds : list ascii) : Z :=
  fold_left (fun acc c => acc * 10 + (ascii_val c - 48)) ds 0.

Definition hex_val (c : ascii) : option Z :=
  let v := ascii_val c in
  if (48 <=? v) && (v <=? 57) then Some (v - 48)
  else if (65 <=? v) && (v <=? 70) then Some (v - 55)
  else if (97 <=? v) && (v <=? 102) then Some (v - 87)
  else None.

Definition hex4_val (a b c d : ascii) : option Z :=
  match hex_val a, hex_val b, hex_val c, hex_val d with
  | Some w, Some x, Some y, Some z => Some (((w * 16 + x) * 16 + y) * 16 + z)
  | _, _, _, _ => None
  end.

(** The UTF-8 encoding of a code point. *)
Definition utf8_of (cp : Z) : list ascii :=
  if cp <? 128 then [ascii_of_Z cp]
  else if cp <? 2048 then
    [ascii_of_Z (192 + cp / 64); ascii_of_Z (128 + cp mod 64)]
  else if cp <? 65536 then
    [ascii_of_Z (224 + cp / 4096); ascii_of_Z (128 + (cp / 64) mod 64);
     ascii_of_Z (128 + cp mod 64)]
  else
    [ascii_of_Z (240 + cp / 262144); ascii_of_Z (128 + (cp / 4096) mod 64);
     ascii_of_Z (128 + (cp / 64) mod 64); ascii_of_Z (128 + cp mod 64)].

(** The body of a string literal, after its opening quote. *)
Fixpoint parse_string_body (l : list ascii) : option (list ascii * list ascii) :=
  match l with
  | [] => None
  | c :: r =>
      if Ascii.eqb c "034" then Some ([], r)
      else if Ascii.eqb c "\" then
        match r with
        | e :: r' =>
            let simple (x : ascii) :=
              match parse_string_body r' with
              | Some (s, rest) => Some (x :: s, rest)
              | None => None
              end in
            match e with
            | "034" => simple "034"
            | "\" => simple "\"
            | "/" => simple "/"
            | "b" => simple "008"
            | "f" => simple "012"
            | "n" => simple "010"
            | "r" => simple "013"
            | "t" => simple "009"
            | "u" =>
                match r' with
                | h1 :: h2 :: h3 :: h4 :: r'' =>
                    match hex4_val h1 h2 h3 h4 with
                    | None => None
                    | Some u =>
                        let lone :=
                          match parse_string_body r'' with
                          | Some (s, rest) => Some (app (utf8_of u) s, rest)
                          | None => None
                          end in
                        if ((55296 <=? u) && (u <=? 56319))%Z then
                          match r'' with
                          | "\" :: "u" :: g1 :: g2 :: g3 :: g4 :: r3 =>
                              match hex4_val g1 g2 g3 g4 with
                              | None => None
                              | Some u2 =>
                                  if ((56320 <=? u2) && (u2 <=? 57343))%Z then
                                    match parse_string_body r3 with
                                    | Some (s, rest) =>
                                        Some (app (utf8_of (65536 + (u - 55296) * 1024
                                                            + (u2 - 56320))%Z) s, rest)
                                    | None => None
                                    end
                                  else lone
                              end
                          | _ => lone
                          end
                        else lone
                    end
                | _ => None
                end
            | _ => None
            end%char
        | [] => None
        end
      else if ascii_val c <? 32 then None
      else
        match parse_string_body r with
        | Some (s, rest) => Some (c :: s, rest)
        | None => None
        end
  end.

(** The outcome of parsing a prefix: a value and the text after it, a
    decode error, or an exception. *)
Inductive parsed (A : Type) : Type :=
| PDone (a : A) (rest : list ascii)
| PFail
| PRaise (e : exc).
Arguments PDone {A} a rest.
Arguments PFail {A}.
Arguments PRaise {A} e.

(** A number literal. *)
Definition parse_number (l : list ascii) : parsed json :=
  let '(neg, l1) :=
    match l with "-"%char :: r => (true, r) | _ => (false, l) end in
  let '(ids, l2) :=
    match l1 with
    | "0"%char :: r => (["0"%char], r)
    | _ => take_digits l1
    end in
  match ids with
  | [] => PFail
  | _ =>
      let '(fds, l3) :=
        match l2 with
        | "."%char :: d :: r => if is_digit d then take_digits (d :: r) else ([], l2)
        | _ => ([], l2)
        end in
      let '(ex, rest) :=
        match l3 with
        | c :: r =>
            if Ascii.eqb c "e" || Ascii.eqb c "E" then
              let '(eneg, r1) :=
                match r with
                | "-"%char :: r2 => (true, r2)
                | "+"%char :: r2 => (false, r2)
                | _ => (false, r)
                end in
              let '(eds, r3) := take_digits r1 in
              match eds with
              | [] => (None, l3)
              | _ => (Some (if eneg then - digits_value eds else digits_value eds), r3)
              end
            else (None, l3)
        | [] => (None, l3)
        end in
      match fds, ex with
      | [], None =>
          if Nat.ltb 4300 (length ids) then PRaise ValueError
          else PDone (JInt (if neg then - digits_value ids else digits_value ids)) rest
      | _, _ =>
          PDone (JFloat (of_decimal neg (digits_value (app ids fds))
                           ((match ex with Some x => x | None => 0 end)
                            - Z.of_nat (length fds)))) rest
      end
  end.

Fixpoint parse_value (fuel depth : nat) (l : list ascii) : parsed json :=
  match fuel with
  | O => PFail
  | S f =>
      match skip_ws l with
      | "n"%char :: "u"%char :: "l"%char :: "l"%char :: r => PDone JNull r
      | "t"%char :: "r"%char :: "u"%char :: "e"%char :: r => PDone (JBool true) r
      | "f"%char :: "a"%char :: "l"%char :: "s"%char :: "e"%char :: r =>
          PDone (JBool false) r
      | "N"%char :: "a"%char :: "N"%char :: r => PDone (JFloat NaN) r
      | "I"%char :: "n"%char :: "f"%char :: "i"%char :: "n"%char :: "i"%char
          :: "t"%char :: "y"%char :: r => PDone (JFloat (Inf false)) r
      | "-"%char :: "I"%char :: "n"%char :: "f"%char :: "i"%char :: "n"%char
          :: "i"%char :: "t"%char :: "y"%char :: r => PDone (JFloat (Inf true)) r
      | "034"%char :: r =>
          match parse_string_body r with
          | Some (s, rest) => PDone (JStr (string_of_list s)) rest
          | None => PFail
          end
      | "["%char :: r =>
          match depth with
          | O => PRaise RecursionError
          | S d =>
              match skip_ws r with
              | "]"%char :: r' => PDone (JArr []) r'
              | _ =>
                  match parse_elements f d r with
                  | PDone vs rest => PDone (JArr vs) rest
                  | PFail => PFail
                  | PRaise e => PRaise e
                  end
              end
          end
      | "{"%char :: r =>
          match depth with
          | O => PRaise RecursionError
          | S d =>
              match skip_ws r with
              | "}"%char :: r' => PDone (JObj []) r'
              | _ =>
                  match parse_members f d r with
                  | PDone ps rest => PDone (JObj (dict_of_pairs ps)) rest
                  | PFail => PFail
                  | PRaise e => PRaise e
                  end
              end
          end
      | l' => parse_number l'
      end
  end
with parse_elements (fuel depth : nat) (l : list ascii) : parsed (list json) :=
  match fuel with
  | O => PFail
  | S f =>
      match parse_value f depth l with
      | PDone v r =>
          match skip_ws r with
          | ","%char :: r' =>
              match parse_elements f depth r' with
              | PDone vs rest => PDone (v :: vs) rest
              | PFail => PFail
              | PRaise e => PRaise e
              end
          | "]"%char :: r' => PDone [v] r'
          | _ => PFail
          end
      | PFail => PFail
      | PRaise e => PRaise e
      end
  end
with parse_members (fuel depth : nat) (l : list ascii)
  : parsed (list (string * json)) :=
  match fuel with
  | O => PFail
  | S f =>
      match skip_ws l with
      | "034"%char :: r =>
          match parse_string_body r with
          | Some (k, r1) =>
              match skip_ws r1 with
              | ":"%char :: r2 =>
                  match parse_value f depth r2 with
                  | PDone v r3 =>
                      match skip_ws r3 with
                      | ","%char :: r4 =>
                          match parse_members f depth r4 with
                          | PDone ps rest => PDone ((string_of_list k, v) :: ps) rest
                          | PFail => PFail
                          | PRaise e => PRaise e
                          end
                      | "}"%char :: r4 => PDone [(string_of_list k, v)] r4
                      | _ => PFail
                      end
                  | PFail => PFail
                  | PRaise e => PRaise e
                  end
              | _ => PFail
              end
          | None => PFail
          end
      | _ => PFail
      end
  end.

(** [json.loads(s)]: [Ok (Some v)] for a value, [Ok None] for a
    [JSONDecodeError] (which is a [ValueError]), [Raise e] for the other
    exceptions. *)
Definition json_loads (depth : nat) (s : string) : result (option json) :=
  let l := list_of_string s in
  match parse_value (S (2 * length l)) depth l with
  | PDone v rest => Ok (match skip_ws rest with [] => Some v | _ => None end)
  | PFail => Ok None
  | PRaise e => Raise e
  end.

(** A string literal in double quotes: [qt "a"] is the text ["a"]. *)
Definition qt (s : string) : string :=
  String "034" (s ++ String "034" EmptyString).

Example json_loads_ex1 :
  json_loads 10 ("{" ++ qt "a" ++ ": [1, 2.5, " ++ qt "x" ++ "], " ++ qt "b"
                 ++ ": {}, " ++ qt "a" ++ ": null}")
  = Ok (Some (JObj [("a", JNull); ("b", JObj [])])).
Proof. reflexivity. Qed.

Example json_loads_ex2 :
  json_loads 10 "[NaN, -Infinity, 01]" = Ok None
  /\ json_loads 10 "[NaN, -Infinity]" = Ok (Some (JArr [JFloat NaN; JFloat (Inf true)]))
  /\ json_loads 1 "[[]]" = Raise RecursionError
  /\ json_loads 10 "[-0.0, 1e400]" = Ok (Some (JArr [JFloat (Fin true 0 emin);
                                                     JFloat (Inf false)])).
Proof. vm_compute. repeat split. Qed.

(* ------------------------------------------------------------------ *)
(** ** Printing: [str], [repr] and [json.dumps] *)

Fixpoint strip_zeros (fuel : nat) (m e : Z) : Z * Z :=
  match fuel with
  | O => (m, e)
  | S f => if (m mod 10 =? 0) && negb (m =? 0) then strip_zeros f (m / 10) (e + 1)
           else (m, e)
  end.

(** The decimal [m * 10^e] written as Python's [repr] writes a float with
    these digits: positional between [1e-4] and [1e16], scientific
    outside. *)
Definition dec_repr (m0 e0 : Z) : string :=
  let '(m, e) := strip_zeros (length (digits_of m0)) m0 e0 in
  let sign := if m <? 0 then "-" else "" in
  let ds := digits_of m in
  let n := Z.of_nat (length ds) in
  let x := n - 1 + e in
  if m =? 0 then "0.0"
  else if (-4 <=? x) && (x <? 16) then
    if 0 <=? e then
      sign ++ string_of_list ds ++ string_of_list (repeat "0"%char (Z.to_nat e)) ++ ".0"
    else if 0 <=? x then
      sign ++ string_of_list (firstn (Z.to_nat (x + 1)) ds) ++ "."
           ++ string_of_list (skipn (Z.to_nat (x + 1)) ds)
    else
      sign ++ "0." ++ string_of_list (repeat "0"%char (Z.to_nat (- x - 1)))
           ++ string_of_list ds
  else
    let mant :=
      match ds with
      | [] => ""
      | [d] => String d EmptyString
      | d :: r => String d ("." ++ string_of_list r)
      end in
    let xd := digits_of x in
    sign ++ mant ++ "e" ++ (if x <? 0 then "-" else "+")
         ++ (if Nat.ltb (length xd) 2 then "0" else "") ++ string_of_list xd.

(** A positive double [m * 2^k] as the fraction [n / d]. *)
Definition frac_of (m k : Z) : Z * Z :=
  if 0 <=? k then (m * 2 ^ k, 1) else (m, 2 ^ (- k)).

Definition pow10_le (n d j : Z) : bool :=
  if 0 <=? j then d * 10 ^ j <=? n else d <=? n * 10 ^ (- j).

(** The shortest decimal that reads back as the double [m * 2^k] = [n / d],
    whose leading digit has weight [10^p]: with [len] digits, the two
    candidates around [n / d] are tried; when both read back the nearer
    one is taken (ties to even). *)
Fixpoint shortest_from (fuel : nat) (len m k n d p : Z) : Z * Z :=
  let E := p - len + 1 in
  let '(num, den) := if 0 <=? E then (n, d * 10 ^ E) else (n * 10 ^ (- E), d) in
  let lo := num / den in
  let r := num mod den in
  let nearest := if 2 * r <? den then lo else if den <? 2 * r then lo + 1
                 else if Z.even lo then lo else lo + 1 in
  let reads_back (c : Z) :=
    match of_decimal false c E with
    | Fin false m' k' => (m' =? m) && (k' =? k)
    | _ => false
    end in
  match fuel with
  | O => (nearest, E)
  | S f =>
      match reads_back lo, reads_back (lo + 1) with
      | true, true => (nearest, E)
      | true, false => (lo, E)
      | false, true => (lo + 1, E)
      | false, false => shortest_from f (len + 1) m k n d p
      end
  end.

(** [repr] of a Python [float]: the shortest digits that read back. *)
Definition float_repr (f : float) : string :=
  match f with
  | NaN => "nan"
  | Inf neg => if neg then "-inf" else "inf"
  | Fin neg m k =>
      if m =? 0 then (if neg then "-0.0" else "0.0")
      else
        let '(n, d) := frac_of m k in
        let p0 := Z.of_nat (length (digits_of n)) - Z.of_nat (length (digits_of d)) in
        let p := if pow10_le n d p0 then p0 else p0 - 1 in
        let '(D, E) := shortest_from 16 1 m k n d p in
        dec_repr (if neg then - D else D) E
  end.

(** A count of hundredths written with two decimals. *)
Definition fixed2 (neg : bool) (c : Z) : string :=
  (if neg then "-" else "") ++ z_to_string (c / 100) ++ "."
  ++ (if c mod 100 <? 10 then "0" else "") ++ z_to_string (c mod 100).

(** [f"{x:.2f}"] of a float: the exact binary value rounded to hundredths,
    ties to even; the sign of a negative value is kept even when it rounds
    to zero. *)
Definition float_2f (f : float) : string :=
  match f with
  | NaN => "nan"
  | Inf neg => if neg then "-inf" else "inf"
  | Fin neg m k => let '(n, d) := frac_of m k in fixed2 neg (round_div (100 * n) d)
  end.

Definition hex_digit (z : Z) : ascii :=
  if z <? 10 then ascii_of_Z (48 + z) else ascii_of_Z (87 + z).

Definition hex2 (v : Z) : string :=
  String (hex_digit ((v / 16) mod 16)) (String (hex_digit (v mod 16)) EmptyString).

Definition u_escape (v : Z) : string :=
  "\u" ++ String (hex_digit ((v / 4096) mod 16))
                 (String (hex_digit ((v / 256) mod 16)) (hex2 v)).

Fixpoint contains_char (c : ascii) (s : string) : bool :=
  match s with
  | EmptyString => false
  | String c' r => Ascii.eqb c c' || contains_char c r
  end.

(** One code point as [repr] of a [str] writes it inside quote [q]:
    backslash and the quote escaped; tab, newline and carriage return as
    their escapes; the other control characters, [0x7F] to [0xA0] and the
    soft hyphen [0xAD] as [\xNN]; a lone surrogate as [\uNNNN]. Other code
    points are written as they are, which is Python's output for all
    printable ones (the non-printable code points above [0xFF], which
    Python also escapes, are not told apart here). *)
Definition repr_cp (q : ascii) (g : string) : string :=
  let v := cp_value g in
  if v =? 92 then "\\"
  else if v =? ascii_val q then String "\" (String q EmptyString)
  else if v =? 9 then "\t"
  else if v =? 10 then "\n"
  else if v =? 13 then "\r"
  else if (v <? 32) || ((127 <=? v) && (v <=? 160)) || (v =? 173) then "\x" ++ hex2 v
  else if is_surrogate v then u_escape v
  else g.

(** [repr] of a Python [str]: single quotes unless the text holds a single
    quote and no double quote. *)
Definition str_repr (s : string) : string :=
  let q := if contains_char "'" s && negb (contains_char "034" s)
           then "034"%char else "'"%char in
  String q (String.concat "" (map (repr_cp q) (code_points s)) ++ String q EmptyString).

Fixpoint join (sep : string) (l : list string) : string :=
  match l with
  | [] => ""
  | [x] => x
  | x :: r => x ++ sep ++ join sep r
  end.

(** [repr] of a decoded value (what [str] shows of a list or a dict). *)
Fixpoint py_repr (v : json) : string :=
  match v with
  | JNull => "None"
  | JBool true => "True"
  | JBool false => "False"
  | JInt z => z_to_string z
  | JFloat f => float_repr f
  | JStr s => str_repr s
  | JArr l => "[" ++ join ", " (map py_repr l) ++ "]"
  | JObj kvs =>
      "{" ++ join ", " (map (fun kv => str_repr (fst kv) ++ ": " ++ py_repr (snd kv)) kvs)
          ++ "}"
  end.

(** [str] of a decoded value: a [str] is shown as it is. *)
Definition py_str (v : json) : string :=
  match v with JStr s => s | _ => py_repr v end.

(** One code point as [json.dumps] writes it ([ensure_ascii=True]): quote
    and backslash escaped, the short escapes for backspace, form feed,
    newline, carriage return and tab, the other code points outside
    [' '..'~'] as [\uXXXX] in lowercase hex, those above [0xFFFF] as a
    surrogate pair. *)
Definition dumps_cp (g : string) : string :=
  let v := cp_value g in
  if v =? 34 then String "\" (String "034" EmptyString)
  else if v =? 92 then "\\"
  else if v =? 8 then "\b"
  else if v =? 12 then "\f"
  else if v =? 10 then "\n"
  else if v =? 13 then "\r"
  else if v =? 9 then "\t"
  else if (32 <=? v) && (v <=? 126) then String (ascii_of_Z v) EmptyString
  else if v <? 65536 then u_escape v
  else u_escape (55296 + (v - 65536) / 1024) ++ u_escape (56320 + (v - 65536) mod 1024).

Definition dumps_str (s : string) : string :=
  String "034" (String.concat "" (map dumps_cp (code_points s)) ++ String "034" EmptyString).

(** [json.dumps] with its default separators; a non-finite float is
    written as [NaN], [Infinity] or [-Infinity] ([allow_nan=True]). *)
Fixpoint json_dumps (v : json) : string :=
  match v with
  | JNull => "null"
  | JBool true => "true"
  | JBool false => "false"
  | JInt z => z_to_string z
  | JFloat NaN => "NaN"
  | JFloat (Inf false) => "Infinity"
  | JFloat (Inf true) => "-Infinity"
  | JFloat f => float_repr f
  | JStr s => dumps_str s
  | JArr l => "[" ++ join ", " (map json_dumps l) ++ "]"
  | JObj kvs =>
      "{" ++ join ", " (map (fun kv => dumps_str (fst kv) ++ ": " ++ json_dumps (snd kv)) kvs)
          ++ "}"
  end.

Example py_repr_ex1 :
  py_repr (JArr [JStr "a"; JInt (-12); JFloat (of_decimal false 15 (-1));
                 JFloat (of_decimal false 1 16); JFloat (of_decimal false 1 (-1)); JNull])
  = "['a', -12, 1.5, 1e+16, 0.1, None]".
Proof. vm_compute. reflexivity. Qed.

Example json_dumps_ex1 :
  json_dumps (JObj [("a", JArr [JInt 1; JBool true]);
                    ("b", JFloat (of_decimal false 25 (-6)));
                    ("c", JFloat NaN);
                    ("d", JStr (String (ascii_of_Z 195) (String (ascii_of_Z 169) EmptyString)))])
  = "{" ++ qt "a" ++ ": [1, true], " ++ qt "b" ++ ": 2.5e-05, " ++ qt "c" ++ ": NaN, "
    ++ qt "d" ++ ": " ++ qt "\u00e9" ++ "}".
Proof. vm_compute. reflexivity. Qed.

Example float_2f_ex1 :
  float_2f (of_decimal false 2675 (-3)) = "2.67"
  /\ float_2f (of_decimal true 1 (-3)) = "-0.00".
Proof. vm_compute. split; reflexivity. Qed.

(* ------------------------------------------------------------------ *)
(** ** Python's dynamic operations on decoded values *)

(** Python truthiness. *)
Definition truthy (v : json) : bool :=
  match v with
  | JNull => false
  | JBool b => b
  | JInt z => negb (z =? 0)
  | JFloat f => negb (float_is_zero f)
  | JStr s => negb (String.eqb s "")
  | JArr l => negb (Nat.eqb (length l) 0)
  | JObj kvs => negb (Nat.eqb (length kvs) 0)
  end.

Fixpoint is_substring (needle hay : string) : bool :=
  String.prefix needle hay
  || match hay with EmptyString => false | String _ r => is_substring needle r end.

Definition json_eqb_str (k : string) (v : json) : bool :=
  match v with JStr s => String.eqb k s | _ => false end.

(** [k in container] for a string [k]: a key test on a dict, an element
    test on a list, a substring test on a string, and a [TypeError] on
    [None], booleans and numbers. *)
Definition py_in (k : string) (container : json) : result bool :=
  match container with
  | JObj kvs => Ok (match dict_lookup k kvs with Some _ => true | None => false end)
  | JArr l => Ok (existsb (json_eqb_str k) l)
  | JStr s => Ok (is_substring k s)
  | _ => Raise TypeError
  end.

(** [container[k]] for a string [k]. *)
Definition py_getitem (container : json) (k : string) : result json :=
  match container with
  | JObj kvs => match dict_lookup k kvs with Some v => Ok v | None => Raise KeyError end
  | _ => Raise TypeError
  end.

(** [obj.get(k, default)]: only dicts have a [get] method. *)
Definition py_get (obj : json) (k : string) (default : json) : result json :=
  match obj with
  | JObj kvs => Ok (match dict_lookup k kvs with Some v => v | None => default end)
  | _ => Raise AttributeError
  end.

Definition py_len (v : json) : result Z :=
  match v with
  | JStr s => Ok (Z.of_nat (length (code_points s)))
  | JArr l => Ok (Z.of_nat (length l))
  | JObj kvs => Ok (Z.of_nat (length kvs))
  | _ => Raise TypeError
  end.

(** The items a [for] loop visits: list elements, dict keys, or the
    characters of a string. *)
Definition py_iter (v : json) : result (list json) :=
  match v with
  | JArr l => Ok l
  | JObj kvs => Ok (map (fun kv => JStr (fst kv)) kvs)
  | JStr s => Ok (map JStr (code_points s))
  | _ => Raise TypeError
  end.

(** A number operand: an [int] ([bool] counts as one) or a [float]. *)
Definition as_num (v : json) : option (Z + float) :=
  match v with
  | JBool true => Some (inl 1)
  | JBool false => Some (inl 0)
  | JInt z => Some (inl z)
  | JFloat f => Some (inr f)
  | _ => None
  end.

Definition num_to_float (x : Z + float) : option float :=
  match x with inl z => int_to_float z | inr f => Some f end.

(** [a + b] on numbers: exact on two [int]s; otherwise the [int] operand is
    converted to a float ([OverflowError] past the largest double) and the
    doubles are added. Anything else is a [TypeError]. *)
Definition num_add (a b : json) : result json :=
  match as_num a, as_num b with
  | Some (inl x), Some (inl y) => Ok (JInt (x + y))
  | Some x, Some y =>
      match num_to_float x, num_to_float y with
      | Some fx, Some fy => Ok (JFloat (float_add fx fy))
      | _, _ => Raise OverflowError
      end
  | _, _ => Raise TypeError
  end.

(** [sum(values)], which starts from the [int] [0] and adds the values in
    turn (Python 3.11; later versions compensate float rounding). *)
Definition py_sum (vs : list json) : result json :=
  fold_left (fun acc v => match acc with Ok a => num_add a v | Raise e => Raise e end)
            vs (Ok (JInt 0)).

Example py_sum_ex1 : py_sum [JInt 5; JInt 2] = Ok (JInt 7).
Proof. reflexivity. Qed.

(* ------------------------------------------------------------------ *)
(** ** The SQLite database *)

(** A value stored by SQLite. *)
Inductive sqlval : Type :=
| SNull
| SInt (z : Z)
| SReal (f : float)
| SText (s : string).

(** A table whose first column is [api_id INTEGER PRIMARY KEY], the
    rowid: rows are kept with their key, in insertion order. The other
    columns are untyped here: the affinity of a declared column type,
    which may turn a text into a number, is not modelled. *)
Record table : Type := mkTable {
  t_name : string;
  t_cols : list string;
  t_rows : list (Z * list sqlval)
}.

(** A [CREATE TABLE name (cols...)] statement. *)
Record schema_sql : Type := CreateTable {
  sc_name : string;
  sc_cols : list string
}.

Definition lower (c : ascii) : ascii :=
  let v := ascii_val c in
  if (65 <=? v) && (v <=? 90) then ascii_of_Z (v + 32) else c.

Fixpoint lower_string (s : string) : string :=
  match s with EmptyString => EmptyString | String c r => String (lower c) (lower_string r) end.

(** [SELECT name FROM sqlite_master WHERE type='table' AND name=?]: an
    exact (case-sensitive) comparison. *)
Definition table_exists (ts : list table) (name : string) : bool :=
  existsb (fun t => String.eqb (t_name t) name) ts.

(** Executing [CREATE TABLE]: SQLite refuses a name already taken, where
    table names compare without case. *)
Definition exec_create (ts : list table) (sc : schema_sql) : result (list table) :=
  if existsb (fun t => String.eqb (lower_string (t_name t)) (lower_string (sc_name sc))) ts
  then Raise SqliteError
  else Ok (app ts [mkTable (sc_name sc) (sc_cols sc) []]).

Definition int64_min : Z := - 2 ^ 63.
Definition int64_max : Z := 2 ^ 63 - 1.

(** Binding one Python value as a statement parameter ([sqlite3]'s
    adaptation): an [int] outside 64 bits raises [OverflowError] and a
    [str] holding a lone surrogate raises [UnicodeEncodeError] (it has no
    UTF-8 form), neither an [sqlite3.Error]; a [dict] or [list] is refused
    with [ProgrammingError], which is one. SQLite stores a NaN as
    [NULL]. *)
Definition bind_param (v : json) : result sqlval :=
  match v with
  | JNull => Ok SNull
  | JBool b => Ok (SInt (if b then 1 else 0))
  | JInt z => if (int64_min <=? z) && (z <=? int64_max) then Ok (SInt z) else Raise OverflowError
  | JFloat NaN => Ok SNull
  | JFloat f => Ok (SReal f)
  | JStr s => if has_surrogate s then Raise UnicodeEncodeError else Ok (SText s)
  | JArr _ | JObj _ => Raise SqliteError
  end.

Fixpoint bind_params (vs : list json) : result (list sqlval) :=
  match vs with
  | [] => Ok []
  | v :: r =>
      match bind_param v with
      | Raise e => Raise e
      | Ok s => match bind_params r with Ok ss => Ok (s :: ss) | Raise e => Raise e end
      end
  end.

(** The spaces SQLite trims around a number in a text. *)
Definition sqlite_space (c : ascii) : bool :=
  (ascii_val c =? 32) || ((9 <=? ascii_val c) && (ascii_val c <=? 13)).

Fixpoint drop_spaces (l : list ascii) : list ascii :=
  match l with c :: r => if sqlite_space c then drop_spaces r else l | [] => [] end.

Inductive num_text : Type :=
| NInt (z : Z)
| NReal (f : float).

(** A text read as a number (SQLite's [sqlite3AtoF]): surrounding spaces,
    an optional sign, digits with an optional [.] and fraction (at least
    one digit in all), an optional exponent with digits, nothing else. An
    integer literal within 64 bits is an integer, any other literal the
    nearest double. (SQLite's own conversion can be off by one unit in the
    last place on literals of more than 17 significant digits.) *)
Definition text_numeric (s : string) : option num_text :=
  let l := drop_spaces (rev (drop_spaces (rev (list_of_string s)))) in
  let '(neg, l1) :=
    match l with
    | "-"%char :: r => (true, r)
    | "+"%char :: r => (false, r)
    | _ => (false, l)
    end in
  let '(ids, l2) := take_digits l1 in
  let '(fds, l3, dot) :=
    match l2 with
    | "."%char :: r => let '(fs, r') := take_digits r in (fs, r', true)
    | _ => ([], l2, false)
    end in
  let '(ex, l4, has_e, e_ok) :=
    match l3 with
    | c :: r =>
        if Ascii.eqb c "e" || Ascii.eqb c "E" then
          let '(eneg, r1) :=
            match r with
            | "-"%char :: r2 => (true, r2)
            | "+"%char :: r2 => (false, r2)
            | _ => (false, r)
            end in
          let '(eds, r3) := take_digits r1 in
          (if eneg then - digits_value eds else digits_value eds, r3, true,
           negb (Nat.eqb (length eds) 0))
        else (0, l3, false, true)
    | [] => (0, [], false, true)
    end in
  if (Nat.eqb (length ids) 0 && Nat.eqb (length fds) 0) || negb e_ok then None
  else
    match l4 with
    | _ :: _ => None
    | [] =>
        if negb dot && negb has_e then
          let z := if neg then - digits_value ids else digits_value ids in
          if (int64_min <=? z) && (z <=? int64_max) then Some (NInt z)
          else Some (NReal (of_decimal neg (digits_value ids) 0))
        else Some (NReal (of_decimal neg (digits_value (app ids fds))
                                     (ex - Z.of_nat (length fds))))
    end.

(** A REAL as a rowid: only an integral value strictly between [-2^63] and
    [2^63] is one. *)
Definition real_key (f : float) : option (option Z) :=
  match f with
  | Fin neg m k =>
      let v := if 0 <=? k then m * 2 ^ k else m / 2 ^ (- k) in
      let exact := (0 <=? k) || (m mod 2 ^ (- k) =? 0) in
      let z := if neg then - v else v in
      if exact && (int64_min <? z) && (z <=? int64_max) then Some (Some z) else None
  | Inf _ => None
  | NaN => Some None
  end.

(** The rowid a value in the [INTEGER PRIMARY KEY] column stands for:
    [Some None] for [NULL] (SQLite picks a fresh rowid), [None] for a
    datatype mismatch. *)
Definition rowid_of (v : sqlval) : option (option Z) :=
  match v with
  | SNull => Some None
  | SInt z => Some (Some z)
  | SReal f => real_key f
  | SText s =>
      match text_numeric s with
      | Some (NInt z) => Some (Some z)
      | Some (NReal f) => real_key f
      | None => None
      end
  end.

Definition key_taken (rows : list (Z * list sqlval)) (k : Z) : bool :=
  existsb (fun kr => fst kr =? k) rows.

Fixpoint first_free (fuel : nat) (k : Z) (rows : list (Z * list sqlval)) : Z :=
  match fuel with
  | O => k
  | S f => if key_taken rows k then first_free f (k + 1) rows else k
  end.

(** The rowid SQLite assigns to a [NULL] key: [1] in an empty table, else
    one more than the largest key. When the largest key is [2^63 - 1]
    SQLite picks an unused key at random; the least unused positive key
    stands for that choice here. *)
Definition fresh_rowid (rows : list (Z * list sqlval)) : Z :=
  match rows with
  | [] => 1
  | kr :: r =>
      let m := fold_left (fun m kr => Z.max m (fst kr)) r (fst kr) in
      if m <? int64_max then m + 1 else first_free (S (length rows)) 1 rows
  end.

(** One [INSERT OR IGNORE] of a row, its values in the table's column
    order, the first for the [INTEGER PRIMARY KEY]: the new rows and the
    number of rows changed (0 when the key is taken). *)
Definition insert_or_ignore (rows : list (Z * list sqlval)) (r : list sqlval)
  : result (list (Z * list sqlval) * Z) :=
  match r with
  | [] => Raise SqliteError
  | v :: _ =>
      match rowid_of v with
      | None => Raise SqliteError
      | Some None => Ok (app rows [(fresh_rowid rows, SInt (fresh_rowid rows) :: tl r)], 1)
      | Some (Some k) =>
          if key_taken rows k then Ok (rows, 0) else Ok (app rows [(k, SInt k :: tl r)], 1)
      end
  end.

(** The position of the first column named [c] in [cols]; SQLite
    compares column names without case. *)
Fixpoint col_index (c : string) (cols : list string) : option nat :=
  match cols with
  | [] => None
  | c' :: r => if String.eqb (lower_string c') (lower_string c) then Some O
               else option_map S (col_index c r)
  end.

(** A bound tuple of [INSERT INTO t (cols) VALUES (?, ...)] as a row of a
    table with the columns [tcols]: a column the statement does not name
    is [NULL], and a column it names twice takes the first value. *)
Definition arrange (tcols cols : list string) (r : list sqlval) : list sqlval :=
  map (fun c => match col_index c cols with Some i => nth i r SNull | None => SNull end) tcols.

(** Whether [INSERT INTO t (cols) ...] compiles on a table with the columns
    [tcols]: the column list is not empty and names only columns of the
    table. *)
Definition insert_cols_ok (tcols cols : list string) : bool :=
  negb (Nat.eqb (length cols) 0)
  && forallb (fun c => match col_index c tcols with Some _ => true | None => false end) cols.

(** [cursor.executemany(sql, data)] of [INSERT OR IGNORE INTO t (cols)
    VALUES (?, ...)] on the rows of a table with the columns [tcols]: each
    parameter tuple is checked against the number of placeholders
    ([ProgrammingError]), bound and executed in turn; [rowcount] is the
    sum of the changes. *)
Fixpoint executemany (tcols cols : list string) (rows : list (Z * list sqlval))
    (data : list (list json)) : result (list (Z * list sqlval) * Z) :=
  match data with
  | [] => Ok (rows, 0)
  | d :: ds =>
      if negb (Nat.eqb (length d) (length cols)) then Raise SqliteError
      else
        match bind_params d with
        | Raise e => Raise e
        | Ok r =>
            match insert_or_ignore rows (arrange tcols cols r) with
            | Raise e => Raise e
            | Ok (rows', n) =>
                match executemany tcols cols rows' ds with
                | Raise e => Raise e
                | Ok (rows'', m) => Ok (rows'', n + m)
                end
            end
        end
  end.

Fixpoint find_table (ts : list table) (name : string) : option table :=
  match ts with
  | [] => None
  | t :: r => if String.eqb (lower_string (t_name t)) (lower_string name) then Some t
              else find_table r name
  end.

Fixpoint replace_rows (ts : list table) (name : string) (rows : list (Z * list sqlval))
  : list table :=
  match ts with
  | [] => []
  | t :: r =>
      if String.eqb (lower_string (t_name t)) (lower_string name)
      then mkTable (t_name t) (t_cols t) rows :: r
      else t :: replace_rows r name rows
  end.

(** [INSERT OR IGNORE INTO table (cols) VALUES (?, ...)] run by
    [executemany]: a missing table, an empty column list and a column the
    table lacks are an [sqlite3.OperationalError] before any tuple is
    bound. *)
Definition exec_insert_many (ts : list table) (name : string) (cols : list string)
    (data : list (list json)) : result (list table * Z) :=
  match find_table ts name with
  | None => Raise SqliteError
  | Some t =>
      if negb (insert_cols_ok (t_cols t) cols) then Raise SqliteError
      else
        match executemany (t_cols t) cols (t_rows t) data with
        | Raise e => Raise e
        | Ok (rows, n) => Ok (replace_rows ts name rows, n)
        end
  end.

(* ------------------------------------------------------------------ *)
(** ** The world and the monad *)

Inductive level : Type := INFO | WARNING | ERROR.

(** What the code leaves observable besides the database: log lines, the
    requests it sends, and the opening, committing, rolling back and
    closing of its database connection. *)
Inductive event : Type :=
| Log (lvl : level) (msg : string)
| Request (url : string) (params : list (string * json))
| Connect
| Commit
| Rollback
| Close.

(** The outcome of one HTTP GET: a timeout, another network failure
    (DNS, refused connection, ...), or a response with its status and
    body. *)
Inductive http_result : Type :=
| HTimeout
| HConnError
| HResponse (status : Z) (body : string).

Record world : Type := mkWorld {
  w_db_ok : bool;              (** whether [sqlite3.connect] succeeds *)
  w_tables : list table;       (** the committed database *)
  w_events : list event
}.

Definition M (A : Type) : Type := world -> result A * world.

Definition ret {A} (a : A) : M A := fun w => (Ok a, w).
Definition bind {A B} (m : M A) (k : A -> M B) : M B :=
  fun w => match m w with
           | (Ok a, w') => k a w'
           | (Raise e, w') => (Raise e, w')
           end.
Definition raise {A} (e : exc) : M A := fun w => (Raise e, w).

Notation "x <- c1 ;; c2" := (bind c1 (fun x => c2))
  (at level 61, c1 at next level, right associativity).
Notation "c1 ;; c2" := (bind c1 (fun _ => c2))
  (at level 61, right associativity).

(** A pure Python operation that may raise. *)
Definition lift {A} (r : result A) : M A :=
  match r with Ok a => ret a | Raise e => raise e end.

Definition emit (e : event) : M unit :=
  fun w => (Ok tt, mkWorld (w_db_ok w) (w_tables w) (app (w_events w) [e])).

Definition log (lvl : level) (msg : string) : M unit := emit (Log lvl msg).

Definition set_tables (ts : list table) : M unit :=
  fun w => (Ok tt, mkWorld (w_db_ok w) ts (w_events w)).

Definition get_tables : M (list table) := fun w => (Ok (w_tables w), w).

(** [try: body except sqlite3.Error: handler]. *)
Definition try_sqlite {A} (body : M A) (handler : M A) : M A :=
  fun w => match body w with
           | (Raise SqliteError, w') => handler w'
           | r => r
           end.

(** [try: body finally: fin]. *)
Definition try_finally {A} (body : M A) (fin : M unit) : M A :=
  fun w => match body w with
           | (r, w') => match fin w' with
                        | (Ok _, w'') => (r, w'')
                        | (Raise e, w'') => (Raise e, w'')
                        end
           end.

(* ------------------------------------------------------------------ *)
(** ** The API client *)

Definition BASE_API_URL : string := "https://dummyjson.com/".

(** [fetch_api_data(entity, params)] against the network [net], decoding
    the body with the recursion budget [depth]. Python's [None] is [JNull]
    here: a body that decodes to JSON [null] and every failure give the
    same value. The decode failure is reported by the handler that catches
    it first; with current [requests] that is the [RequestException]
    clause. [response.json()] turns only a [JSONDecodeError] into that
    exception: the [ValueError] of an over-long integer literal and a
    [RecursionError] leave the function. *)
Definition fetch_api_data (net : string -> list (string * json) -> http_result)
    (depth : nat) (entity : string) (params : list (string * json)) : M json :=
  let url := BASE_API_URL ++ entity in
  log INFO ("API request: " ++ url) ;;
  emit (Request url params) ;;
  match net url params with
  | HTimeout => log ERROR ("Timeout requesting " ++ url) ;; ret JNull
  | HConnError => log ERROR ("Network error requesting " ++ url) ;; ret JNull
  | HResponse status body =>
      if (400 <=? status) && (status <? 600) then
        log ERROR ("Network error requesting " ++ url) ;; ret JNull
      else
        log INFO ("API answered: HTTP " ++ z_to_string status) ;;
        match json_loads depth body with
        | Ok (Some v) => ret v
        | Ok None => log ERROR ("Invalid JSON from " ++ url) ;; ret JNull
        | Raise e => raise e
        end
  end.

(* ------------------------------------------------------------------ *)
(** ** The storage functions *)

(** [get_db_connection()]: [true] for a connection, [false] for [None]. *)
Definition get_db_connection : M bool :=
  fun w =>
    if w_db_ok w then
      (emit Connect ;; log INFO "Connected to the database" ;; ret true) w
    else (log ERROR "Database connection error" ;; ret false) w.

Definition close_connection : M unit :=
  emit Close ;; log INFO "Database connection closed".

(** [init_db_table(conn, table_name, schema_sql)]. *)
Definition init_db_table (table_name : string) (schema : schema_sql) : M bool :=
  try_sqlite
    (ts <- get_tables ;;
     (if table_exists ts table_name then
        log INFO ("Table '" ++ table_name ++ "' already exists")
      else
        log INFO ("Table '" ++ table_name ++ "' not found. Creating...") ;;
        ts' <- lift (exec_create ts schema) ;;
        set_tables ts' ;;
        emit Commit ;;
        log INFO ("Table '" ++ table_name ++ "' created")) ;;
     ret true)
    (log ERROR ("Error initialising table '" ++ table_name ++ "'") ;;
     emit Rollback ;;
     ret false).

(** [save_data_to_db(conn, table_name, data, columns)]. The changes of a
    failed [executemany] are never committed: [rollback] drops them after
    an [sqlite3.Error], and closing the connection drops them after any
    other exception. *)
Definition save_data_to_db (table_name : string) (data : list (list json))
    (columns : list string) : M Z :=
  match data with
  | [] => log INFO "No data to save" ;; ret 0
  | _ =>
      try_sqlite
        (ts <- get_tables ;;
         res <- lift (exec_insert_many ts table_name columns data) ;;
         let '(ts', saved_count) := res in
         set_tables ts' ;;
         emit Commit ;;
         (if 0 <? saved_count then
            log INFO ("Saved " ++ z_to_string saved_count ++ " new rows into '"
                      ++ table_name ++ "'")
          else log INFO ("No new rows added to '" ++ table_name ++ "'")) ;;
         ret saved_count)
        (log ERROR ("Error saving into '" ++ table_name ++ "'") ;;
         emit Rollback ;;
         ret 0)
  end.

(* ------------------------------------------------------------------ *)
(** ** The processors *)

Section Processors.

Variable net : string -> list (string * json) -> http_result.
(** The recursion budget of [json.loads] inside [fetch_api_data]. *)
Variable depth : nat.

(** [obj.get(k)] for each key in turn. *)
Fixpoint py_gets (obj : json) (ks : list string) : result (list json) :=
  match ks with
  | [] => Ok []
  | k :: r =>
      match py_get obj k JNull with
      | Raise e => Raise e
      | Ok v => match py_gets obj r with Ok vs => Ok (v :: vs) | Raise e => Raise e end
      end
  end.

(** The [for] loop that builds [data_to_save]: [row] is the loop body,
    [None] standing for [continue]. *)
Fixpoint prepare_rows (row : json -> M (option (list json))) (items : list json)
    (data_to_save : list (list json)) : M (list (list json)) :=
  match items with
  | [] => ret data_to_save
  | x :: r =>
      o <- row x ;;
      prepare_rows row r (match o with
                          | Some t => app data_to_save [t]
                          | None => data_to_save
                          end)
  end.

(** What differs between the three processors. *)
Record entity : Type := mkEntity {
  e_field : string;                       (** the array field of the response *)
  e_table : string;
  e_schema : schema_sql;
  e_columns : list string;
  e_row : json -> M (option (list json))  (** the body of the record loop *)
}.

(** The shared skeleton of [process_products], [process_users] and
    [process_posts], from the API call on. *)
Definition process_entity (e : entity) (endpoint : string)
    (params : list (string * json)) : M unit :=
  api_response <- fetch_api_data net depth endpoint params ;;
  has_data <-
    (if negb (truthy api_response) then ret false
     else
       present <- lift (py_in (e_field e) api_response) ;;
       if negb present then ret false
       else v <- lift (py_getitem api_response (e_field e)) ;; ret (truthy v)) ;;
  if negb has_data then
    log WARNING ("Could not get " ++ e_field e ++ " or none found")
  else
    items_list <- lift (py_getitem api_response (e_field e)) ;;
    n <- lift (py_len items_list) ;;
    log INFO ("Got " ++ z_to_string n ++ " " ++ e_field e) ;;
    conn <- get_db_connection ;;
    if negb conn then log ERROR "Could not connect to the database"
    else
      try_finally
        (ok <- init_db_table (e_table e) (e_schema e) ;;
         if negb ok then log ERROR ("Could not initialise table " ++ e_table e)
         else
           items <- lift (py_iter items_list) ;;
           data_to_save <- prepare_rows (e_row e) items [] ;;
           saved_count <- save_data_to_db (e_table e) data_to_save (e_columns e) ;;
           total_count <- lift (py_len items_list) ;;
           if 0 <? saved_count then
             log INFO ("Done: added " ++ z_to_string saved_count ++ " of "
                       ++ z_to_string total_count)
           else log INFO "Done: no new rows")
        close_connection.

(** *** Products *)

Definition products_columns : list string :=
  ["api_id"; "title"; "description"; "price"; "discountPercentage";
   "rating"; "stock"; "brand"; "category"; "thumbnail"; "images"].

Definition products_schema : schema_sql := CreateTable "products" products_columns.

Definition product_row (product : json) : M (option (list json)) :=
  has_id <- lift (py_in "id" product) ;;
  if negb has_id then
    title <- lift (py_get product "title" (JStr "Unknown")) ;;
    log WARNING ("Product without ID skipped: " ++ py_str title) ;;
    ret None
  else
    fields <- lift (py_gets product
                      ["id"; "title"; "description"; "price"; "discountPercentage";
                       "rating"; "stock"; "brand"; "category"; "thumbnail"]) ;;
    images <- lift (py_get product "images" (JArr [])) ;;
    ret (Some (app fields [JStr (json_dumps images)])).

Definition products_entity : entity :=
  mkEntity "products" "products" products_schema products_columns product_row.

Definition process_products (search_query : string) : M unit :=
  log INFO ("Processing products for query: '" ++ search_query ++ "'") ;;
  process_entity products_entity "products/search" [("q", JStr search_query)].

(** *** Users *)

Definition users_columns : list string :=
  ["api_id"; "firstName"; "lastName"; "maidenName"; "age"; "gender"; "email";
   "phone"; "username"; "password"; "birthDate"; "image"; "bloodGroup";
   "height"; "weight"; "eyeColor"; "hair"; "domain"; "ip"; "address";
   "macAddress"; "university"; "bank"; "company"; "ein"; "ssn"; "userAgent"].

Definition users_schema : schema_sql := CreateTable "users" users_columns.

Definition user_row (user : json) : M (option (list json)) :=
  has_id <- lift (py_in "id" user) ;;
  if negb has_id then
    username <- lift (py_get user "username" (JStr "Unknown")) ;;
    log WARNING ("User without ID skipped: " ++ py_str username) ;;
    ret None
  else
    hair <- lift (py_get user "hair" (JObj [])) ;;
    address <- lift (py_get user "address" (JObj [])) ;;
    bank <- lift (py_get user "bank" (JObj [])) ;;
    company <- lift (py_get user "company" (JObj [])) ;;
    f1 <- lift (py_gets user
                  ["id"; "firstName"; "lastName"; "maidenName"; "age"; "gender";
                   "email"; "phone"; "username"; "password"; "birthDate"; "image";
                   "bloodGroup"; "height"; "weight"; "eyeColor"]) ;;
    f2 <- lift (py_gets user ["domain"; "ip"]) ;;
    f3 <- lift (py_gets user ["macAddress"; "university"]) ;;
    f4 <- lift (py_gets user ["ein"; "ssn"; "userAgent"]) ;;
    ret (Some (app f1 (JStr (json_dumps hair) :: app f2 (JStr (json_dumps address)
               :: app f3 (JStr (json_dumps bank) :: JStr (json_dumps company) :: f4))))).

Definition users_entity : entity :=
  mkEntity "users" "users" users_schema users_columns user_row.

Definition process_users (limit skip : Z) : M unit :=
  log INFO ("Processing users (limit: " ++ z_to_string limit ++ ", skip: "
            ++ z_to_string skip ++ ")") ;;
  process_entity users_entity "users" [("limit", JInt limit); ("skip", JInt skip)].

(** *** Posts *)

Definition posts_columns : list string :=
  ["api_id"; "title"; "body"; "userId"; "tags"; "reactions"].

Definition posts_schema : schema_sql := CreateTable "posts" posts_columns.

(** [if isinstance(reactions, dict): reactions = sum(reactions.values())]. *)
Definition normalize_reactions (reactions : json) : result json :=
  match reactions with
  | JObj kvs => py_sum (map snd kvs)
  | _ => Ok reactions
  end.

Definition post_row (post : json) : M (option (list json)) :=
  has_id <- lift (py_in "id" post) ;;
  if negb has_id then
    title <- lift (py_get post "title" (JStr "Unknown")) ;;
    log WARNING ("Post without ID skipped: " ++ py_str title) ;;
    ret None
  else
    reactions0 <- lift (py_get post "reactions" (JInt 0)) ;;
    reactions <- lift (normalize_reactions reactions0) ;;
    fields <- lift (py_gets post ["id"; "title"; "body"; "userId"]) ;;
    tags <- lift (py_get post "tags" (JArr [])) ;;
    ret (Some (app fields [JStr (json_dumps tags); reactions])).

Definition posts_entity : entity :=
  mkEntity "posts" "posts" posts_schema posts_columns post_row.

(** [if user_id:] on an [Optional[int]]: [None] and [0] are false. *)
Definition opt_int_truthy (o : option Z) : bool :=
  match o with Some u => negb (u =? 0) | None => false end.

Definition process_posts (limit skip : Z) (user_id : option Z) : M unit :=
  let params := [("limit", JInt limit); ("skip", JInt skip)] in
  match user_id with
  | Some u =>
      if opt_int_truthy user_id then
        log INFO ("Processing posts of user #" ++ z_to_string u) ;;
        process_entity posts_entity ("users/" ++ z_to_string u ++ "/posts") params
      else
        log INFO "Processing all posts" ;;
        process_entity posts_entity "posts" params
  | None =>
      log INFO "Processing all posts" ;;
      process_entity posts_entity "posts" params
  end.

End Processors.

(* ------------------------------------------------------------------ *)
(** ** The inspector's [format_value] *)

(** [str] of a value read back from SQLite ([None], [int], [float] or
    [str]). *)
Definition sql_str (v : sqlval) : string :=
  match v with
  | SNull => "None"
  | SInt z => z_to_string z
  | SReal f => float_repr f
  | SText s => s
  end.

Definition sql_truthy (v : sqlval) : bool :=
  match v with
  | SNull => false
  | SInt z => negb (z =? 0)
  | SReal f => negb (float_is_zero f)
  | SText s => negb (String.eqb s "")
  end.

(** [f"{value:.2f}"] for an [int], which is converted to a float first,
    and for a [float]. *)
Definition format_2f (v : sqlval) : result string :=
  match v with
  | SInt z =>
      match int_to_float z with
      | Some f => Ok (float_2f f)
      | None => Raise OverflowError
      end
  | SReal f => Ok (float_2f f)
  | _ => Ok (sql_str v)
  end.

Definition JSON_KEYS : list string := ["images"; "tags"; "hair"; "address"; "bank"; "company"].

Definition in_keys (key : string) (ks : list string) : bool := existsb (String.eqb key) ks.

(** [", ".join(data)]: every element must be a [str]. *)
Fixpoint json_strs (l : list json) : option (list string) :=
  match l with
  | [] => Some []
  | JStr s :: r => match json_strs r with Some ss => Some (s :: ss) | None => None end
  | _ :: _ => None
  end.

Definition join_strs (l : list json) : option string :=
  match json_strs l with Some ss => Some (join ", " ss) | None => None end.

(** The JSON branch of [format_value], with the recursion budget [depth]
    of its [json.loads]; [Ok None] stands for the [JSONDecodeError] or
    [TypeError] the [except] clause catches. The other exceptions of
    [json.loads] ([RecursionError], and the [ValueError] of an over-long
    integer literal, which is not a [JSONDecodeError]) are not caught. *)
Definition format_json (depth : nat) (key : string) (value : sqlval)
  : result (option string) :=
  match value with
  | SText s =>
      match json_loads depth s with
      | Raise e => Raise e
      | Ok None => Ok None
      | Ok (Some data) => Ok (
          match data with
          | JArr l =>
              if String.eqb key "images" && negb (Nat.eqb (length l) 0) then
                let first_image := py_str (hd JNull l) in
                if Nat.ltb 1 (length l) then
                  Some (first_image ++ " (+ еще " ++ z_to_string (Z.of_nat (length l) - 1) ++ ")")
                else Some first_image
              else if String.eqb key "tags" && negb (Nat.eqb (length l) 0) then
                join_strs l
              else Some (py_str data)
          | JObj kvs =>
              if negb (Nat.eqb (length kvs) 0) then
                let items := map (fun kv => fst kv ++ ": " ++ py_str (snd kv)) (firstn 3 kvs) in
                let items := if Nat.ltb 3 (length kvs)
                             then app items ["... (" ++ z_to_string (Z.of_nat (length kvs) - 3)
                                              ++ " скрыто)"]
                             else items in
                Some ("{" ++ join ", " items ++ "}")
              else Some (py_str data)
          | _ => Some (py_str data)
          end)
      end
  | _ => Ok None   (** [json.loads] of a number: [TypeError] *)
  end.

(** [format_value(key, value)], with the recursion budget [depth] of its
    [json.loads]. *)
Definition format_value (depth : nat) (key : string) (value : sqlval) : result string :=
  match value with
  | SNull => Ok "NULL"
  | _ =>
      if in_keys key JSON_KEYS && sql_truthy value then
        match format_json depth key value with
        | Raise e => Raise e
        | Ok (Some out) => Ok out
        | Ok None => Ok (sql_str value)
        end
      else
        match value with
        | SText s =>
            if in_keys key ["description"; "body"] && Nat.ltb 50 (length (code_points s))
            then Ok (String.concat "" (firstn 47 (code_points s)) ++ "...")
            else Ok (sql_str value)
        | SInt _ | SReal _ =>
            if in_keys key ["price"; "discountPercentage"] then format_2f value
            else Ok (sql_str value)
        | SNull => Ok (sql_str value)
        end
  end.

Example format_value_ex1 :
  format_value 10 "images" (SText ("[" ++ qt "a.png" ++ ", " ++ qt "b.png" ++ ", " ++ qt "c.png" ++ "]"))
  = Ok "a.png (+ еще 2)".
Proof. reflexivity. Qed.

Example format_value_ex2 :
  format_value 10 "price" (SReal (of_decimal false 2675 (-3))) = Ok "2.67"
  /\ format_value 10 "price" (SInt 3) = Ok "3.00"
  /\ format_value 1 "tags" (SText "[[]]") = Raise RecursionError.
Proof. vm_compute. repeat split. Qed.



(* ------------------------------------------------------------------ *)
(** ** The entry point of [processor.py] *)

Definition DB_NAME : string := "dummy_data.db".
Definition DEFAULT_SKIP : Z := 0.

(** The [--clean] step of the [__main__] block: the lines it prints and
    the world the processors start in. *)
Definition clean_step (argv : list string) (db_exists : bool) (remove : option string)
    (w : world) : list string * world :=
  if Nat.ltb 1 (length argv) && String.eqb (nth 1 argv "") "--clean" && db_exists then
    match remove with
    | None => (["[ИНФОРМАЦИЯ] База данных " ++ DB_NAME ++ " удалена для чистого запуска."],
               mkWorld (w_db_ok w) [] (w_events w))
    | Some msg => (["[ОШИБКА] Не удалось удалить базу данных: " ++ msg], w)
    end
  else ([], w).

(** The [if __name__ == "__main__"] block. [argv] is [sys.argv],
    [db_exists] the answer of [os.path.exists(DB_NAME)] and [remove] the
    outcome of [os.remove(DB_NAME)]: [None] when the file is removed (the
    next [sqlite3.connect] then starts an empty database), [Some msg] for
    an [OSError] whose text is [msg]. The result holds the lines printed,
    what the block ends with (an exception of a processor ends the
    script) and the world. *)
Definition processor_main (net : string -> list (string * json) -> http_result)
    (depth : nat) (argv : list string) (db_exists : bool) (remove : option string) (w : world)
  : list string * result unit * world :=
  let '(out0, w0) := clean_step argv db_exists remove w in
  let out1 := app out0 ["Запуск обработки данных из DummyJSON API..."] in
  match process_products net depth "iPhone" w0 with
  | (Raise e, w1) => (out1, Raise e, w1)
  | (Ok _, w1) =>
      match process_users net depth 20 DEFAULT_SKIP w1 with
      | (Raise e, w2) => (out1, Raise e, w2)
      | (Ok _, w2) =>
          match process_posts net depth 30 DEFAULT_SKIP None w2 with
          | (Raise e, w3) => (out1, Raise e, w3)
          | (Ok _, w3) =>
              (app out1 ["Обработка данных завершена!";
                         "Для просмотра базы данных запустите: python dummy/view_db.py"],
               Ok tt, w3)
          end
      end
  end.

(* ------------------------------------------------------------------ *)
(** ** The inspector's reading of the database *)

(** A column as [PRAGMA table_info] describes it: its name, its declared
    type, its [notnull] flag and its [pk] entry (its position in the
    primary key, 0 when it is not part of it). *)
Record column_info : Type := mkColumn {
  c_name : string;
  c_type : string;
  c_notnull : bool;
  c_pk : Z
}.

(** A table of the inspected file: its columns, and its rows in the order
    a scan without [ORDER BY] returns them (rowid order). *)
Record vtable : Type := mkVTable {
  v_name : string;
  v_cols : list column_info;
  v_rows : list (list sqlval)
}.

(** The file at the path given: missing; present but refused by
    [sqlite3.connect] (a directory, no permission); opened but not a
    database, so that every statement fails; or a database with its
    tables in [sqlite_master] order. *)
Inductive db_file : Type :=
| NoFile
| Unopenable
| NotADatabase
| Database (tables : list vtable).

(** What the inspector leaves observable: the text it prints, and the
    opening and closing of its connection. *)
Inductive vevent : Type :=
| Out (s : string)
| VOpen
| VClose.

(** The inspector's computations: printing, with exceptions. *)
Definition VM (A : Type) : Type := list vevent -> result A * list vevent.

Definition vret {A} (a : A) : VM A := fun o => (Ok a, o).
Definition vbind {A B} (m : VM A) (k : A -> VM B) : VM B :=
  fun o => match m o with
           | (Ok a, o') => k a o'
           | (Raise e, o') => (Raise e, o')
           end.
Definition vlift {A} (r : result A) : VM A := fun o => (r, o).
Definition vemit (e : vevent) : VM unit := fun o => (Ok tt, app o [e]).
(** [print(s)]: the text is taken to be encodable on standard output (a
    lone surrogate, which a strict UTF-8 stdout refuses, is not modelled
    there). *)
Definition print (s : string) : VM unit := vemit (Out s).

Notation "'let*' x ':=' c1 'in' c2" := (vbind c1 (fun x => c2))
  (at level 200, x name, c1 at level 100, c2 at level 200).

(** [try: body except sqlite3.Error: handler]. *)
Definition vtry_sqlite {A} (body : VM A) (handler : VM A) : VM A :=
  fun o => match body o with
           | (Raise SqliteError, o') => handler o'
           | r => r
           end.

Fixpoint vfor {A} (l : list A) (body : A -> VM unit) : VM unit :=
  match l with
  | [] => vret tt
  | x :: r => let* _ := body x in vfor r body
  end.

(** [for i, x in enumerate(l, i0)]. *)
Fixpoint vfor_i {A} (i : Z) (l : list A) (body : Z -> A -> VM unit) : VM unit :=
  match l with
  | [] => vret tt
  | x :: r => let* _ := body i x in vfor_i (i + 1) r body
  end.

Fixpoint vmap {A B} (f : A -> VM B) (l : list A) : VM (list B) :=
  match l with
  | [] => vret []
  | x :: r => let* y := f x in let* ys := vmap f r in vret (y :: ys)
  end.

(** A newline character. *)
Definition nl : string := String "010" EmptyString.

(** The open connection: the database's tables, or [None] when the file
    is not a database. *)
Definition conn_db : Type := option (list vtable).

Section Inspector.

(** The statements interpolate the table name [n] unquoted. [pragma_name_ok
    n]: [PRAGMA table_info(n)] parses and names the table [n];
    [sql_name_ok n]: [SELECT ... FROM n] does. Otherwise SQLite raises an
    [sqlite3.Error]. The two differ: a keyword such as [delete] is a
    pragma argument but not a table name in [FROM]. *)
Variable pragma_name_ok : string -> bool.
Variable sql_name_ok : string -> bool.
(** The text of an [sqlite3.Error] as [str(e)] shows it. *)
Variable error_text : string.
(** The recursion budget of [json.loads] inside [format_value]. *)
Variable json_depth : nat.

(** A table named in SQL text: names compare without case. *)
Definition vlookup (ts : list vtable) (name : string) : option vtable :=
  find (fun t => String.eqb (lower_string (v_name t)) (lower_string name)) ts.

(** [SELECT name FROM sqlite_master WHERE type='table'] *)
Definition query_tables (c : conn_db) : result (list string) :=
  match c with
  | None => Raise SqliteError
  | Some ts => Ok (map v_name ts)
  end.

(** [SELECT name FROM sqlite_master WHERE type='table' AND name=?]:
    [fetchone()] is not [None] exactly when a table has that name. *)
Definition query_table_named (c : conn_db) (name : string) : result bool :=
  match c with
  | None => Raise SqliteError
  | Some ts => Ok (existsb (fun t => String.eqb (v_name t) name) ts)
  end.

(** [PRAGMA table_info(name)]: no row for an unknown table. *)
Definition pragma_table_info (c : conn_db) (name : string) : result (list column_info) :=
  match c with
  | None => Raise SqliteError
  | Some ts =>
      if pragma_name_ok name then
        Ok (match vlookup ts name with Some t => v_cols t | None => [] end)
      else Raise SqliteError
  end.

(** The row count, [SELECT COUNT] of all rows of [name]. *)
Definition select_count (c : conn_db) (name : string) : result Z :=
  match c with
  | None => Raise SqliteError
  | Some ts =>
      if sql_name_ok name then
        match vlookup ts name with
        | Some t => Ok (Z.of_nat (length (v_rows t)))
        | None => Raise SqliteError
        end
      else Raise SqliteError
  end.

(** [SELECT * FROM name LIMIT limit], each row as [dict(row)] sees it
    (column name and value, in column order); a negative limit is no
    limit. *)
Definition select_limit (c : conn_db) (name : string) (limit : Z)
  : result (list (list (string * sqlval))) :=
  match c with
  | None => Raise SqliteError
  | Some ts =>
      if sql_name_ok name then
        match vlookup ts name with
        | Some t =>
            Ok (map (combine (map c_name (v_cols t)))
                    (if limit <? 0 then v_rows t else firstn (Z.to_nat limit) (v_rows t)))
        | None => Raise SqliteError
        end
      else Raise SqliteError
  end.

(** The dict [get_table_info] returns. *)
Record table_info : Type := mkInfo {
  ti_name : string;
  ti_columns : list column_info;
  ti_row_count : Z
}.

(** [get_table_info(cursor, table_name)]. *)
Definition get_table_info (c : conn_db) (table_name : string) : result table_info :=
  match pragma_table_info c table_name with
  | Raise e => Raise e
  | Ok columns =>
      match select_count c table_name with
      | Raise e => Raise e
      | Ok row_count => Ok (mkInfo table_name columns row_count)
      end
  end.

Definition column_line (col : column_info) : string :=
  "  " ++ c_name col ++ " (" ++ c_type col
  ++ (if negb (c_pk col =? 0) then " [PRIMARY KEY]" else "")
  ++ (if c_notnull col then " [NOT NULL]" else "") ++ ")".

(** [print_table_data(cursor, table_name, limit)]. *)
Definition print_table_data (c : conn_db) (table_name : string) (limit : Z) : VM unit :=
  let* columns := vlift (pragma_table_info c table_name) in
  let* _ := print (nl ++ "Структура таблицы:") in
  let* _ := vfor columns (fun col => print (column_line col)) in
  let* rows := vlift (select_limit c table_name limit) in
  match rows with
  | [] => print (nl ++ "[ИНФОРМАЦИЯ] Таблица пуста.")
  | _ =>
      let* _ := print (nl ++ "Данные: (первые " ++ z_to_string (Z.min limit (Z.of_nat (length rows)))
                       ++ " строк)") in
      vfor_i 1 rows (fun i row_dict =>
        let* _ := print (nl ++ "--- Запись #" ++ z_to_string i ++ " ---") in
        vfor row_dict (fun kv =>
          let* formatted_value := vlift (format_value json_depth (fst kv) (snd kv)) in
          print ("  " ++ fst kv ++ ": " ++ formatted_value)))
  end.

(** [table_infos.sort(key=lambda x: x["row_count"], reverse=True)]: the
    stable sort by decreasing row count (tables with the same count keep
    their order), here as an insertion sort. *)
Fixpoint insert_by_count (x : table_info) (l : list table_info) : list table_info :=
  match l with
  | [] => [x]
  | y :: r => if ti_row_count y <? ti_row_count x then x :: l else y :: insert_by_count x r
  end.

Definition sort_by_count_desc (l : list table_info) : list table_info :=
  fold_left (fun acc x => insert_by_count x acc) l [].

Definition rule50 : string := string_of_list (repeat "="%char 50).

(** [sqlite3.connect(db_name)]. *)
Definition vconnect (f : db_file) : VM conn_db :=
  match f with
  | Unopenable => vlift (Raise SqliteError)
  | NotADatabase => let* _ := vemit VOpen in vret None
  | Database ts => let* _ := vemit VOpen in vret (Some ts)
  | NoFile => let* _ := vemit VOpen in vret (Some [])
  end.

(** [view_database(db_name, table_name)] on the file [f] found at
    [db_name]. *)
Definition view_database (f : db_file) (db_name : string) (table_name : option string) : VM unit :=
  match f with
  | NoFile =>
      let* _ := print ("[ОШИБКА] База данных '" ++ db_name ++ "' не найдена.") in
      let* _ := print "Сначала запустите скрипт processor.py для создания БД:" in
      let* _ := print "python dummy/processor.py" in
      let* _ := print "или с флагом очистки:" in
      print "python dummy/processor.py --clean"
  | _ =>
      vtry_sqlite
        (let* conn := vconnect f in
         let* tables := vlift (query_tables conn) in
         match tables with
         | [] => print ("[ИНФОРМАЦИЯ] База данных '" ++ db_name ++ "' не содержит таблиц.")
         | _ =>
             match table_name with
             | Some tn =>
                 if negb (String.eqb tn "") then
                   let* found := vlift (query_table_named conn tn) in
                   if negb found then
                     let* _ := print ("[ОШИБКА] Таблица '" ++ tn ++ "' не найдена в БД.") in
                     print ("Доступные таблицы: " ++ join ", " tables)
                   else
                     let* _ := print ("=== Таблица: " ++ tn ++ " ===") in
                     let* _ := print_table_data conn tn 10 in
                     let* count := vlift (select_count conn tn) in
                     let* _ := print (nl ++ "Всего записей: " ++ z_to_string count) in
                     vemit VClose
                 else
                   let* _ := print ("Таблицы в базе данных " ++ db_name ++ ":") in
                   let* table_infos := vmap (fun n => vlift (get_table_info conn n)) tables in
                   let* _ := vfor (sort_by_count_desc table_infos) (fun info =>
                     let* _ := print (nl ++ rule50) in
                     let* _ := print ("=== Таблица: " ++ ti_name info ++ " ("
                                      ++ z_to_string (ti_row_count info) ++ " записей) ===") in
                     let* _ := print rule50 in
                     print_table_data conn (ti_name info) 10) in
                   vemit VClose
             | None =>
                 let* _ := print ("Таблицы в базе данных " ++ db_name ++ ":") in
                 let* table_infos := vmap (fun n => vlift (get_table_info conn n)) tables in
                 let* _ := vfor (sort_by_count_desc table_infos) (fun info =>
                   let* _ := print (nl ++ rule50) in
                   let* _ := print ("=== Таблица: " ++ ti_name info ++ " ("
                                    ++ z_to_string (ti_row_count info) ++ " записей) ===") in
                   let* _ := print rule50 in
                   print_table_data conn (ti_name info) 10) in
                 vemit VClose
             end
         end)
        (print ("[ОШИБКА] Ошибка при работе с базой данных: " ++ error_text))
  end.

End Inspector.

(* ------------------------------------------------------------------ *)
(** * Properties *)

(** ** Computations that only log

    [quiet m]: [m] leaves the database and the connection flag alone,
    only appends events, and its result does not depend on the world. The
    record loops of the processors are such computations. *)

Definition w_empty : world := mkWorld false [] [].

Definition pure_of {A} (m : M A) : result A := fst (m w_empty).

Definition quiet {A} (m : M A) : Prop :=
  forall w, exists evs,
    m w = (pure_of m, mkWorld (w_db_ok w) (w_tables w) (app (w_events w) evs)).

Lemma quiet_ret {A} (a : A) : quiet (ret a).
Proof. intro w. exists []. destruct w; cbn. rewrite app_nil_r. reflexivity. Qed.

Lemma quiet_raise {A} (e : exc) : quiet (@raise A e).
Proof. intro w. exists []. destruct w; cbn. rewrite app_nil_r. reflexivity. Qed.

Lemma quiet_lift {A} (r : result A) : quiet (lift r).
Proof.
  intro w. exists []. destruct w, r; cbn; rewrite app_nil_r; reflexivity.
Qed.

Lemma quiet_emit (e : event) : quiet (emit e).
Proof. intro w. exists [e]. destruct w; reflexivity. Qed.

Lemma quiet_log (l : level) (msg : string) : quiet (log l msg).
Proof. apply quiet_emit. Qed.

Lemma pure_of_bind {A B} (m : M A) (k : A -> M B) :
  quiet m -> (forall a, quiet (k a)) ->
  pure_of (bind m k) = match pure_of m with Ok a => pure_of (k a) | Raise e => Raise e end.
Proof.
  intros Hm Hk. unfold pure_of at 1. unfold bind.
  destruct (Hm w_empty) as [evs E]. rewrite E.
  destruct (pure_of m) as [a|e]; [|reflexivity].
  destruct (Hk a (mkWorld (w_db_ok w_empty) (w_tables w_empty) (app (w_events w_empty) evs)))
    as [evs' E']. rewrite E'. reflexivity.
Qed.

Lemma quiet_bind {A B} (m : M A) (k : A -> M B) :
  quiet m -> (forall a, quiet (k a)) -> quiet (bind m k).
Proof.
  intros Hm Hk w. rewrite (pure_of_bind m k Hm Hk).
  unfold bind at 1. destruct (Hm w) as [evs1 E1]. rewrite E1.
  destruct (pure_of m) as [a|e].
  - destruct (Hk a (mkWorld (w_db_ok w) (w_tables w) (app (w_events w) evs1)))
      as [evs2 E2].
    rewrite E2. exists (app evs1 evs2). cbn. rewrite app_assoc. reflexivity.
  - exists evs1. reflexivity.
Qed.

Create HintDb quiet_db.
#[export] Hint Resolve quiet_ret quiet_raise quiet_lift quiet_emit quiet_log : quiet_db.

Ltac quiet_tac :=
  repeat match goal with
  | |- quiet (bind _ _) => apply quiet_bind; [|intro]
  | |- quiet (if ?b then _ else _) => destruct b
  | |- quiet (match ?x with _ => _ end) => destruct x
  | |- quiet _ => solve [auto with quiet_db]
  end.

Lemma py_gets_quiet (obj : json) (ks : list string) : quiet (lift (py_gets obj ks)).
Proof. apply quiet_lift. Qed.

Lemma product_row_quiet (x : json) : quiet (product_row x).
Proof. unfold product_row. quiet_tac. Qed.

Lemma user_row_quiet (x : json) : quiet (user_row x).
Proof. unfold user_row. quiet_tac. Qed.

Lemma post_row_quiet (x : json) : quiet (post_row x).
Proof. unfold post_row. quiet_tac. Qed.

(** The value a record loop body produces for a record, in any world. *)
Definition row_built (m : M (option (list json))) (w : world) (row : list json) : Prop :=
  exists w', m w = (Ok (Some row), w').

Lemma py_sum_ints_from (zs : list Z) (a : Z) :
  fold_left (fun acc v => match acc with Ok a => num_add a v | Raise e => Raise e end)
            (map JInt zs) (Ok (JInt a))
  = Ok (JInt (a + fold_right Z.add 0 zs)).
Proof.
  revert a. induction zs as [|z zs IH]; intro a; cbn.
  - rewrite Z.add_0_r. reflexivity.
  - rewrite IH. f_equal. f_equal. lia.
Qed.

Lemma py_sum_ints (zs : list Z) : py_sum (map JInt zs) = Ok (JInt (fold_right Z.add 0 zs)).
Proof. unfold py_sum. apply py_sum_ints_from. Qed.

Lemma py_in_obj (k : string) (fs : list (string * json)) :
  py_in k (JObj fs) = Ok (match dict_lookup k fs with Some _ => true | None => false end).
Proof. reflexivity. Qed.

(** The row [post_row] builds for a dict with an ["id"], whatever the
    reactions are (the sum may raise). *)
Lemma post_row_obj (fs : list (string * json)) (idv : json) (w : world) :
  dict_lookup "id" fs = Some idv ->
  exists evs,
    post_row (JObj fs) w =
      (match (match dict_lookup "reactions" fs with
              | Some (JObj kvs) => py_sum (map snd kvs)
              | Some v => Ok v
              | None => Ok (JInt 0)
              end) with
       | Ok r =>
           Ok (Some (app (map (fun k => match dict_lookup k fs with Some v => v | None => JNull end)
                               ["id"; "title"; "body"; "userId"])
                         [JStr (json_dumps (match dict_lookup "tags" fs with
                                            | Some v => v | None => JArr [] end)); r]))
       | Raise e => Raise e
       end, mkWorld (w_db_ok w) (w_tables w) (app (w_events w) evs)).
Proof.
  intro Hid. destruct (post_row_quiet (JObj fs) w) as [evs E]. exists evs. rewrite E.
  f_equal. unfold pure_of, post_row, bind, lift. cbn -[json_dumps].
  rewrite Hid. cbn -[json_dumps].
  destruct (dict_lookup "reactions" fs) as [[]|]; cbn -[json_dumps];
    try reflexivity.
  destruct (py_sum (map snd kvs)); reflexivity.
Qed.

(** ** C3: normalisation of the post reactions *)

(** C3. For a post dict with an ["id"], the reactions value in the row
    [process_posts] builds is the sum of the values of a reactions object
    (all of them integers), the reactions value itself when it is not an
    object, and the integer 0 when the field is absent. *)
Theorem post_reactions_normalized (fs : list (string * json)) (idv : json) (w : world) :
  dict_lookup "id" fs = Some idv ->
  (forall kvs zs, dict_lookup "reactions" fs = Some (JObj kvs) -> map snd kvs = map JInt zs ->
     exists row, row_built (post_row (JObj fs)) w row
                 /\ nth 5 row JNull = JInt (fold_right Z.add 0 zs)) /\
  (forall v, dict_lookup "reactions" fs = Some v -> (forall kvs, v <> JObj kvs) ->
     exists row, row_built (post_row (JObj fs)) w row /\ nth 5 row JNull = v) /\
  (dict_lookup "reactions" fs = None ->
     exists row, row_built (post_row (JObj fs)) w row /\ nth 5 row JNull = JInt 0).
Proof.
  intro Hid. destruct (post_row_obj fs idv w Hid) as [evs E].
  split; [|split].
  - intros kvs zs Hr Hz. rewrite Hr, Hz, py_sum_ints in E.
    eexists. split; [eexists; exact E | reflexivity].
  - intros v Hr Hv. rewrite Hr in E.
    destruct v; try (eexists; split; [eexists; exact E | reflexivity]).
    exfalso. exact (Hv kvs eq_refl).
  - intro Hr. rewrite Hr in E.
    eexists. split; [eexists; exact E | reflexivity].
Qed.

Definition post_example : list (string * json) :=
  [("id", JInt 1); ("title", JStr "t");
   ("reactions", JObj [("likes", JInt 5); ("dislikes", JInt 2)])].

Lemma post_reactions_normalized_witness :
  dict_lookup "id" post_example = Some (JInt 1) /\
  exists row, row_built (post_row (JObj post_example)) w_empty row /\ nth 5 row JNull = JInt 7.
Proof.
  split; [reflexivity|].
  destruct (post_reactions_normalized post_example (JInt 1) w_empty eq_refl) as [H _].
  exact (H [("likes", JInt 5); ("dislikes", JInt 2)] [5; 2] eq_refl eq_refl).
Defined.

(** ** What [json.dumps] writes is ASCII *)

Lemma list_of_string_of_list l : list_of_string (string_of_list l) = l.
Proof. induction l as [|c r IH]; cbn; [|rewrite IH]; reflexivity. Qed.

Lemma string_of_list_of_string s : string_of_list (list_of_string s) = s.
Proof. induction s as [|c r IH]; cbn; [|rewrite IH]; reflexivity. Qed.

Lemma list_of_string_app s t : list_of_string (s ++ t) = app (list_of_string s) (list_of_string t).
Proof. induction s as [|c r IH]; cbn; [|rewrite IH]; reflexivity. Qed.

Lemma list_of_string_concat l : list_of_string (String.concat "" l) = concat (map list_of_string l).
Proof.
  induction l as [|g r IH]; [reflexivity|].
  destruct r as [|g' r'].
  - cbn [String.concat map concat]. rewrite app_nil_r. reflexivity.
  - change (String.concat "" (g :: g' :: r')) with (g ++ String.concat "" (g' :: r')).
    rewrite list_of_string_app, IH. reflexivity.
Qed.

Definition is_ascii (c : ascii) : bool := Nat.ltb (nat_of_ascii c) 128.

Definition ascii_only (s : string) : bool := forallb is_ascii (list_of_string s).

Lemma ascii_only_app s t : ascii_only (s ++ t) = ascii_only s && ascii_only t.
Proof. unfold ascii_only. rewrite list_of_string_app. apply forallb_app. Qed.

Lemma ascii_only_cons c s : ascii_only (String c s) = is_ascii c && ascii_only s.
Proof. reflexivity. Qed.

Lemma ascii_only_string_of_list l : ascii_only (string_of_list l) = forallb is_ascii l.
Proof. unfold ascii_only. rewrite list_of_string_of_list. reflexivity. Qed.

Lemma ascii_only_no_surrogate s : ascii_only s = true -> has_surrogate s = false.
Proof.
  induction s as [|a r IH]; [reflexivity|].
  rewrite ascii_only_cons. intro H. apply andb_prop in H as [Ha Hr].
  destruct r as [|b r']; [reflexivity|].
  change (has_surrogate (String a (String b r')))
    with (((ascii_val a =? 237) && (160 <=? ascii_val b) && (ascii_val b <? 192))
          || has_surrogate (String b r')).
  rewrite IH by exact Hr.
  unfold is_ascii in Ha. apply Nat.ltb_lt in Ha. unfold ascii_val.
  destruct (Z.of_nat (nat_of_ascii a) =? 237) eqn:E; [|reflexivity].
  apply Z.eqb_eq in E. lia.
Qed.

Lemma is_ascii_of_Z z : 0 <= z < 128 -> is_ascii (ascii_of_Z z) = true.
Proof.
  intro Hz. unfold is_ascii, ascii_of_Z. rewrite Ascii.nat_ascii_embedding by lia.
  apply Nat.ltb_lt. lia.
Qed.

Lemma hex_digit_ascii z : 0 <= z < 16 -> is_ascii (hex_digit z) = true.
Proof.
  intro Hz. unfold hex_digit. destruct (z <? 10) eqn:E; apply is_ascii_of_Z;
    [apply Z.ltb_lt in E | apply Z.ltb_ge in E]; lia.
Qed.

Lemma hex_digit_mod_ascii z : is_ascii (hex_digit (z mod 16)) = true.
Proof. apply hex_digit_ascii. apply Z.mod_pos_bound. lia. Qed.

Lemma u_escape_ascii v : ascii_only (u_escape v) = true.
Proof.
  unfold u_escape, hex2. cbn [append ascii_only list_of_string forallb].
  rewrite !hex_digit_mod_ascii. reflexivity.
Qed.

Lemma nat_digits_ascii f z acc :
  forallb is_ascii acc = true -> forallb is_ascii (nat_digits f z acc) = true.
Proof.
  revert z acc. induction f as [|f IH]; intros z acc H; cbn [nat_digits]; [exact H|].
  assert (Hd : is_ascii (ascii_of_Z (48 + z mod 10)) = true).
  { apply is_ascii_of_Z. pose proof (Z.mod_pos_bound z 10). lia. }
  destruct (z / 10 =? 0); [|apply IH]; cbn [forallb]; rewrite Hd, H; reflexivity.
Qed.

Lemma digits_of_ascii z : forallb is_ascii (digits_of z) = true.
Proof. apply nat_digits_ascii. reflexivity. Qed.

Lemma z_to_string_ascii z : ascii_only (z_to_string z) = true.
Proof.
  unfold z_to_string. rewrite ascii_only_string_of_list.
  destruct (z <? 0); cbn [forallb]; rewrite digits_of_ascii; reflexivity.
Qed.

Lemma forallb_firstn_skipn {A} (p : A -> bool) n l :
  forallb p l = true -> forallb p (firstn n l) = true /\ forallb p (skipn n l) = true.
Proof.
  intro H. rewrite <- (firstn_skipn n l) in H. rewrite forallb_app in H.
  apply andb_prop in H. exact H.
Qed.

Ltac ascii_leaves :=
  repeat (rewrite ?ascii_only_app, ?ascii_only_cons, ?ascii_only_string_of_list;
          cbn [is_ascii]);
  repeat (apply andb_true_intro; split);
  try reflexivity.

Lemma dec_repr_ascii m e : ascii_only (dec_repr m e) = true.
Proof.
  unfold dec_repr. destruct (strip_zeros _ m e) as [m' e'].
  pose proof (digits_of_ascii m') as Hd. pose proof (digits_of_ascii (Z.of_nat (length (digits_of m')) - 1 + e')) as Hx.
  assert (Hr : forall n, forallb is_ascii (repeat "0"%char n) = true)
    by (intro n; induction n as [|n IH]; [reflexivity|exact IH]).
  assert (Hs : forall b : bool, ascii_only (if b then "-" else "") = true) by (intros []; reflexivity).
  destruct (m' =? 0); [reflexivity|].
  destruct ((-4 <=? _) && (_ <? 16)).
  - destruct (0 <=? e'); [|destruct (0 <=? _)].
    + ascii_leaves; auto.
    + destruct (forallb_firstn_skipn is_ascii (Z.to_nat (Z.of_nat (length (digits_of m')) - 1 + e' + 1))
                  (digits_of m') Hd).
      ascii_leaves; auto.
    + ascii_leaves; auto.
  - assert (Hm : ascii_only (match digits_of m' with
                             | [] => "" | [d] => String d EmptyString
                             | d :: r => String d ("." ++ string_of_list r) end) = true).
    { destruct (digits_of m') as [|d [|d' r]]; cbn [forallb] in Hd; [reflexivity| |].
      - rewrite ascii_only_cons. rewrite andb_true_r in Hd. rewrite Hd. reflexivity.
      - rewrite ascii_only_cons, ascii_only_app, ascii_only_string_of_list. cbn [forallb].
        apply andb_prop in Hd as [-> ->]. reflexivity. }
    ascii_leaves; auto.
    + destruct (_ <? 0); reflexivity.
    + destruct (Nat.ltb _ 2); reflexivity.
Qed.

Lemma float_repr_ascii f : ascii_only (float_repr f) = true.
Proof.
  destruct f as [neg m k|[]|]; try reflexivity. unfold float_repr.
  destruct (m =? 0); [destruct neg; reflexivity|].
  destruct (frac_of m k) as [n d].
  destruct (shortest_from _ _ _ _ _ _ _) as [D E]. apply dec_repr_ascii.
Qed.

Lemma concat_ascii (l : list string) :
  Forall (fun s => ascii_only s = true) l -> ascii_only (String.concat "" l) = true.
Proof.
  intro H. unfold ascii_only. rewrite list_of_string_concat.
  induction H as [|x l Hx Hl IH]; [reflexivity|].
  cbn [map concat]. rewrite forallb_app. unfold ascii_only in Hx. rewrite Hx, IH. reflexivity.
Qed.

Lemma join_ascii sep (l : list string) :
  ascii_only sep = true -> Forall (fun s => ascii_only s = true) l ->
  ascii_only (join sep l) = true.
Proof.
  intros Hs H. induction H as [|x l Hx Hl IH]; [reflexivity|].
  destruct l as [|y l']; [exact Hx|].
  change (join sep (x :: y :: l')) with (x ++ sep ++ join sep (y :: l')).
  rewrite !ascii_only_app, Hx, Hs, IH. reflexivity.
Qed.

Lemma dumps_cp_ascii g : ascii_only (dumps_cp g) = true.
Proof.
  unfold dumps_cp.
  repeat match goal with
  | |- context [if ?b then _ else _] => destruct b eqn:?
  end; try reflexivity; try apply u_escape_ascii.
  - rewrite ascii_only_cons. rewrite is_ascii_of_Z; [reflexivity|].
    repeat match goal with H : (_ && _) = true |- _ => apply andb_prop in H as [? ?] end.
    rewrite Z.leb_le in *. lia.
  - rewrite ascii_only_app, !u_escape_ascii. reflexivity.
Qed.

Lemma dumps_str_ascii s : ascii_only (dumps_str s) = true.
Proof.
  unfold dumps_str. rewrite ascii_only_cons, ascii_only_app. cbn [is_ascii].
  rewrite concat_ascii; [reflexivity|].
  apply Forall_forall. intros x Hx. apply in_map_iff in Hx as (g & <- & _).
  apply dumps_cp_ascii.
Qed.

(** Induction on decoded values, with a hypothesis for each element of an
    array and each value of an object. *)
Section JsonInd.
Variable P : json -> Prop.
Hypothesis hNull : P JNull.
Hypothesis hBool : forall b, P (JBool b).
Hypothesis hInt : forall z, P (JInt z).
Hypothesis hFloat : forall f, P (JFloat f).
Hypothesis hStr : forall s, P (JStr s).
Hypothesis hArr : forall l, Forall P l -> P (JArr l).
Hypothesis hObj : forall kvs, Forall (fun kv => P (snd kv)) kvs -> P (JObj kvs).

Fixpoint json_ind' (v : json) : P v :=
  match v with
  | JNull => hNull
  | JBool b => hBool b
  | JInt z => hInt z
  | JFloat f => hFloat f
  | JStr s => hStr s
  | JArr l =>
      hArr l ((fix go (l : list json) : Forall P l :=
                 match l with
                 | [] => Forall_nil P
                 | x :: r => Forall_cons x (json_ind' x) (go r)
                 end) l)
  | JObj kvs =>
      hObj kvs ((fix go (kvs : list (string * json)) : Forall (fun kv => P (snd kv)) kvs :=
                   match kvs with
                   | [] => Forall_nil _
                   | kv :: r => Forall_cons kv (json_ind' (snd kv)) (go r)
                   end) kvs)
  end.
End JsonInd.

Lemma json_dumps_ascii v : ascii_only (json_dumps v) = true.
Proof.
  induction v as [| b | z | f | s | l IH | kvs IH] using json_ind'.
  - reflexivity.
  - destruct b; reflexivity.
  - apply z_to_string_ascii.
  - destruct f as [neg m k|[]|]; try reflexivity. apply float_repr_ascii.
  - apply dumps_str_ascii.
  - cbn [json_dumps]. rewrite !ascii_only_app, join_ascii; [reflexivity|reflexivity|].
    induction IH as [|x l Hx Hl IHl]; constructor; assumption.
  - cbn [json_dumps]. rewrite !ascii_only_app, join_ascii; [reflexivity|reflexivity|].
    induction IH as [|kv r Hx Hr IHr]; constructor; [|assumption].
    rewrite !ascii_only_app, dumps_str_ascii, Hx. reflexivity.
Qed.

(** A [json.dumps] text binds as TEXT. *)
Lemma bind_dumps v : bind_param (JStr (json_dumps v)) = Ok (SText (json_dumps v)).
Proof.
  cbn [bind_param]. rewrite ascii_only_no_surrogate by apply json_dumps_ascii. reflexivity.
Qed.

(** ** C10: the flattened columns always hold text *)

Fixpoint index_of (c : string) (cols : list string) : nat :=
  match cols with
  | [] => O
  | c' :: r => if String.eqb c c' then O else S (index_of c r)
  end.

(** The value a row holds in a named column. *)
Definition column_value (cols : list string) (row : list json) (c : string) : json :=
  nth (index_of c cols) row JNull.

Lemma py_gets_length (obj : json) (ks : list string) (vs : list json) :
  py_gets obj ks = Ok vs -> length vs = length ks.
Proof.
  revert vs. induction ks as [|k ks IH]; intros vs H; cbn in H.
  - inversion H; reflexivity.
  - destruct (py_get obj k JNull); [|discriminate].
    destruct (py_gets obj ks) eqn:E; [|discriminate].
    inversion H; subst. cbn. f_equal. apply IH. reflexivity.
Qed.

Ltac split_results H :=
  repeat match type of H with
  | context [match ?r with Ok _ => _ | Raise _ => _ end] =>
      let E := fresh "E" in destruct r eqn:E
  | context [if ?b then _ else _] => let E := fresh "E" in destruct b eqn:E
  end.

Lemma product_row_shape (x : json) (w : world) (row : list json) :
  row_built (product_row x) w row ->
  exists fields images, py_gets x ["id"; "title"; "description"; "price"; "discountPercentage";
                                   "rating"; "stock"; "brand"; "category"; "thumbnail"] = Ok fields
    /\ row = app fields [JStr (json_dumps images)].
Proof.
  intros [w' H]. unfold product_row, bind, lift, ret, raise in H.
  split_results H; cbn in H; try discriminate; injection H as <- _; eauto.
Qed.

Ltac gets_len :=
  match goal with
  | E : py_gets _ _ = Ok ?v |- length ?v = _ => rewrite (py_gets_length _ _ _ E); reflexivity
  end.

Lemma user_row_shape (x : json) (w : world) (row : list json) :
  row_built (user_row x) w row ->
  exists f1 f2 f3 f4 hair address bank company,
    length f1 = 16%nat /\ length f2 = 2%nat /\ length f3 = 2%nat /\
    row = app f1 (JStr (json_dumps hair) :: app f2 (JStr (json_dumps address)
               :: app f3 (JStr (json_dumps bank) :: JStr (json_dumps company) :: f4))).
Proof.
  intros [w' H]. unfold user_row, bind, lift, ret, raise in H.
  split_results H; cbn in H; try discriminate; injection H as <- _;
    do 8 eexists; repeat split; try reflexivity; gets_len.
Qed.

Lemma post_row_shape (x : json) (w : world) (row : list json) :
  row_built (post_row x) w row ->
  exists fields tags reactions, length fields = 4%nat /\
    row = app fields [JStr (json_dumps tags); reactions].
Proof.
  intros [w' H]. unfold post_row, bind, lift, ret, raise in H.
  split_results H; cbn in H; try discriminate;
  (injection H as <- _; do 3 eexists; split; [|reflexivity]; gets_len).
Qed.

Lemma nth_app_len {A} (l1 l2 : list A) (n : nat) (d : A) :
  length l1 = n -> nth n (app l1 l2) d = nth 0 l2 d.
Proof. intros <-. rewrite app_nth2 by lia. rewrite Nat.sub_diag. reflexivity. Qed.

(** C10. In every row the processors build, the flattened columns
    ([images] of products; [hair], [address], [bank], [company] of users;
    [tags] of posts) hold the text [json.dumps] produced, which SQLite
    stores as TEXT, never NULL. *)
Theorem flattened_columns_are_text (x : json) (w : world) (row : list json) :
  (row_built (product_row x) w row ->
     exists s, bind_param (column_value products_columns row "images") = Ok (SText s)) /\
  (row_built (user_row x) w row ->
     forall c, In c ["hair"; "address"; "bank"; "company"] ->
     exists s, bind_param (column_value users_columns row c) = Ok (SText s)) /\
  (row_built (post_row x) w row ->
     exists s, bind_param (column_value posts_columns row "tags") = Ok (SText s)).
Proof.
  split; [|split].
  - intro H. destruct (product_row_shape x w row H) as (fields & images & Hf & ->).
    unfold column_value. cbn [index_of String.eqb].
    rewrite (nth_app_len _ _ 10) by (eapply py_gets_length in Hf; exact Hf).
    eexists. apply bind_dumps.
  - intros H c Hc.
    destruct (user_row_shape x w row H) as (f1 & f2 & f3 & f4 & hair & address & bank & company
                                            & L1 & L2 & L3 & ->).
    unfold column_value.
    destruct Hc as [<-|[<-|[<-|[<-|[]]]]]; cbn -[json_dumps nth app].
    + rewrite nth_app_len by exact L1. eexists. apply bind_dumps.
    + rewrite app_nth2 by lia. rewrite L1. cbn -[json_dumps app].
      rewrite nth_app_len by exact L2. eexists. apply bind_dumps.
    + rewrite app_nth2 by lia. rewrite L1. cbn -[json_dumps app].
      rewrite app_nth2 by lia. rewrite L2. cbn -[json_dumps app].
      rewrite nth_app_len by exact L3. eexists. apply bind_dumps.
    + rewrite app_nth2 by lia. rewrite L1. cbn -[json_dumps app].
      rewrite app_nth2 by lia. rewrite L2. cbn -[json_dumps app].
      rewrite app_nth2 by lia. rewrite L3. cbn -[json_dumps app].
      eexists. apply bind_dumps.
  - intro H. destruct (post_row_shape x w row H) as (fields & tags & reactions & L & ->).
    unfold column_value. cbn [index_of String.eqb].
    rewrite (nth_app_len _ _ 4) by exact L. eexists. apply bind_dumps.
Qed.

Lemma flattened_columns_are_text_witness :
  exists s, bind_param (column_value posts_columns
                          (app [JInt 1; JNull; JNull; JNull] [JStr (json_dumps (JArr [])); JInt 0])
                          "tags") = Ok (SText s).
Proof.
  destruct (flattened_columns_are_text (JObj [("id", JInt 1)]) w_empty
              (app [JInt 1; JNull; JNull; JNull] [JStr (json_dumps (JArr [])); JInt 0]))
    as (_ & _ & H).
  apply H. eexists. reflexivity.
Defined.

(** ** The exceptions of [json.loads] *)

Definition json_exc (e : exc) : bool :=
  match e with RecursionError | ValueError => true | _ => false end.

Lemma parse_number_raise l e : parse_number l = PRaise e -> e = ValueError.
Proof.
  unfold parse_number. intro H.
  repeat match type of H with
  | context [match ?x with _ => _ end] => destruct x
  | context [if ?b then _ else _] => destruct b
  end; try discriminate; congruence.
Qed.

Lemma parse_raise_kind fuel :
  (forall depth l e, parse_value fuel depth l = PRaise e -> json_exc e = true) /\
  (forall depth l e, parse_elements fuel depth l = PRaise e -> json_exc e = true) /\
  (forall depth l e, parse_members fuel depth l = PRaise e -> json_exc e = true).
Proof.
  induction fuel as [|f [IHv [IHe IHm]]]; [repeat split; discriminate|].
  repeat split; intros depth l e H; cbn [parse_value parse_elements parse_members] in H;
    repeat match type of H with
    | context [match parse_value f ?d ?r with _ => _ end] =>
        let E := fresh "E" in destruct (parse_value f d r) eqn:E; try discriminate
    | context [match parse_elements f ?d ?r with _ => _ end] =>
        let E := fresh "E" in destruct (parse_elements f d r) eqn:E; try discriminate
    | context [match parse_members f ?d ?r with _ => _ end] =>
        let E := fresh "E" in destruct (parse_members f d r) eqn:E; try discriminate
    | context [match parse_string_body ?r with _ => _ end] =>
        destruct (parse_string_body r) as [[? ?]|]; try discriminate
    | _ => match type of H with
           | parse_number _ = _ => apply parse_number_raise in H; subst; reflexivity
           | context [match ?x with _ => _ end] => destruct x
           end
    end;
    try discriminate; try (injection H as <-; reflexivity); try (injection H as <-; eauto).
Qed.

Lemma json_loads_raise depth s e : json_loads depth s = Raise e -> json_exc e = true.
Proof.
  unfold json_loads. destruct (parse_value _ depth _) eqn:E; try discriminate.
  injection 1 as <-. exact (proj1 (parse_raise_kind _) _ _ _ E).
Qed.

Lemma json_exc_cases e : json_exc e = true -> e = RecursionError \/ e = ValueError.
Proof. destruct e; try discriminate; auto. Qed.


(** ** C5: what [fetch_api_data] returns *)

(** C5 (counterexample). A timeout, a network error, an HTTP error status,
    an undecodable body and a body that is JSON [null] all give the caller
    the same value, Python's [None]. *)
Lemma fetch_failures_indistinguishable :
  let f net := fst (fetch_api_data net 10 "products" [] w_empty) in
  f (fun _ _ => HTimeout) = Ok JNull /\
  f (fun _ _ => HConnError) = Ok JNull /\
  f (fun _ _ => HResponse 503 "") = Ok JNull /\
  f (fun _ _ => HResponse 200 "{not json") = Ok JNull /\
  f (fun _ _ => HResponse 200 "null") = Ok JNull.
Proof. repeat split; reflexivity. Qed.

Lemma fetch_api_data_shape net depth entity params w :
  exists r evs,
    fetch_api_data net depth entity params w =
      (r, mkWorld (w_db_ok w) (w_tables w)
            (app (w_events w) ([Log INFO ("API request: " ++ BASE_API_URL ++ entity);
                                Request (BASE_API_URL ++ entity) params] ++ evs))).
Proof.
  destruct w as [ok ts evs0]. unfold fetch_api_data, bind, log, emit, ret, raise; cbn.
  destruct (net _ params) as [| |st body]; cbn.
  - do 2 eexists. rewrite <- !app_assoc. reflexivity.
  - do 2 eexists. rewrite <- !app_assoc. reflexivity.
  - destruct ((400 <=? st) && (st <? 600)); cbn.
    + do 2 eexists. rewrite <- !app_assoc. reflexivity.
    + destruct (json_loads depth body) as [[v|]|e]; cbn; do 2 eexists;
        rewrite <- !app_assoc; reflexivity.
Qed.

(** The outcome of a fetch, with the events it appends. *)
Definition fetch_gives net depth entity params (w : world) (r : json) (evs : list event) : Prop :=
  fetch_api_data net depth entity params w
  = (Ok r, mkWorld (w_db_ok w) (w_tables w) (app (w_events w) evs)).

Lemma not_http_error st : ~ (400 <= st < 600) -> (400 <=? st) && (st <? 600) = false.
Proof.
  intro R. apply andb_false_iff. destruct (Z.leb_spec 400 st); [right|left];
    try reflexivity; apply Z.ltb_ge; lia.
Qed.

(** C5 (amended). [fetch_api_data] returns [None] on a timeout, on any
    other network failure, on an HTTP status from 400 to 599 and on a body
    that is not JSON, each time after logging an error; otherwise it
    returns the decoded body, except that the two other errors of the
    decoder, a [RecursionError] and a [ValueError], leave the function. It
    never touches the database. *)
Theorem fetch_api_data_none_on_failure net depth entity params w :
  let url := BASE_API_URL ++ entity in
  (net url params = HTimeout \/ net url params = HConnError \/
   (exists st body, net url params = HResponse st body /\ 400 <= st < 600) \/
   (exists st body, net url params = HResponse st body /\ ~ (400 <= st < 600)
                    /\ json_loads depth body = Ok None) ->
   exists evs msg, fetch_gives net depth entity params w JNull evs
                   /\ last evs (Log INFO "") = Log ERROR msg)
  /\
  (forall st body v, net url params = HResponse st body -> ~ (400 <= st < 600) ->
     json_loads depth body = Ok (Some v) ->
     exists evs, fetch_gives net depth entity params w v evs)
  /\
  (forall st body e, net url params = HResponse st body -> ~ (400 <= st < 600) ->
     json_loads depth body = Raise e ->
     (e = RecursionError \/ e = ValueError) /\
     exists evs, fetch_api_data net depth entity params w
                 = (Raise e, mkWorld (w_db_ok w) (w_tables w) (app (w_events w) evs))).
Proof.
  cbv zeta. unfold fetch_gives.
  destruct w as [ok ts evs0]. unfold fetch_api_data, bind, log, emit, ret, raise; cbn.
  split; [|split].
  - intros [H|[H|[(st & body & H & R)|(st & body & H & R & D)]]]; rewrite H; cbn.
    + do 2 eexists. split; [rewrite <- !app_assoc; reflexivity | reflexivity].
    + do 2 eexists. split; [rewrite <- !app_assoc; reflexivity | reflexivity].
    + replace ((400 <=? st) && (st <? 600)) with true by (symmetry; apply andb_true_iff; lia).
      cbn. do 2 eexists. split; [rewrite <- !app_assoc; reflexivity | reflexivity].
    + rewrite (not_http_error st R). cbn. rewrite D. cbn. do 2 eexists.
      split; [rewrite <- !app_assoc; reflexivity | reflexivity].
  - intros st body v H R D. rewrite H, (not_http_error st R).
    cbn. rewrite D. cbn. eexists. rewrite <- !app_assoc. reflexivity.
  - intros st body e H R D. split; [exact (json_exc_cases e (json_loads_raise _ _ _ D))|].
    rewrite H, (not_http_error st R). cbn. rewrite D. cbn. eexists.
    rewrite <- !app_assoc. reflexivity.
Qed.

Lemma fetch_api_data_none_on_failure_witness :
  exists evs msg, fetch_gives (fun _ _ => HTimeout) 10 "posts" [] w_empty JNull evs
                  /\ last evs (Log INFO "") = Log ERROR msg.
Proof.
  apply (proj1 (fetch_api_data_none_on_failure (fun _ _ => HTimeout) 10 "posts" [] w_empty)).
  left. reflexivity.
Defined.

(** ** C7: [init_db_table] *)

Lemma exec_create_names (ts ts' : list table) (sc : schema_sql) :
  exec_create ts sc = Ok ts' -> ts' = app ts [mkTable (sc_name sc) (sc_cols sc) []].
Proof.
  unfold exec_create. destruct (existsb _ ts); intro H; inversion H; reflexivity.
Qed.

Lemma table_exists_app (ts : list table) (t : table) :
  table_exists (app ts [t]) (t_name t) = true.
Proof.
  unfold table_exists. rewrite existsb_app. apply orb_true_iff. right. cbn.
  rewrite String.eqb_refl. reflexivity.
Qed.

(** C7. Called with the statement that creates the table it names,
    [init_db_table] creates the table only when no table of that name
    exists and then reports success; once it has succeeded the table
    exists, and a second call reports success again, changes nothing in
    the database and commits nothing. *)
Theorem init_db_table_idempotent (tn : string) (cols : list string) (w w1 : world) (b : bool) :
  init_db_table tn (CreateTable tn cols) w = (Ok b, w1) ->
  (table_exists (w_tables w) tn = true -> b = true /\ w_tables w1 = w_tables w) /\
  (table_exists (w_tables w) tn = false -> b = true ->
     w_tables w1 = app (w_tables w) [mkTable tn cols []]) /\
  (b = true ->
     table_exists (w_tables w1) tn = true /\
     exists evs, init_db_table tn (CreateTable tn cols) w1
                 = (Ok true, mkWorld (w_db_ok w1) (w_tables w1) (app (w_events w1) evs))
                 /\ ~ In Commit evs).
Proof.
  destruct w as [ok ts evs0].
  unfold init_db_table, try_sqlite, bind, get_tables, log, emit, ret, set_tables, lift, raise.
  cbn -[table_exists exec_create]. destruct (table_exists ts tn) eqn:Ex; cbn -[table_exists exec_create].
  - intro H. injection H as <- <-. cbn -[table_exists exec_create].
    split; [auto|]. split; [discriminate|].
    intros _. split; [exact Ex|]. rewrite Ex. cbn -[table_exists exec_create].
    exists [Log INFO ("Table '" ++ tn ++ "' already exists")].
    split; [reflexivity|].
    cbn -[table_exists exec_create]. intros [H|H]; [discriminate|exact H].
  - destruct (exec_create ts (CreateTable tn cols)) as [ts'|e] eqn:Ec; cbn -[table_exists exec_create].
    + intro H. injection H as <- <-. cbn -[table_exists exec_create].
      apply exec_create_names in Ec. cbn in Ec. subst ts'.
      split; [discriminate|]. split; [auto|].
      intros _. split; [apply (table_exists_app ts (mkTable tn cols []))|].
      pose proof (table_exists_app ts (mkTable tn cols [])) as Hx. cbn [t_name] in Hx.
      rewrite Hx. cbn -[table_exists exec_create].
      exists [Log INFO ("Table '" ++ tn ++ "' already exists")].
    split; [reflexivity|].
      cbn -[table_exists exec_create]. intros [H|H]; [discriminate|exact H].
    + destruct e; cbn -[table_exists exec_create]; intro H; try discriminate; injection H as <- <-;
        (split; [discriminate|]); (split; [discriminate|]); discriminate.
Qed.

Lemma init_db_table_idempotent_witness :
  init_db_table "posts" posts_schema (mkWorld true [] [])
  = (Ok true, snd (init_db_table "posts" posts_schema (mkWorld true [] [])))
  /\ table_exists (w_tables (snd (init_db_table "posts" posts_schema (mkWorld true [] [])))) "posts"
     = true.
Proof.
  split; [reflexivity|].
  destruct (init_db_table_idempotent "posts" posts_columns (mkWorld true [] [])
              (snd (init_db_table "posts" posts_schema (mkWorld true [] []))) true
              eq_refl) as (_ & _ & H).
  exact (proj1 (H eq_refl)).
Defined.

(** ** Events only accumulate *)

Definition grows {A} (m : M A) : Prop :=
  forall w, exists evs, w_events (snd (m w)) = app (w_events w) evs.

Lemma grows_ret {A} (a : A) : grows (ret a).
Proof. intro w. exists []. rewrite app_nil_r. reflexivity. Qed.

Lemma grows_raise {A} (e : exc) : grows (@raise A e).
Proof. intro w. exists []. rewrite app_nil_r. reflexivity. Qed.

Lemma grows_lift {A} (r : result A) : grows (lift r).
Proof. destruct r; [apply grows_ret | apply grows_raise]. Qed.

Lemma grows_emit (e : event) : grows (emit e).
Proof. intro w. exists [e]. reflexivity. Qed.

Lemma grows_log (l : level) (msg : string) : grows (log l msg).
Proof. apply grows_emit. Qed.

Lemma grows_get_tables : grows get_tables.
Proof. intro w. exists []. rewrite app_nil_r. reflexivity. Qed.

Lemma grows_set_tables (ts : list table) : grows (set_tables ts).
Proof. intro w. exists []. rewrite app_nil_r. reflexivity. Qed.

Lemma grows_bind {A B} (m : M A) (k : A -> M B) :
  grows m -> (forall a, grows (k a)) -> grows (bind m k).
Proof.
  intros Hm Hk w. unfold bind. destruct (m w) as [[a|e] w1] eqn:E;
    destruct (Hm w) as [evs1 E1]; rewrite E in E1; cbn in E1.
  - destruct (Hk a w1) as [evs2 E2]. exists (app evs1 evs2).
    rewrite E2, E1, app_assoc. reflexivity.
  - exists evs1. exact E1.
Qed.

Lemma grows_try_sqlite {A} (body handler : M A) :
  grows body -> grows handler -> grows (try_sqlite body handler).
Proof.
  intros Hb Hh w. unfold try_sqlite. destruct (Hb w) as [evs1 E1].
  destruct (body w) as [[a|[]] w1]; cbn in E1; try (exists evs1; exact E1).
  destruct (Hh w1) as [evs2 E2]. exists (app evs1 evs2).
  rewrite E2, E1, app_assoc. reflexivity.
Qed.

Lemma grows_try_finally {A} (body : M A) (fin : M unit) :
  grows body -> grows fin -> grows (try_finally body fin).
Proof.
  intros Hb Hf w. unfold try_finally. destruct (Hb w) as [evs1 E1].
  destruct (body w) as [r w1]. cbn in E1. destruct (Hf w1) as [evs2 E2].
  destruct (fin w1) as [[]  w2]; cbn in *; exists (app evs1 evs2);
    rewrite E2, E1, app_assoc; reflexivity.
Qed.

Lemma grows_get_db_connection : grows get_db_connection.
Proof.
  intro w. unfold get_db_connection. destruct (w_db_ok w).
  - apply grows_bind; [apply grows_emit|intros _].
    apply grows_bind; [apply grows_log|intros _]. apply grows_ret.
  - apply grows_bind; [apply grows_log|intros _]. apply grows_ret.
Qed.

Lemma quiet_grows {A} (m : M A) : quiet m -> grows m.
Proof. intros H w. destruct (H w) as [evs E]. exists evs. rewrite E. reflexivity. Qed.

Create HintDb grows_db.
#[export] Hint Resolve grows_ret grows_raise grows_lift grows_emit grows_log grows_get_tables
  grows_set_tables grows_get_db_connection : grows_db.

Ltac grows_tac :=
  repeat match goal with
  | |- grows (bind _ _) => apply grows_bind; [|intro]
  | |- grows (try_sqlite _ _) => apply grows_try_sqlite
  | |- grows (try_finally _ _) => apply grows_try_finally
  | |- grows (if ?b then _ else _) => destruct b
  | |- grows (let '(_, _) := ?p in _) => destruct p
  | |- grows (match ?x with _ => _ end) => destruct x
  | |- grows _ => solve [auto with grows_db]
  end.

Lemma grows_init_db_table tn sc : grows (init_db_table tn sc).
Proof. unfold init_db_table. grows_tac. Qed.

Lemma grows_save_data_to_db tn data cols : grows (save_data_to_db tn data cols).
Proof. unfold save_data_to_db. grows_tac. Qed.

Lemma grows_prepare_rows row items acc :
  (forall x, grows (row x)) -> grows (prepare_rows row items acc).
Proof.
  intro Hr. revert acc. induction items as [|x r IH]; intro acc; cbn.
  - apply grows_ret.
  - apply grows_bind; [apply Hr | intro; apply IH].
Qed.

Lemma grows_close_connection : grows close_connection.
Proof. unfold close_connection. grows_tac. Qed.

#[export] Hint Resolve grows_init_db_table grows_save_data_to_db grows_close_connection : grows_db.

Lemma grows_process_entity net depth e endpoint params :
  (forall x, grows (e_row e x)) -> grows (process_entity net depth e endpoint params).
Proof.
  intro Hr. unfold process_entity.
  apply grows_bind.
  { unfold fetch_api_data. cbv zeta. grows_tac. }
  intro resp. grows_tac. apply grows_prepare_rows, Hr.
Qed.

(** The first thing a processor run does after its start line: it logs
    and sends the request for its endpoint. *)
Lemma process_entity_requests net depth e endpoint params w :
  (forall x, grows (e_row e x)) ->
  exists evs, w_events (snd (process_entity net depth e endpoint params w))
    = app (w_events w) ([Log INFO ("API request: " ++ BASE_API_URL ++ endpoint);
                         Request (BASE_API_URL ++ endpoint) params] ++ evs).
Proof.
  intro Hr. unfold process_entity at 1. unfold bind at 1.
  destruct (fetch_api_data_shape net depth endpoint params w) as (r & evs1 & E). rewrite E.
  destruct r as [r|x]; cbv beta iota; [|exists evs1; reflexivity].
  match goal with
  | |- exists _, w_events (snd (?m ?w1)) = _ =>
      assert (Hk : grows m) by (grows_tac; apply grows_prepare_rows, Hr);
      destruct (Hk w1) as [evs2 E2]
  end.
  exists (app evs1 evs2). rewrite E2. cbn. rewrite <- !app_assoc. reflexivity.
Qed.

(** ** C9: the owning-user filter of [process_posts] *)

(** C9. [process_posts] tests [user_id] by truthiness: with [user_id = 0]
    it behaves exactly as with no filter and requests the global [posts]
    endpoint; any other user id requests [users/<id>/posts]. *)
Theorem posts_user_zero_fetches_all net depth (limit skip : Z) :
  let params := [("limit", JInt limit); ("skip", JInt skip)] in
  process_posts net depth limit skip (Some 0) = process_posts net depth limit skip None /\
  (forall w, exists evs,
     w_events (snd (process_posts net depth limit skip (Some 0) w))
     = app (w_events w) ([Log INFO "Processing all posts";
                          Log INFO ("API request: " ++ BASE_API_URL ++ "posts");
                          Request (BASE_API_URL ++ "posts") params] ++ evs)) /\
  (forall u w, u <> 0 -> exists evs,
     w_events (snd (process_posts net depth limit skip (Some u) w))
     = app (w_events w) ([Log INFO ("Processing posts of user #" ++ z_to_string u);
                          Log INFO ("API request: " ++ BASE_API_URL ++ "users/"
                                    ++ z_to_string u ++ "/posts");
                          Request (BASE_API_URL ++ "users/" ++ z_to_string u ++ "/posts")
                            params] ++ evs)).
Proof.
  cbv zeta. split; [reflexivity|]. split.
  - intro w. unfold process_posts. cbn [opt_int_truthy Z.eqb negb]. unfold bind at 1.
    destruct (process_entity_requests net depth posts_entity "posts"
                [("limit", JInt limit); ("skip", JInt skip)]
                (mkWorld (w_db_ok w) (w_tables w) (app (w_events w) [Log INFO "Processing all posts"])))
      as [evs E].
    { intro x. apply quiet_grows, post_row_quiet. }
    exists evs. cbn. rewrite E. cbn. rewrite <- app_assoc. reflexivity.
  - intros u w Hu. unfold process_posts. unfold opt_int_truthy.
    replace (negb (u =? 0)) with true by (symmetry; apply negb_true_iff, Z.eqb_neq; exact Hu).
    unfold bind at 1.
    destruct (process_entity_requests net depth posts_entity
                ("users/" ++ z_to_string u ++ "/posts")
                [("limit", JInt limit); ("skip", JInt skip)]
                (mkWorld (w_db_ok w) (w_tables w)
                   (app (w_events w) [Log INFO ("Processing posts of user #" ++ z_to_string u)])))
      as [evs E].
    { intro x. apply quiet_grows, post_row_quiet. }
    exists evs. cbv beta iota delta [bind log emit]. rewrite E. cbn. rewrite <- app_assoc. reflexivity.
Qed.

Lemma posts_user_zero_fetches_all_witness :
  exists evs,
    w_events (snd (process_posts (fun _ _ => HTimeout) 10 30 0 (Some 7) w_empty))
    = app (w_events w_empty)
        ([Log INFO ("Processing posts of user #" ++ z_to_string 7);
          Log INFO ("API request: " ++ BASE_API_URL ++ "users/" ++ z_to_string 7 ++ "/posts");
          Request (BASE_API_URL ++ "users/" ++ z_to_string 7 ++ "/posts")
            [("limit", JInt 30); ("skip", JInt 0)]] ++ evs).
Proof.
  destruct (posts_user_zero_fetches_all (fun _ _ => HTimeout) 10 30 0) as (_ & _ & H).
  apply H. discriminate.
Defined.

(** ** The record loop *)

Lemma prepare_rows_quiet row items acc :
  (forall x, quiet (row x)) -> quiet (prepare_rows row items acc).
Proof.
  intro Hr. revert acc. induction items as [|x r IH]; intro acc; cbn.
  - apply quiet_ret.
  - apply quiet_bind; [apply Hr | intro o; apply IH].
Qed.

Lemma pure_prepare_rows_cons row x r acc :
  (forall x, quiet (row x)) ->
  pure_of (prepare_rows row (x :: r) acc)
  = match pure_of (row x) with
    | Ok o => pure_of (prepare_rows row r (match o with
                                          | Some t => app acc [t]
                                          | None => acc
                                          end))
    | Raise e => Raise e
    end.
Proof.
  intro Hr. cbn [prepare_rows]. rewrite pure_of_bind; [reflexivity | apply Hr |].
  intro o. apply prepare_rows_quiet, Hr.
Qed.

Lemma pure_prepare_rows_app row pre l acc :
  (forall x, quiet (row x)) ->
  pure_of (prepare_rows row (app pre l) acc)
  = match pure_of (prepare_rows row pre acc) with
    | Ok acc' => pure_of (prepare_rows row l acc')
    | Raise e => Raise e
    end.
Proof.
  intro Hr. revert acc. induction pre as [|x r IH]; intro acc.
  - reflexivity.
  - cbn [app]. rewrite !pure_prepare_rows_cons by exact Hr.
    destruct (pure_of (row x)); [apply IH | reflexivity].
Qed.

Definition entities : list entity := [products_entity; users_entity; posts_entity].

Lemma entities_quiet e x : In e entities -> quiet (e_row e x).
Proof.
  intros [<-|[<-|[<-|[]]]]; cbn [e_row].
  - apply product_row_quiet.
  - apply user_row_quiet.
  - apply post_row_quiet.
Qed.

(** The loop body of each processor on a dict without ["id"]. *)
Lemma row_without_id e fs w :
  In e entities -> dict_lookup "id" fs = None ->
  exists msg, e_row e (JObj fs) w
    = (Ok None, mkWorld (w_db_ok w) (w_tables w) (app (w_events w) [Log WARNING msg])).
Proof.
  intros He Hid. destruct w as [ok ts evs].
  destruct He as [<-|[<-|[<-|[]]]]; cbn [e_row products_entity users_entity posts_entity];
    [unfold product_row | unfold user_row | unfold post_row];
    rewrite py_in_obj, Hid; cbn; eexists; reflexivity.
Qed.

(** [save_data_to_db] does not read the events. *)
Lemma save_data_to_db_events table_name data columns ok ts evs evs' :
  fst (save_data_to_db table_name data columns (mkWorld ok ts evs))
  = fst (save_data_to_db table_name data columns (mkWorld ok ts evs')) /\
  w_tables (snd (save_data_to_db table_name data columns (mkWorld ok ts evs)))
  = w_tables (snd (save_data_to_db table_name data columns (mkWorld ok ts evs'))).
Proof.
  destruct data as [|d ds].
  - split; reflexivity.
  - unfold save_data_to_db, try_sqlite, bind, get_tables, set_tables, lift, log, emit, ret,
      raise.
    cbn -[exec_insert_many].
    destruct (exec_insert_many ts table_name columns (d :: ds)) as [[ts' n]|[]];
      cbn -[exec_insert_many]; try destruct (0 <? n); split; reflexivity.
Qed.

Lemma prepare_then_save row items table_name columns w :
  (forall x, quiet (row x)) ->
  exists evs,
    (data <- prepare_rows row items [] ;; save_data_to_db table_name data columns) w
    = match pure_of (prepare_rows row items []) with
      | Ok d => save_data_to_db table_name d columns
                  (mkWorld (w_db_ok w) (w_tables w) (app (w_events w) evs))
      | Raise e => (Raise e, mkWorld (w_db_ok w) (w_tables w) (app (w_events w) evs))
      end.
Proof.
  intro Hr. destruct (prepare_rows_quiet row items [] Hr w) as [evs E].
  exists evs. unfold bind at 1. rewrite E. destruct (pure_of _); reflexivity.
Qed.

(** ** C2: records without an identifier *)

(** C2. In each of the three processors, a fetched dict without an
    ["id"] key is skipped by the record loop with a warning, the other
    records give the same batch as if it were absent, and the batch stored
    by [save_data_to_db] gives the same insert count and the same tables. *)
Theorem records_without_id_skipped (e : entity) (fs : list (string * json))
    (pre post : list json) (w : world) :
  In e entities -> dict_lookup "id" fs = None ->
  (exists msg, e_row e (JObj fs) w
     = (Ok None, mkWorld (w_db_ok w) (w_tables w) (app (w_events w) [Log WARNING msg]))) /\
  pure_of (prepare_rows (e_row e) (app pre (JObj fs :: post)) [])
    = pure_of (prepare_rows (e_row e) (app pre post) []) /\
  (let store items :=
     (data <- prepare_rows (e_row e) items [] ;;
      save_data_to_db (e_table e) data (e_columns e)) in
   fst (store (app pre (JObj fs :: post)) w) = fst (store (app pre post) w) /\
   w_tables (snd (store (app pre (JObj fs :: post)) w))
     = w_tables (snd (store (app pre post) w))).
Proof.
  intros He Hid.
  assert (Hq : forall x, quiet (e_row e x)) by (intro; apply entities_quiet, He).
  assert (Hp : pure_of (prepare_rows (e_row e) (app pre (JObj fs :: post)) [])
               = pure_of (prepare_rows (e_row e) (app pre post) [])).
  { rewrite !pure_prepare_rows_app by exact Hq.
    destruct (pure_of (prepare_rows (e_row e) pre [])) as [acc|]; [|reflexivity].
    rewrite pure_prepare_rows_cons by exact Hq.
    destruct (row_without_id e fs w_empty He Hid) as [msg E].
    unfold pure_of at 1. rewrite E. reflexivity. }
  split; [apply row_without_id; assumption|]. split; [exact Hp|].
  cbv zeta.
  destruct (prepare_then_save (e_row e) (app pre (JObj fs :: post)) (e_table e) (e_columns e) w Hq)
    as [evs1 E1].
  destruct (prepare_then_save (e_row e) (app pre post) (e_table e) (e_columns e) w Hq)
    as [evs2 E2].
  rewrite E1, E2, Hp.
  destruct (pure_of (prepare_rows (e_row e) (app pre post) [])) as [d|x].
  - apply save_data_to_db_events.
  - split; reflexivity.
Qed.

Lemma records_without_id_skipped_witness :
  In products_entity entities /\ dict_lookup "id" [("title", JStr "x")] = None /\
  pure_of (prepare_rows product_row [JObj [("id", JInt 1)]; JObj [("title", JStr "x")]] [])
  = pure_of (prepare_rows product_row [JObj [("id", JInt 1)]] []).
Proof.
  split; [left; reflexivity|]. split; [reflexivity|].
  destruct (records_without_id_skipped products_entity [("title", JStr "x")]
              [JObj [("id", JInt 1)]] [] w_empty) as (_ & H & _).
  - left. reflexivity.
  - reflexivity.
  - exact H.
Defined.

(** ** C4: the early return without data *)

(** A decoded API response without records in [field]: falsy, a dict
    without [field], or a dict whose [field] is falsy (an empty list). *)
Definition no_data (field : string) (r : json) : bool :=
  negb (truthy r)
  || match r with
     | JObj fs => match dict_lookup field fs with
                  | None => true
                  | Some v => negb (truthy v)
                  end
     | _ => false
     end.

(** A run that returns normally, touches neither the database nor the
    connection, and whose last event is a warning. *)
Definition early_return (m : M unit) (w : world) : Prop :=
  exists evs,
    m w = (Ok tt, mkWorld (w_db_ok w) (w_tables w) (app (w_events w) evs)) /\
    ~ In Connect evs /\
    exists msg, last evs Connect = Log WARNING msg.

Lemma fetch_api_data_events net depth entity params w :
  exists evs,
    fetch_api_data net depth entity params w
      = (pure_of (fetch_api_data net depth entity params),
         mkWorld (w_db_ok w) (w_tables w) (app (w_events w) evs)) /\
    ~ In Connect evs /\ evs <> [].
Proof.
  destruct w as [ok ts evs0].
  unfold fetch_api_data, pure_of, bind, log, emit, ret; cbn.
  destruct (net _ params) as [| |st body]; cbn;
    [| | destruct ((400 <=? st) && (st <? 600)); cbn;
         [| destruct (json_loads depth body) as [[v|]|e]; cbn]];
    eexists; rewrite <- !app_assoc; (split; [reflexivity|]);
    cbn; split; (intuition discriminate).
Qed.

Lemma last_app_ne {A} (l1 l2 : list A) (d : A) :
  l2 <> [] -> last (app l1 l2) d = last l2 d.
Proof.
  intro H. induction l1 as [|x r IH]; [reflexivity|].
  cbn [app]. rewrite <- IH. destruct (app r l2) eqn:E.
  - apply app_eq_nil in E. destruct E. contradiction.
  - reflexivity.
Qed.

Lemma process_entity_no_data net depth e endpoint params w r :
  pure_of (fetch_api_data net depth endpoint params) = Ok r ->
  no_data (e_field e) r = true ->
  early_return (process_entity net depth e endpoint params) w.
Proof.
  intros Hr Hn. unfold early_return at 1, process_entity. unfold bind at 1.
  destruct (fetch_api_data_events net depth endpoint params w) as (evs1 & E & Hc & Hne).
  rewrite E, Hr. cbv beta iota.
  set (w1 := mkWorld (w_db_ok w) (w_tables w) (app (w_events w) evs1)).
  assert (Hw : forall msg,
             log WARNING msg w1 = (Ok tt, mkWorld (w_db_ok w) (w_tables w)
                                           (app (w_events w) (app evs1 [Log WARNING msg])))).
  { intro msg. unfold log, emit, w1. cbn. rewrite app_assoc. reflexivity. }
  assert (Hend : forall msg, early_return (fun _ => log WARNING msg w1) w).
  { intro msg. exists (app evs1 [Log WARNING msg]). split; [apply Hw|]. split.
    - intro Hi. apply in_app_or in Hi as [Hi|Hi]; [contradiction|].
      destruct Hi as [Hi|[]]; discriminate.
    - exists msg. rewrite last_app_ne by discriminate. reflexivity. }
  unfold no_data in Hn.
  destruct (truthy r) eqn:Ht; cbn [negb orb] in Hn.
  - destruct r as [| | | | | |fs]; try discriminate. rewrite py_in_obj.
    destruct (dict_lookup (e_field e) fs) as [v|] eqn:Hl.
    + unfold bind at 1 2 3, lift, ret. cbn [py_getitem negb]. rewrite Hl.
      destruct (truthy v); [discriminate|]. apply Hend.
    + unfold bind at 1 2, lift, ret. cbn [negb]. apply Hend.
  - unfold bind at 1, ret. cbn [negb]. apply Hend.
Qed.

(** C4. When the decoded API response to the request a processor sends
    has no records (it is falsy, a dict without the processor's array
    field, or a dict whose field is empty), the processor returns normally
    right after a warning: the tables and the connection flag are
    unchanged and no database connection is opened. *)
Theorem processors_return_early_without_data net depth w :
  (forall q, (exists r,
       pure_of (fetch_api_data net depth "products/search" [("q", JStr q)]) = Ok r /\
       no_data "products" r = true) ->
     early_return (process_products net depth q) w) /\
  (forall limit skip, (exists r,
       pure_of (fetch_api_data net depth "users" [("limit", JInt limit); ("skip", JInt skip)])
         = Ok r /\ no_data "users" r = true) ->
     early_return (process_users net depth limit skip) w) /\
  (forall limit skip user_id, (exists r,
       pure_of (fetch_api_data net depth
                  (match user_id with
                   | Some u => if opt_int_truthy user_id
                               then "users/" ++ z_to_string u ++ "/posts" else "posts"
                   | None => "posts"
                   end)
                  [("limit", JInt limit); ("skip", JInt skip)]) = Ok r /\
       no_data "posts" r = true) ->
     early_return (process_posts net depth limit skip user_id) w).
Proof.
  assert (Hlog : forall msg m, early_return m (mkWorld (w_db_ok w) (w_tables w)
                                                 (app (w_events w) [Log INFO msg])) ->
                 early_return (log INFO msg ;; m) w).
  { intros msg m (evs & E & Hc & Hl). exists (Log INFO msg :: evs).
    unfold bind at 1, log, emit. rewrite E. cbn. rewrite <- app_assoc. split; [reflexivity|].
    split.
    - intros [Hi|Hi]; [discriminate | contradiction].
    - destruct Hl as [msg' Hl]. exists msg'. destruct evs; [discriminate|]. exact Hl. }
  split; [|split].
  - intros q (r & Hr & Hn). unfold process_products. apply Hlog.
    exact (process_entity_no_data net depth products_entity _ _ _ r Hr Hn).
  - intros limit skip (r & Hr & Hn). unfold process_users. apply Hlog.
    exact (process_entity_no_data net depth users_entity _ _ _ r Hr Hn).
  - intros limit skip user_id (r & Hr & Hn). unfold process_posts.
    destruct user_id as [u|]; [destruct (opt_int_truthy (Some u))|]; apply Hlog;
      exact (process_entity_no_data net depth posts_entity _ _ _ r Hr Hn).
Qed.

Definition empty_products_net : string -> list (string * json) -> http_result :=
  fun _ _ => HResponse 200 ("{" ++ qt "products" ++ ": []}").

Lemma processors_return_early_without_data_witness :
  early_return (process_products empty_products_net 10 "phone") w_empty.
Proof.
  destruct (processors_return_early_without_data empty_products_net 10 w_empty) as (H & _).
  apply H. exists (JObj [("products", JArr [])]).
  split; reflexivity.
Defined.

(** ** C8: the summaries of [format_value] *)











(** ** The database effect of a computation

    [den m ok ts]: the result of [m] and the tables it leaves, run on a
    database with tables [ts] and connection flag [ok]. [blind m]: [m]
    does not read the events, keeps the connection flag and only appends
    events, so [den m] is all there is to it besides the log. *)
Definition den {A} (m : M A) (ok : bool) (ts : list table) : result A * list table :=
  let p := m (mkWorld ok ts []) in (fst p, w_tables (snd p)).

Definition blind {A} (m : M A) : Prop :=
  forall w, exists evs,
    m w = (fst (den m (w_db_ok w) (w_tables w)),
           mkWorld (w_db_ok w) (snd (den m (w_db_ok w) (w_tables w))) (app (w_events w) evs)).

Lemma den_quiet {A} (m : M A) ok ts : quiet m -> den m ok ts = (pure_of m, ts).
Proof.
  intro Hm. unfold den. destruct (Hm (mkWorld ok ts [])) as [evs E]. rewrite E. reflexivity.
Qed.

Lemma blind_quiet {A} (m : M A) : quiet m -> blind m.
Proof.
  intros Hm w. destruct (Hm w) as [evs E]. exists evs. rewrite E, den_quiet by exact Hm.
  reflexivity.
Qed.

Lemma den_bind {A B} (m : M A) (k : A -> M B) ok ts :
  blind m -> (forall a, blind (k a)) ->
  den (bind m k) ok ts
  = match den m ok ts with
    | (Ok a, ts') => den (k a) ok ts'
    | (Raise e, ts') => (Raise e, ts')
    end.
Proof.
  intros Hm Hk. unfold den at 1, bind.
  destruct (Hm (mkWorld ok ts [])) as [e1 E1]. rewrite E1. cbn [w_db_ok w_tables w_events].
  destruct (den m ok ts) as [[a|e] ts']; cbn [fst snd].
  - destruct (Hk a (mkWorld ok ts' (app [] e1))) as [e2 E2]. rewrite E2. cbn [fst snd w_tables w_db_ok].
    destruct (den (k a) ok ts'); reflexivity.
  - reflexivity.
Qed.

Lemma blind_bind {A B} (m : M A) (k : A -> M B) :
  blind m -> (forall a, blind (k a)) -> blind (bind m k).
Proof.
  intros Hm Hk [ok ts evs]. cbn [w_db_ok w_tables w_events].
  rewrite den_bind by assumption.
  unfold bind. destruct (Hm (mkWorld ok ts evs)) as [e1 E1]. rewrite E1. cbn [w_db_ok w_tables w_events].
  destruct (den m ok ts) as [[a|e] ts']; cbn [fst snd].
  - destruct (Hk a (mkWorld ok ts' (app evs e1))) as [e2 E2]. rewrite E2. cbn [w_db_ok w_tables w_events].
    exists (app e1 e2). rewrite app_assoc. reflexivity.
  - exists e1. reflexivity.
Qed.

Lemma den_try_sqlite {A} (body handler : M A) ok ts :
  blind body -> blind handler ->
  den (try_sqlite body handler) ok ts
  = match den body ok ts with
    | (Raise SqliteError, ts') => den handler ok ts'
    | r => r
    end.
Proof.
  intros Hb Hh. unfold den at 1, try_sqlite.
  destruct (Hb (mkWorld ok ts [])) as [e1 E1]. rewrite E1. cbn [w_db_ok w_tables w_events].
  destruct (den body ok ts) as [[a|[]] ts']; cbn [fst snd]; try reflexivity.
  destruct (Hh (mkWorld ok ts' (app [] e1))) as [e2 E2]. rewrite E2. cbn [fst snd w_tables w_db_ok].
  destruct (den handler ok ts'); reflexivity.
Qed.

Lemma blind_try_sqlite {A} (body handler : M A) :
  blind body -> blind handler -> blind (try_sqlite body handler).
Proof.
  intros Hb Hh [ok ts evs]. cbn [w_db_ok w_tables w_events].
  rewrite den_try_sqlite by assumption.
  unfold try_sqlite. destruct (Hb (mkWorld ok ts evs)) as [e1 E1]. rewrite E1.
  cbn [w_db_ok w_tables w_events].
  destruct (den body ok ts) as [[a|[]] ts']; cbn [fst snd]; try (exists e1; reflexivity).
  destruct (Hh (mkWorld ok ts' (app evs e1))) as [e2 E2]. rewrite E2. cbn [w_db_ok w_tables w_events].
  exists (app e1 e2). rewrite app_assoc. reflexivity.
Qed.

Lemma den_try_finally {A} (body : M A) (fin : M unit) ok ts :
  blind body -> blind fin ->
  den (try_finally body fin) ok ts
  = match den body ok ts with
    | (r, ts') => match den fin ok ts' with
                  | (Ok _, ts'') => (r, ts'')
                  | (Raise e, ts'') => (Raise e, ts'')
                  end
    end.
Proof.
  intros Hb Hf. unfold den at 1, try_finally.
  destruct (Hb (mkWorld ok ts [])) as [e1 E1]. rewrite E1. cbn [w_db_ok w_tables w_events].
  destruct (den body ok ts) as [r ts']; cbn [fst snd].
  destruct (Hf (mkWorld ok ts' (app [] e1))) as [e2 E2]. rewrite E2. cbn [fst snd w_tables w_db_ok].
  destruct (den fin ok ts') as [[]]; reflexivity.
Qed.

Lemma blind_try_finally {A} (body : M A) (fin : M unit) :
  blind body -> blind fin -> blind (try_finally body fin).
Proof.
  intros Hb Hf [ok ts evs]. cbn [w_db_ok w_tables w_events].
  rewrite den_try_finally by assumption.
  unfold try_finally. destruct (Hb (mkWorld ok ts evs)) as [e1 E1]. rewrite E1.
  cbn [w_db_ok w_tables w_events].
  destruct (den body ok ts) as [r ts']; cbn [fst snd].
  destruct (Hf (mkWorld ok ts' (app evs e1))) as [e2 E2]. rewrite E2. cbn [w_db_ok w_tables w_events].
  exists (app e1 e2). rewrite app_assoc. destruct (den fin ok ts') as [[]]; reflexivity.
Qed.

Lemma blind_get_tables : blind get_tables.
Proof. intros [ok ts evs]. exists []. rewrite app_nil_r. reflexivity. Qed.

Lemma blind_set_tables ts' : blind (set_tables ts').
Proof. intros [ok ts evs]. exists []. rewrite app_nil_r. reflexivity. Qed.

Lemma blind_get_db_connection : blind get_db_connection.
Proof.
  intros [[|] ts evs]; eexists; cbn; unfold ret; rewrite <- ?app_assoc; reflexivity.
Qed.

Create HintDb blind_db.
#[export] Hint Resolve blind_get_tables blind_set_tables blind_get_db_connection : blind_db.

Ltac blind_tac :=
  repeat match goal with
  | |- blind (bind _ _) => apply blind_bind; [|intro]
  | |- blind (try_sqlite _ _) => apply blind_try_sqlite
  | |- blind (try_finally _ _) => apply blind_try_finally
  | |- blind (if ?b then _ else _) => destruct b
  | |- blind (match ?x with _ => _ end) => destruct x
  | |- blind (prepare_rows _ _ _) => apply blind_quiet, prepare_rows_quiet; auto
  | |- blind _ => solve [auto with blind_db | apply blind_quiet; quiet_tac]
  end.

Lemma blind_init_db_table tn sc : blind (init_db_table tn sc).
Proof. unfold init_db_table. blind_tac. Qed.

Lemma blind_save_data_to_db tn data cols : blind (save_data_to_db tn data cols).
Proof. unfold save_data_to_db. blind_tac. Qed.

Lemma quiet_fetch_api_data net depth entity params : quiet (fetch_api_data net depth entity params).
Proof. unfold fetch_api_data. cbv zeta. quiet_tac. Qed.

Lemma quiet_close_connection : quiet close_connection.
Proof. unfold close_connection. quiet_tac. Qed.

#[export] Hint Resolve blind_init_db_table blind_save_data_to_db : blind_db.

(** What [init_db_table] does to the database. *)
Definition init_den (ts : list table) (tn : string) (sc : schema_sql) : result bool * list table :=
  if table_exists ts tn then (Ok true, ts)
  else match exec_create ts sc with
       | Ok ts' => (Ok true, ts')
       | Raise SqliteError => (Ok false, ts)
       | Raise e => (Raise e, ts)
       end.

(** What [save_data_to_db] does to the database. *)
Definition save_den (ts : list table) (tn : string) (cols : list string) (data : list (list json))
  : result Z * list table :=
  match data with
  | [] => (Ok 0, ts)
  | _ => match exec_insert_many ts tn cols data with
         | Ok (ts', n) => (Ok n, ts')
         | Raise SqliteError => (Ok 0, ts)
         | Raise e => (Raise e, ts)
         end
  end.

Lemma den_init_db_table tn sc ok ts : den (init_db_table tn sc) ok ts = init_den ts tn sc.
Proof.
  unfold den, init_db_table, init_den, try_sqlite, bind, get_tables, log, emit, ret,
    set_tables, lift, raise.
  cbn -[table_exists exec_create]. destruct (table_exists ts tn); [reflexivity|].
  cbn -[table_exists exec_create].
  destruct (exec_create ts sc) as [ts'|[]]; reflexivity.
Qed.

Lemma den_save_data_to_db tn data cols ok ts :
  den (save_data_to_db tn data cols) ok ts = save_den ts tn cols data.
Proof.
  destruct data as [|d ds]; [reflexivity|].
  unfold den, save_data_to_db, save_den, try_sqlite, bind, get_tables, log, emit, ret,
    set_tables, lift, raise.
  cbn -[exec_insert_many].
  destruct (exec_insert_many ts tn cols (d :: ds)) as [[ts' n]|[]]; cbn -[exec_insert_many];
    try destruct (0 <? n); reflexivity.
Qed.

(** The [if not api_response or field not in api_response or not
    api_response[field]] test. *)
Definition has_data_of (field : string) (r : json) : result bool :=
  if negb (truthy r) then Ok false
  else match py_in field r with
       | Raise e => Raise e
       | Ok false => Ok false
       | Ok true => match py_getitem r field with Ok v => Ok (truthy v) | Raise e => Raise e end
       end.

(** What a processor run does to the database once the API has answered
    [r]: the result and the tables it leaves. *)
Definition process_entity_den (e : entity) (r : json) (ok : bool) (ts : list table)
  : result unit * list table :=
  match has_data_of (e_field e) r with
  | Raise x => (Raise x, ts)
  | Ok false => (Ok tt, ts)
  | Ok true =>
      match py_getitem r (e_field e) with
      | Raise x => (Raise x, ts)
      | Ok items_list =>
          match py_len items_list with
          | Raise x => (Raise x, ts)
          | Ok _ =>
              if negb ok then (Ok tt, ts) else
              match init_den ts (e_table e) (e_schema e) with
              | (Raise x, ts1) => (Raise x, ts1)
              | (Ok false, ts1) => (Ok tt, ts1)
              | (Ok true, ts1) =>
                  match py_iter items_list with
                  | Raise x => (Raise x, ts1)
                  | Ok items =>
                      match pure_of (prepare_rows (e_row e) items []) with
                      | Raise x => (Raise x, ts1)
                      | Ok data =>
                          match save_den ts1 (e_table e) (e_columns e) data with
                          | (Raise x, ts2) => (Raise x, ts2)
                          | (Ok _, ts2) =>
                              match py_len items_list with
                              | Ok _ => (Ok tt, ts2)
                              | Raise x => (Raise x, ts2)
                              end
                          end
                      end
                  end
              end
          end
      end
  end.

Lemma blind_process_entity net depth e endpoint params :
  (forall x, quiet (e_row e x)) -> blind (process_entity net depth e endpoint params).
Proof.
  intro Hr. unfold process_entity.
  apply blind_bind; [apply blind_quiet, quiet_fetch_api_data|]. intro resp.
  blind_tac. apply blind_quiet, quiet_close_connection.
Qed.

#[export] Hint Resolve quiet_close_connection quiet_fetch_api_data : quiet_db.

Lemma den_lift {A} (x : result A) ok ts : den (lift x) ok ts = (x, ts).
Proof. destruct x; reflexivity. Qed.

Lemma den_log lvl msg ok ts : den (log lvl msg) ok ts = (Ok tt, ts).
Proof. reflexivity. Qed.

Lemma den_get_db_connection ok ts : den get_db_connection ok ts = (Ok ok, ts).
Proof. destruct ok; reflexivity. Qed.

Lemma pure_has_data field r :
  pure_of (if negb (truthy r) then ret false
           else present <- lift (py_in field r) ;;
                if negb present then ret false
                else v <- lift (py_getitem r field) ;; ret (truthy v))
  = has_data_of field r.
Proof.
  unfold has_data_of. destruct (truthy r); [|reflexivity]. cbn.
  destruct (py_in field r) as [[|]|]; cbn; try reflexivity.
  destruct (py_getitem r field); reflexivity.
Qed.

Ltac den_bind_tac := rewrite den_bind by (intros; blind_tac).

Lemma den_process_entity net depth e endpoint params r ok ts :
  pure_of (fetch_api_data net depth endpoint params) = Ok r ->
  (forall x, quiet (e_row e x)) ->
  den (process_entity net depth e endpoint params) ok ts = process_entity_den e r ok ts.
Proof.
  intros Hf Hr. unfold process_entity.
  den_bind_tac. rewrite den_quiet by apply quiet_fetch_api_data. rewrite Hf. cbv beta iota.
  den_bind_tac. rewrite den_quiet by quiet_tac. rewrite pure_has_data.
  unfold process_entity_den.
  destruct (has_data_of (e_field e) r) as [[|]|x]; cbv beta iota; cbn [negb]; [|reflexivity|reflexivity].
  den_bind_tac. rewrite den_lift. destruct (py_getitem r (e_field e)) as [il|x]; cbv beta iota;
    [|reflexivity].
  den_bind_tac. rewrite den_lift. destruct (py_len il) as [n|x] eqn:En; cbv beta iota; [|reflexivity].
  den_bind_tac. rewrite den_log. cbv beta iota.
  den_bind_tac. rewrite den_get_db_connection. cbv beta iota.
  destruct ok; cbn [negb]; [|reflexivity].
  rewrite den_try_finally by (intros; blind_tac).
  den_bind_tac. rewrite den_init_db_table.
  destruct (init_den ts (e_table e) (e_schema e)) as [[[|]|x] ts1]; cbv beta iota; cbn [negb];
    [|reflexivity|reflexivity].
  den_bind_tac. rewrite den_lift. destruct (py_iter il) as [items|x]; cbv beta iota; [|reflexivity].
  den_bind_tac. rewrite den_quiet by (apply prepare_rows_quiet; exact Hr).
  destruct (pure_of (prepare_rows (e_row e) items [])) as [data|x]; cbv beta iota; [|reflexivity].
  den_bind_tac. rewrite den_save_data_to_db.
  destruct (save_den ts1 (e_table e) (e_columns e) data) as [[z|x] ts2]; cbv beta iota; [|reflexivity].
  den_bind_tac. rewrite den_lift. cbv beta iota.
  destruct (0 <? z); reflexivity.
Qed.

(** ** [INSERT OR IGNORE] and a repeated batch *)

Lemma insert_or_ignore_step rows r rows' n :
  insert_or_ignore rows r = Ok (rows', n) ->
  (rows' = rows /\ n = 0) \/ (exists x, rows' = app rows [x] /\ n = 1).
Proof.
  unfold insert_or_ignore. destruct r as [|v tl]; [discriminate|].
  destruct (rowid_of v) as [[k|]|]; [destruct (key_taken rows k)| |]; try discriminate;
    intro H; injection H as <- <-; [left; auto | right; eexists; eauto | right; eexists; eauto].
Qed.

Lemma executemany_extends tc cs rows data rows' n :
  executemany tc cs rows data = Ok (rows', n) -> exists extra, rows' = app rows extra.
Proof.
  revert rows n. induction data as [|d ds IH]; intros rows n H; cbn in H.
  - injection H as <- _. exists []. rewrite app_nil_r. reflexivity.
  - destruct (negb _); [discriminate|].
    destruct (bind_params d) as [r|]; [|discriminate].
    destruct (insert_or_ignore rows _) as [[rows1 n1]|] eqn:Ei; [|discriminate].
    destruct (executemany tc cs rows1 ds) as [[rows2 m]|] eqn:Ee; [|discriminate].
    injection H as <- _. destruct (IH _ _ Ee) as [extra ->].
    destruct (insert_or_ignore_step _ _ _ _ Ei) as [[-> _] | (x & -> & _)].
    + exists extra. reflexivity.
    + exists (x :: extra). rewrite <- app_assoc. reflexivity.
Qed.

Lemma executemany_count tc cs rows data rows' n :
  executemany tc cs rows data = Ok (rows', n) ->
  Z.of_nat (length rows') = Z.of_nat (length rows) + n.
Proof.
  revert rows n. induction data as [|d ds IH]; intros rows n H; cbn in H.
  - injection H as <- <-. lia.
  - destruct (negb _); [discriminate|].
    destruct (bind_params d) as [r|]; [|discriminate].
    destruct (insert_or_ignore rows _) as [[rows1 n1]|] eqn:Ei; [|discriminate].
    destruct (executemany tc cs rows1 ds) as [[rows2 m]|] eqn:Ee; [|discriminate].
    injection H as <- <-. rewrite (IH _ _ Ee).
    destruct (insert_or_ignore_step _ _ _ _ Ei) as [[-> ->] | (x & -> & ->)];
      rewrite ?length_app; cbn [length]; lia.
Qed.

Lemma find_table_replace ts tn t rows :
  find_table ts tn = Some t ->
  find_table (replace_rows ts tn rows) tn = Some (mkTable (t_name t) (t_cols t) rows).
Proof.
  induction ts as [|t0 r IH]; cbn; [discriminate|].
  destruct (String.eqb (lower_string (t_name t0)) (lower_string tn)) eqn:E.
  - intro H. injection H as <-. cbn. rewrite E. reflexivity.
  - intro H. cbn. rewrite E. exact (IH H).
Qed.

Lemma table_exists_replace ts tn rows x :
  table_exists (replace_rows ts tn rows) x = table_exists ts x.
Proof.
  induction ts as [|t0 r IH]; [reflexivity|]. cbn [replace_rows].
  destruct (String.eqb (lower_string (t_name t0)) (lower_string tn)); unfold table_exists in *;
    cbn [existsb t_name]; [reflexivity|]. rewrite IH. reflexivity.
Qed.

Lemma save_den_exists ts tn cols data x :
  table_exists (snd (save_den ts tn cols data)) x = table_exists ts x.
Proof.
  destruct data as [|d ds]; [reflexivity|]. cbn.
  unfold exec_insert_many. destruct (find_table ts tn); [|reflexivity].
  destruct (negb (insert_cols_ok (t_cols t) cols)); cbv beta iota; [reflexivity|].
  destruct (executemany (t_cols t) cols (t_rows t) (d :: ds)) as [[rows n]|[]]; cbn; try reflexivity.
  apply table_exists_replace.
Qed.

Definition table_rows (ts : list table) (tn : string) : list (Z * list sqlval) :=
  match find_table ts tn with Some t => t_rows t | None => [] end.

Lemma save_den_count ts tn cols data n ts' :
  save_den ts tn cols data = (Ok n, ts') ->
  Z.of_nat (length (table_rows ts' tn)) = Z.of_nat (length (table_rows ts tn)) + n.
Proof.
  destruct data as [|d ds]; cbn.
  - intro H. inversion H; subst. lia.
  - unfold exec_insert_many. destruct (find_table ts tn) as [t|] eqn:Ef.
    + destruct (negb (insert_cols_ok (t_cols t) cols)); cbv beta iota; [intro H; inversion H; subst; lia|].
  destruct (executemany (t_cols t) cols (t_rows t) (d :: ds)) as [[rows m]|[]] eqn:Ee; intro H;
        inversion H; subst; try lia.
      unfold table_rows. rewrite (find_table_replace _ _ _ rows Ef), Ef. cbn [t_rows].
      exact (executemany_count _ _ _ _ _ _ Ee).
    + intro H. inversion H; subst. lia.
Qed.

Lemma entities_schema e : In e entities -> e_schema e = CreateTable (e_table e) (e_columns e).
Proof. intros [<-|[<-|[<-|[]]]]; reflexivity. Qed.

Lemma den_log_then {A} lvl msg (m : M A) ok ts :
  blind m -> den (log lvl msg ;; m) ok ts = den m ok ts.
Proof. intro Hm. rewrite den_bind by (intros; blind_tac; exact Hm). reflexivity. Qed.

Definition null_id_net : string -> list (string * json) -> http_result :=
  fun _ _ => HResponse 200 ("{" ++ qt "products" ++ ": [{" ++ qt "id" ++ ": null}]}").

(** C1 (code bug). Running the pipeline twice on an unchanged response
    does not always give the row count of one run: a record whose ["id"]
    is [null] is stored again by every run: SQLite gives the [NULL] key of [api_id INTEGER
    PRIMARY KEY] a fresh rowid, so [INSERT OR IGNORE] never ignores it and
    the second run of [process_products] on the same response adds a
    second row. *)
Lemma null_id_stored_twice :
  let w1 := snd (process_products null_id_net 10 "phone" (mkWorld true [] [])) in
  let w2 := snd (process_products null_id_net 10 "phone" w1) in
  length (table_rows (w_tables w1) "products") = 1%nat /\
  length (table_rows (w_tables w2) "products") = 2%nat.
Proof. vm_compute. split; reflexivity. Qed.

Definition id_one_net : string -> list (string * json) -> http_result :=
  fun _ _ => HResponse 200 ("{" ++ qt "products" ++ ": [{" ++ qt "id" ++ ": 1}]}").

(** ** Exceptions that reach the caller *)

(** A value [sqlite3] binds without [OverflowError] or
    [UnicodeEncodeError]. *)
Definition small (v : json) : bool :=
  match v with
  | JInt z => (int64_min <=? z) && (z <=? int64_max)
  | JStr s => negb (has_surrogate s)
  | _ => true
  end.

Lemma small_dumps v : small (JStr (json_dumps v)) = true.
Proof. cbn [small]. rewrite ascii_only_no_surrogate by apply json_dumps_ascii. reflexivity. Qed.

Fixpoint ints_of (l : list json) : option (list Z) :=
  match l with
  | [] => Some []
  | JInt z :: r => match ints_of r with Some zs => Some (z :: zs) | None => None end
  | _ :: _ => None
  end.

(** A reactions object whose values are [int]s with a 64-bit sum. *)
Definition reactions_ok (kvs : list (string * json)) : bool :=
  match dict_lookup "reactions" kvs with
  | Some (JObj rs) =>
      match ints_of (map snd rs) with
      | Some zs => small (JInt (fold_right Z.add 0 zs))
      | None => false
      end
  | _ => true
  end.

(** A record the loop body and [executemany] handle without an exception
    other than [sqlite3.Error]: a dict whose values are all bindable, with
    well-formed reactions for a post. *)
Definition record_ok (with_reactions : bool) (x : json) : bool :=
  match x with
  | JObj kvs => forallb (fun kv => small (snd kv)) kvs
                && (if with_reactions then reactions_ok kvs else true)
  | _ => false
  end.

(** A response a processor handles without an exception: one without
    records, or a dict whose array [field] holds [record_ok] records. *)
Definition records_ok (field : string) (r : json) : bool :=
  match has_data_of field r with
  | Ok false => true
  | _ =>
      match r with
      | JObj fs => match dict_lookup field fs with
                   | Some (JArr items) => forallb (record_ok (String.eqb field "posts")) items
                   | _ => false
                   end
      | _ => false
      end
  end.

Lemma ints_of_map l zs : ints_of l = Some zs -> l = map JInt zs.
Proof.
  revert zs. induction l as [|v r IH]; intros zs H; cbn in H.
  - injection H as <-. reflexivity.
  - destruct v; try discriminate. destruct (ints_of r) as [zs'|]; [|discriminate].
    injection H as <-. cbn. rewrite (IH zs' eq_refl). reflexivity.
Qed.

Lemma lookup_small kvs k d :
  forallb (fun kv => small (snd kv)) kvs = true -> small d = true ->
  small (match dict_lookup k kvs with Some v => v | None => d end) = true.
Proof.
  intros Hs Hd. induction kvs as [|[k' v] r IH]; [exact Hd|].
  cbn in Hs |- *. apply andb_true_iff in Hs as [Hv Hr].
  destruct (String.eqb k k'); [exact Hv | exact (IH Hr)].
Qed.

Lemma row_small e kvs :
  In e entities -> record_ok (String.eqb (e_field e) "posts") (JObj kvs) = true ->
  match pure_of (e_row e (JObj kvs)) with
  | Ok (Some d) => forallb small d = true
  | Ok None => True
  | Raise _ => False
  end.
Proof.
  intros He H. cbn [record_ok] in H. apply andb_true_iff in H as [Hs Hr].
  destruct He as [<-|[<-|[<-|[]]]]; cbn [e_row products_entity users_entity posts_entity e_field] in *;
    unfold pure_of.
  - unfold product_row. rewrite py_in_obj.
    destruct (dict_lookup "id" kvs); cbn -[small dict_lookup json_dumps]; [|exact I].
    rewrite !lookup_small by (exact Hs || reflexivity). rewrite ?small_dumps. reflexivity.
  - unfold user_row. rewrite py_in_obj.
    destruct (dict_lookup "id" kvs); cbn -[small dict_lookup json_dumps]; [|exact I].
    rewrite !lookup_small by (exact Hs || reflexivity). rewrite ?small_dumps. reflexivity.
  - unfold post_row. rewrite py_in_obj.
    destruct (dict_lookup "id" kvs); cbn -[small dict_lookup json_dumps py_sum]; [|exact I].
    assert (Hr' : reactions_ok kvs = true) by exact Hr. clear Hr. rename Hr' into Hr.
    unfold reactions_ok in Hr.
    pose proof (lookup_small kvs "reactions" (JInt 0) Hs eq_refl) as Hrs.
    destruct (dict_lookup "reactions" kvs) as [[| | | | | |rs]|];
      cbn -[small dict_lookup json_dumps py_sum];
      try (rewrite !lookup_small by (exact Hs || reflexivity); cbn -[small]; rewrite ?Hrs, ?small_dumps; reflexivity).
    destruct (ints_of (map snd rs)) as [zs|] eqn:Ez; [|discriminate].
    rewrite (ints_of_map _ _ Ez), py_sum_ints. cbn -[small dict_lookup json_dumps].
    rewrite !lookup_small by (exact Hs || reflexivity). cbn -[small]. rewrite Hr, ?small_dumps. reflexivity.
Qed.

Lemma prepare_rows_ok row items acc :
  (forall x, quiet (row x)) ->
  (forall x, In x items -> match pure_of (row x) with
                           | Ok (Some d) => forallb small d = true
                           | Ok None => True
                           | Raise _ => False
                           end) ->
  Forall (fun d => forallb small d = true) acc ->
  exists data, pure_of (prepare_rows row items acc) = Ok data
               /\ Forall (fun d => forallb small d = true) data.
Proof.
  intros Hq. revert acc. induction items as [|x r IH]; intros acc Hx Hacc.
  - exists acc. split; [reflexivity | exact Hacc].
  - rewrite pure_prepare_rows_cons by exact Hq.
    specialize (Hx x (or_introl eq_refl)) as Hx0.
    destruct (pure_of (row x)) as [[d|]|]; [| |contradiction]; apply IH;
      try (intros y Hy; apply Hx; right; exact Hy).
    + apply Forall_app. split; [exact Hacc|]. constructor; [exact Hx0 | constructor].
    + exact Hacc.
Qed.

Lemma bind_params_raise d e :
  forallb small d = true -> bind_params d = Raise e -> e = SqliteError.
Proof.
  induction d as [|v r IH]; intros Hs H; cbn in H; [discriminate|].
  cbn in Hs. apply andb_true_iff in Hs as [Hv Hr].
  destruct (bind_param v) as [s|e'] eqn:Eb.
  - destruct (bind_params r); [discriminate|]. injection H as <-. exact (IH Hr eq_refl).
  - injection H as <-. destruct v as [| |z|f|t| |]; cbn [bind_param small] in Eb, Hv;
      try discriminate.
    + rewrite Hv in Eb. discriminate.
    + destruct f; discriminate.
    + destruct (has_surrogate t); discriminate.
    + injection Eb as <-. reflexivity.
    + injection Eb as <-. reflexivity.
Qed.

Lemma insert_or_ignore_raise rows r e : insert_or_ignore rows r = Raise e -> e = SqliteError.
Proof.
  unfold insert_or_ignore. destruct r as [|v tl]; [intro H; injection H as <-; reflexivity|].
  destruct (rowid_of v) as [[k|]|]; [destruct (key_taken rows k)| |]; try discriminate.
  intro H. injection H as <-. reflexivity.
Qed.

Lemma executemany_raise tc cs rows data e :
  Forall (fun d => forallb small d = true) data ->
  executemany tc cs rows data = Raise e -> e = SqliteError.
Proof.
  revert rows. induction data as [|d ds IH]; intros rows Hs H; cbn in H; [discriminate|].
  inversion Hs as [|? ? Hd Hds]; subst.
  destruct (negb _); [injection H as <-; reflexivity|].
  destruct (bind_params d) as [r|e'] eqn:Eb; [|injection H as <-; exact (bind_params_raise d e' Hd Eb)].
  destruct (insert_or_ignore rows _) as [[rows1 n1]|e'] eqn:Ei.
  - destruct (executemany tc cs rows1 ds) as [[rows2 m]|e''] eqn:Ee; [discriminate|].
    injection H as <-. exact (IH rows1 Hds Ee).
  - injection H as <-. exact (insert_or_ignore_raise _ _ _ Ei).
Qed.

Lemma save_den_ok ts tn cols data :
  Forall (fun d => forallb small d = true) data ->
  exists n ts', save_den ts tn cols data = (Ok n, ts').
Proof.
  intro Hs. destruct data as [|d ds]; [do 2 eexists; reflexivity|]. cbn.
  unfold exec_insert_many. destruct (find_table ts tn) as [t|]; [|do 2 eexists; reflexivity].
  destruct (negb (insert_cols_ok (t_cols t) cols)); cbv beta iota; [do 2 eexists; reflexivity|].
  destruct (executemany (t_cols t) cols (t_rows t) (d :: ds)) as [[rows n]|e] eqn:Ee; [do 2 eexists; reflexivity|].
  rewrite (executemany_raise _ _ _ _ _ Hs Ee). do 2 eexists. reflexivity.
Qed.

Lemma init_den_ok ts tn sc : exists b ts1, init_den ts tn sc = (Ok b, ts1).
Proof.
  unfold init_den. destruct (table_exists ts tn); [do 2 eexists; reflexivity|].
  unfold exec_create. destruct (existsb _ ts); do 2 eexists; reflexivity.
Qed.

Lemma process_entity_den_ok e r ok ts :
  In e entities -> records_ok (e_field e) r = true ->
  fst (process_entity_den e r ok ts) = Ok tt.
Proof.
  intros He H. unfold records_ok in H. unfold process_entity_den.
  destruct (has_data_of (e_field e) r) as [[|]|x] eqn:Hh; [| reflexivity |].
  2: { destruct r as [| | | | | |fs]; try discriminate.
       destruct (dict_lookup (e_field e) fs) as [[| | | | |items|]|] eqn:Hl; try discriminate.
       unfold has_data_of in Hh. cbn -[dict_lookup truthy] in Hh. rewrite Hl in Hh.
       destruct (truthy (JObj fs)); discriminate. }
  destruct r as [| | | | | |fs]; try discriminate.
  destruct (dict_lookup (e_field e) fs) as [[| | | | |items|]|] eqn:Hl; try discriminate.
  cbn [py_getitem]. rewrite Hl. cbn [py_len negb py_iter].
  destruct ok; [|reflexivity]. cbn [negb].
  destruct (init_den_ok ts (e_table e) (e_schema e)) as (b & ts1 & Ei). rewrite Ei.
  destruct b; [|reflexivity].
  destruct (prepare_rows_ok (e_row e) items [] (fun x => entities_quiet e x He)) as (data & Ed & Hs).
  { intros x Hx. rewrite forallb_forall in H. specialize (H x Hx).
    destruct x as [| | | | | |kvs]; try discriminate. apply row_small; assumption. }
  { constructor. }
  rewrite Ed. destruct (save_den_ok ts1 (e_table e) (e_columns e) data Hs) as (n & ts2 & Es). rewrite Es.
  reflexivity.
Qed.

Definition body_net (body : string) : string -> list (string * json) -> http_result :=
  fun _ _ => HResponse 200 body.

(** C6 (as stated, refuted). Exceptions other than [sqlite3.Error] reach
    the caller: [TypeError] from ['products' in 5] on a JSON [5] body and
    from ['id' in 5] on a record [5], [AttributeError] from [.get] on a
    record that is the string ["id"], [OverflowError] from binding an id
    beyond 64 bits, [TypeError] from summing reactions that are not
    numbers, [UnicodeEncodeError] from binding a title that holds a lone
    surrogate, [RecursionError] from a body nested deeper than the
    recursion limit allows, and [ValueError] from an integer literal of
    more than 4300 digits. *)
Lemma processors_can_raise :
  fst (process_users (body_net "5") 10 30 0 (mkWorld true [] [])) = Raise TypeError /\
  fst (process_products (body_net ("{" ++ qt "products" ++ ": [5]}")) 10 "phone"
         (mkWorld true [] [])) = Raise TypeError /\
  fst (process_products (body_net ("{" ++ qt "products" ++ ": [" ++ qt "id" ++ "]}")) 10 "phone"
         (mkWorld true [] [])) = Raise AttributeError /\
  fst (process_products
         (body_net ("{" ++ qt "products" ++ ": [{" ++ qt "id" ++ ": 9223372036854775808}]}"))
         10 "phone" (mkWorld true [] [])) = Raise OverflowError /\
  fst (process_posts
         (body_net ("{" ++ qt "posts" ++ ": [{" ++ qt "id" ++ ": 1, " ++ qt "reactions"
                    ++ ": {" ++ qt "likes" ++ ": " ++ qt "x" ++ "}}]}"))
         10 30 0 None (mkWorld true [] [])) = Raise TypeError /\
  fst (process_products
         (body_net ("{" ++ qt "products" ++ ": [{" ++ qt "id" ++ ": 1, " ++ qt "title"
                    ++ ": " ++ qt "\ud800" ++ "}]}"))
         10 "phone" (mkWorld true [] [])) = Raise UnicodeEncodeError /\
  fst (process_products (body_net "[[[[[[[[[[[[]]]]]]]]]]]]") 10 "phone"
         (mkWorld true [] [])) = Raise RecursionError /\
  fst (process_products (body_net (string_of_list (repeat "1"%char 4301))) 10 "phone"
         (mkWorld true [] [])) = Raise ValueError.
Proof. vm_compute. repeat split. Qed.

Lemma processor_result net depth e endpoint params msg r w :
  In e entities -> pure_of (fetch_api_data net depth endpoint params) = Ok r ->
  fst ((log INFO msg ;; process_entity net depth e endpoint params) w)
  = fst (process_entity_den e r (w_db_ok w) (w_tables w)).
Proof.
  intros He Hf.
  assert (Hq : forall x, quiet (e_row e x)) by (intro; apply entities_quiet, He).
  assert (Hb : blind (process_entity net depth e endpoint params)) by (apply blind_process_entity, Hq).
  assert (Hb' : blind (log INFO msg ;; process_entity net depth e endpoint params))
    by (apply blind_bind; [apply blind_quiet, quiet_log | intros; exact Hb]).
  destruct (Hb' w) as [evs E]. rewrite E. cbn [fst].
  rewrite den_log_then by exact Hb. rewrite (den_process_entity net depth e endpoint params r) by assumption.
  reflexivity.
Qed.

(** C6 (amended). A processor returns normally, having logged what went
    wrong, when the decoded API response to the request it sends (no
    decoding error escapes) has no records, or is a dict whose array field
    holds dicts with no [int] value beyond 64 bits and no text holding a
    lone surrogate (for posts, also with reactions that are an object of
    [int]s with a 64-bit sum, or not an object); a failed request, a
    missing database, a failed table creation and an [sqlite3.Error] while
    saving are then all handled. *)
Theorem processors_return_normally net depth w :
  (forall q, (exists r,
       pure_of (fetch_api_data net depth "products/search" [("q", JStr q)]) = Ok r /\
       records_ok "products" r = true) ->
     fst (process_products net depth q w) = Ok tt) /\
  (forall limit skip, (exists r,
       pure_of (fetch_api_data net depth "users" [("limit", JInt limit); ("skip", JInt skip)])
         = Ok r /\ records_ok "users" r = true) ->
     fst (process_users net depth limit skip w) = Ok tt) /\
  (forall limit skip user_id, (exists r,
       pure_of (fetch_api_data net depth
                  (match user_id with
                   | Some u => if opt_int_truthy user_id
                               then "users/" ++ z_to_string u ++ "/posts" else "posts"
                   | None => "posts"
                   end)
                  [("limit", JInt limit); ("skip", JInt skip)]) = Ok r /\
       records_ok "posts" r = true) ->
     fst (process_posts net depth limit skip user_id w) = Ok tt).
Proof.
  split; [|split].
  - intros q (r & Hr & Hn). unfold process_products.
    rewrite (processor_result net depth products_entity _ _ _ r w (or_introl eq_refl) Hr).
    apply process_entity_den_ok; [left; reflexivity | exact Hn].
  - intros limit skip (r & Hr & Hn). unfold process_users.
    rewrite (processor_result net depth users_entity _ _ _ r w (or_intror (or_introl eq_refl)) Hr).
    apply process_entity_den_ok; [right; left; reflexivity | exact Hn].
  - intros limit skip user_id (r & Hr & Hn). unfold process_posts.
    destruct user_id as [u|]; [destruct (opt_int_truthy (Some u))|];
      rewrite (processor_result net depth posts_entity _ _ _ r w
                 (or_intror (or_intror (or_introl eq_refl))) Hr);
      (apply process_entity_den_ok; [right; right; left; reflexivity | exact Hn]).
Qed.

Lemma processors_return_normally_witness :
  fst (process_products id_one_net 10 "phone" (mkWorld true [] [])) = Ok tt.
Proof.
  destruct (processors_return_normally id_one_net 10 (mkWorld true [] [])) as (H & _).
  apply H.
  exists (JObj [("products", JArr [JObj [("id", JInt 1)]])]). split; reflexivity.
Defined.

(* ------------------------------------------------------------------ *)
(** * Further properties of the storage functions and the processors *)

(** ** What a save does to the tables *)

Lemma save_world tn data cols w :
  exists evs, save_data_to_db tn data cols w
    = (fst (save_den (w_tables w) tn cols data),
       mkWorld (w_db_ok w) (snd (save_den (w_tables w) tn cols data)) (app (w_events w) evs)).
Proof.
  destruct (blind_save_data_to_db tn data cols w) as [evs E].
  exists evs. rewrite E, den_save_data_to_db. reflexivity.
Qed.

Lemma init_world tn sc w :
  exists evs, init_db_table tn sc w
    = (fst (init_den (w_tables w) tn sc),
       mkWorld (w_db_ok w) (snd (init_den (w_tables w) tn sc)) (app (w_events w) evs)).
Proof.
  destruct (blind_init_db_table tn sc w) as [evs E].
  exists evs. rewrite E, den_init_db_table. reflexivity.
Qed.

Lemma executemany_bound tc cs rows data rows' n :
  executemany tc cs rows data = Ok (rows', n) -> 0 <= n <= Z.of_nat (length data).
Proof.
  revert rows rows' n. induction data as [|d ds IH]; intros rows rows' n H; cbn in H.
  - injection H as _ <-. cbn. lia.
  - destruct (negb _); [discriminate|].
    destruct (bind_params d) as [r|]; [|discriminate].
    destruct (insert_or_ignore rows _) as [[rows1 n1]|] eqn:Ei; [|discriminate].
    destruct (executemany tc cs rows1 ds) as [[rows2 m]|] eqn:Ee; [|discriminate].
    injection H as _ <-. specialize (IH _ _ _ Ee).
    destruct (insert_or_ignore_step _ _ _ _ Ei) as [[_ ->]|(x & _ & ->)]; cbn [length]; lia.
Qed.

(** The tables other than [tn] (names compare without case). *)
Definition others (tn : string) (ts : list table) : list table :=
  filter (fun t => negb (String.eqb (lower_string (t_name t)) (lower_string tn))) ts.

(** [ts'] differs from [ts] only in the table [tn]: the other tables are
    the same, in the same order; no table is named other than before or
    [tn]; and every table keeps its rows, at most with rows added after
    them. *)
Definition touches_only (tn : string) (ts ts' : list table) : Prop :=
  others tn ts' = others tn ts /\
  incl (map t_name ts') (tn :: map t_name ts) /\
  (forall n, exists extra, table_rows ts' n = app (table_rows ts n) extra).

Lemma touches_only_refl tn ts : touches_only tn ts ts.
Proof.
  split; [reflexivity|split].
  - intros x Hx. right. exact Hx.
  - intro n. exists []. rewrite app_nil_r. reflexivity.
Qed.

Lemma touches_only_trans tn a b c :
  touches_only tn a b -> touches_only tn b c -> touches_only tn a c.
Proof.
  intros (H1 & H2 & H3) (G1 & G2 & G3). split; [congruence|split].
  - intros x Hx. destruct (G2 x Hx) as [<-|Hb]; [left; reflexivity | exact (H2 x Hb)].
  - intro n. destruct (H3 n) as [e1 E1]. destruct (G3 n) as [e2 E2].
    exists (app e1 e2). rewrite E2, E1, app_assoc. reflexivity.
Qed.

Lemma find_table_app l1 l2 n :
  find_table (app l1 l2) n
  = match find_table l1 n with Some t => Some t | None => find_table l2 n end.
Proof.
  induction l1 as [|t r IH]; cbn; [reflexivity|].
  destruct (String.eqb _ _); [reflexivity | exact IH].
Qed.

Lemma find_table_lower ts a b :
  lower_string a = lower_string b -> find_table ts a = find_table ts b.
Proof. intro H. induction ts as [|t r IH]; cbn; [reflexivity|]. rewrite H, IH. reflexivity. Qed.

Lemma find_table_existsb ts n t :
  find_table ts n = Some t ->
  existsb (fun t => String.eqb (lower_string (t_name t)) (lower_string n)) ts = true.
Proof.
  induction ts as [|t0 r IH]; cbn; [discriminate|].
  destruct (String.eqb _ _); [reflexivity|]. intro H. rewrite (IH H). apply orb_true_r.
Qed.

Lemma replace_rows_others ts tn rows : others tn (replace_rows ts tn rows) = others tn ts.
Proof.
  unfold others. induction ts as [|t r IH]; [reflexivity|]. cbn [replace_rows].
  destruct (String.eqb (lower_string (t_name t)) (lower_string tn)) eqn:E;
    cbn [filter t_name]; rewrite E; cbn [negb]; [reflexivity | rewrite IH; reflexivity].
Qed.

Lemma replace_rows_names ts tn rows : map t_name (replace_rows ts tn rows) = map t_name ts.
Proof.
  induction ts as [|t r IH]; [reflexivity|]. cbn [replace_rows].
  destruct (String.eqb _ _); cbn [map t_name]; [reflexivity | rewrite IH; reflexivity].
Qed.

Lemma find_table_replace_other ts tn rows n :
  String.eqb (lower_string n) (lower_string tn) = false ->
  find_table (replace_rows ts tn rows) n = find_table ts n.
Proof.
  intro Hn. induction ts as [|t r IH]; [reflexivity|]. cbn [replace_rows].
  destruct (String.eqb (lower_string (t_name t)) (lower_string tn)) eqn:E; cbn [find_table t_name].
  - apply String.eqb_eq in E. rewrite E.
    replace (String.eqb (lower_string tn) (lower_string n)) with false; [reflexivity|].
    symmetry. rewrite String.eqb_sym. exact Hn.
  - destruct (String.eqb (lower_string (t_name t)) (lower_string n)); [reflexivity | exact IH].
Qed.

Lemma touches_init ts tn cols :
  touches_only tn ts (snd (init_den ts tn (CreateTable tn cols))).
Proof.
  unfold init_den. destruct (table_exists ts tn); [apply touches_only_refl|].
  unfold exec_create. cbn [sc_name sc_cols].
  match goal with |- context [existsb ?f ts] => destruct (existsb f ts) eqn:Ex end;
    [apply touches_only_refl|]. cbn [snd].
  split; [|split].
  - unfold others. rewrite filter_app. cbn [filter t_name]. rewrite String.eqb_refl.
    cbn [negb]. apply app_nil_r.
  - intros x Hx. rewrite map_app in Hx.
    apply in_app_or in Hx as [Hx|[<-|[]]]; [right; exact Hx | left; reflexivity].
  - intro n. unfold table_rows. rewrite find_table_app.
    destruct (find_table ts n); [exists []; rewrite app_nil_r; reflexivity|].
    exists []. cbn. destruct (String.eqb _ _); reflexivity.
Qed.

Lemma touches_save ts tn cols data : touches_only tn ts (snd (save_den ts tn cols data)).
Proof.
  destruct data as [|d ds]; [apply touches_only_refl|]. cbn [save_den].
  unfold exec_insert_many. destruct (find_table ts tn) as [t|] eqn:Ef; [|apply touches_only_refl].
  destruct (negb (insert_cols_ok (t_cols t) cols)); cbv beta iota; [apply touches_only_refl|].
  destruct (executemany (t_cols t) cols (t_rows t) (d :: ds)) as [[rows n]|[]] eqn:Ee; cbv beta iota;
    cbn [snd]; try apply touches_only_refl.
  split; [apply replace_rows_others|split].
  - rewrite replace_rows_names. intros x Hx. right. exact Hx.
  - intro n0. unfold table_rows.
    destruct (String.eqb (lower_string n0) (lower_string tn)) eqn:En.
    + apply String.eqb_eq in En. rewrite !(find_table_lower _ n0 tn En).
      rewrite (find_table_replace _ _ _ rows Ef), Ef. cbn [t_rows].
      destruct (executemany_extends _ _ _ _ _ _ Ee) as [extra ->]. exists extra. reflexivity.
    + rewrite (find_table_replace_other _ _ _ _ En). exists []. rewrite app_nil_r. reflexivity.
Qed.

Lemma touches_process_entity_den e r ok ts :
  In e entities -> touches_only (e_table e) ts (snd (process_entity_den e r ok ts)).
Proof.
  intros He. unfold process_entity_den. rewrite (entities_schema e He).
  destruct (has_data_of (e_field e) r) as [[|]|x]; try apply touches_only_refl.
  destruct (py_getitem r (e_field e)) as [il|x]; try apply touches_only_refl.
  destruct (py_len il) as [n|x]; try apply touches_only_refl.
  destruct ok; cbn [negb]; try apply touches_only_refl.
  pose proof (touches_init ts (e_table e) (e_columns e)) as Hi.
  destruct (init_den ts (e_table e) (CreateTable (e_table e) (e_columns e))) as [res1 ts1].
  cbn [snd] in Hi.
  destruct res1 as [[|]|x]; try exact Hi.
  destruct (py_iter il) as [items|x]; try exact Hi.
  destruct (pure_of (prepare_rows (e_row e) items [])) as [data|x]; try exact Hi.
  pose proof (touches_save ts1 (e_table e) (e_columns e) data) as Hs.
  destruct (save_den ts1 (e_table e) (e_columns e) data) as [res2 ts2]. cbn [snd] in Hs.
  pose proof (touches_only_trans _ _ _ _ Hi Hs) as H.
  destruct res2; [destruct (py_len il)|]; exact H.
Qed.

(** A processor is a log line followed by [process_entity] of its entity. *)
Definition runs_entity (net : string -> list (string * json) -> http_result)
    (depth : nat) (e : entity) (m : M unit) : Prop :=
  exists msg endpoint params, m = (log INFO msg ;; process_entity net depth e endpoint params).

Lemma processors_run_entities net depth :
  (forall q, runs_entity net depth products_entity (process_products net depth q)) /\
  (forall limit skip, runs_entity net depth users_entity (process_users net depth limit skip)) /\
  (forall limit skip u, runs_entity net depth posts_entity (process_posts net depth limit skip u)).
Proof.
  split; [|split].
  - intro q. do 3 eexists. reflexivity.
  - intros l s. do 3 eexists. reflexivity.
  - intros l s [u|]; unfold process_posts; [destruct (opt_int_truthy (Some u))|];
      do 3 eexists; reflexivity.
Qed.

Lemma processor_world net depth e m w :
  runs_entity net depth e m -> In e entities ->
  (exists r evs, m w
    = (fst (process_entity_den e r (w_db_ok w) (w_tables w)),
       mkWorld (w_db_ok w) (snd (process_entity_den e r (w_db_ok w) (w_tables w)))
               (app (w_events w) evs))) \/
  (exists x evs, m w = (Raise x, mkWorld (w_db_ok w) (w_tables w) (app (w_events w) evs))).
Proof.
  intros (msg & endpoint & params & ->) He.
  assert (Hq : forall x, quiet (e_row e x)) by (intro; apply entities_quiet, He).
  assert (Hb : blind (process_entity net depth e endpoint params)) by (apply blind_process_entity, Hq).
  assert (Hb' : blind (log INFO msg ;; process_entity net depth e endpoint params))
    by (apply blind_bind; [apply blind_quiet, quiet_log | intros; exact Hb]).
  destruct (Hb' w) as [evs E]. rewrite E.
  rewrite den_log_then by exact Hb.
  destruct (pure_of (fetch_api_data net depth endpoint params)) as [r|x] eqn:Hf.
  - left. exists r, evs.
    rewrite (den_process_entity net depth e endpoint params r) by assumption. reflexivity.
  - right. exists x, evs.
    assert (Hd : den (process_entity net depth e endpoint params) (w_db_ok w) (w_tables w)
                 = (Raise x, w_tables w)).
    { unfold process_entity. rewrite den_bind by (intros; blind_tac).
      rewrite den_quiet by apply quiet_fetch_api_data. rewrite Hf. reflexivity. }
    rewrite Hd. reflexivity.
Qed.

Lemma runs_entity_touches net depth e m w :
  runs_entity net depth e m -> In e entities ->
  touches_only (e_table e) (w_tables w) (w_tables (snd (m w))).
Proof.
  intros Hm He.
  destruct (processor_world net depth e m w Hm He) as [(r & evs & ->) | (x & evs & ->)].
  - apply touches_process_entity_den, He.
  - apply touches_only_refl.
Qed.

Lemma bind_params_raise_kind d e :
  bind_params d = Raise e -> e = SqliteError \/ e = OverflowError \/ e = UnicodeEncodeError.
Proof.
  induction d as [|v r IH]; cbn; [discriminate|].
  destruct (bind_param v) as [s|e'] eqn:Eb.
  - destruct (bind_params r); [discriminate|]. intro H. injection H as <-. exact (IH eq_refl).
  - intro H. injection H as <-. revert Eb. destruct v as [| | |f|t| |]; cbn; try discriminate;
      try (destruct (_ && _)); try (destruct f); try (destruct (has_surrogate t));
      intro Eb; try discriminate; injection Eb as <-; auto.
Qed.

Lemma executemany_raise_kind tc cs rows data e :
  executemany tc cs rows data = Raise e ->
  e = SqliteError \/ e = OverflowError \/ e = UnicodeEncodeError.
Proof.
  revert rows. induction data as [|d ds IH]; intros rows H; cbn in H; [discriminate|].
  destruct (negb _); [injection H as <-; left; reflexivity|].
  destruct (bind_params d) as [r|e'] eqn:Eb; [|injection H as <-; exact (bind_params_raise_kind d e' Eb)].
  destruct (insert_or_ignore rows _) as [[rows1 n1]|e'] eqn:Ei;
    [|injection H as <-; left; exact (insert_or_ignore_raise _ _ _ Ei)].
  destruct (executemany tc cs rows1 ds) as [[rows2 m]|e'] eqn:Ee; [discriminate|].
  injection H as <-. exact (IH _ Ee).
Qed.

(** A parameter tuple that [INSERT INTO t (cols) VALUES (?, ...)] cannot
    insert into a table with the columns [tcols]: its length is not the
    number of placeholders, it does not bind, or the value it gives the
    table's first column (the [INTEGER PRIMARY KEY]; [NULL] when the
    statement does not name it) is no valid rowid. *)
Definition row_rejected (tcols cols : list string) (d : list json) : bool :=
  negb (Nat.eqb (length d) (length cols)) ||
  match bind_params d with
  | Raise _ => true
  | Ok r =>
      match arrange tcols cols r with
      | [] => true
      | v :: _ => match rowid_of v with None => true | Some _ => false end
      end
  end.

Lemma executemany_rejected tc cs rows data :
  existsb (row_rejected tc cs) data = true ->
  exists e, executemany tc cs rows data = Raise e /\
            (e = SqliteError \/ e = OverflowError \/ e = UnicodeEncodeError).
Proof.
  revert rows. induction data as [|d ds IH]; intros rows H; cbn in H; [discriminate|].
  cbn [executemany]. unfold row_rejected in H at 1.
  destruct (negb (Nat.eqb (length d) (length cs))); cbn [orb] in H;
    [exists SqliteError; split; [reflexivity | left; reflexivity]|].
  destruct (bind_params d) as [r|e'] eqn:Eb; [|exists e'; split; [reflexivity | exact (bind_params_raise_kind d e' Eb)]].
  destruct (insert_or_ignore rows (arrange tc cs r)) as [[rows1 n1]|e'] eqn:Ei;
    [|exists e'; split; [reflexivity | left; exact (insert_or_ignore_raise _ _ _ Ei)]].
  assert (Hds : existsb (row_rejected tc cs) ds = true).
  { unfold insert_or_ignore in Ei. destruct (arrange tc cs r) as [|v tl]; [discriminate|].
    destruct (rowid_of v) as [[k|]|]; cbn in H; try discriminate; exact H. }
  destruct (IH rows1 Hds) as (e & Ee & He). rewrite Ee. exists e. auto.
Qed.

Lemma save_den_missing ts tn cols data :
  find_table ts tn = None -> save_den ts tn cols data = (Ok 0, ts).
Proof.
  intro H. destruct data as [|d ds]; [reflexivity|]. cbn [save_den].
  unfold exec_insert_many. rewrite H. reflexivity.
Qed.

Lemma table_rows_init ts tn cols n :
  table_rows (snd (init_den ts tn (CreateTable tn cols))) n = table_rows ts n.
Proof.
  unfold init_den. destruct (table_exists ts tn); [reflexivity|].
  unfold exec_create. cbn [sc_name sc_cols].
  match goal with |- context [existsb ?f ts] => destruct (existsb f ts) end; [reflexivity|].
  cbn [snd]. unfold table_rows. rewrite find_table_app.
  destruct (find_table ts n); [reflexivity|]. cbn. destruct (String.eqb _ _); reflexivity.
Qed.

Lemma init_den_blocked e r ok ts :
  In e entities -> table_exists ts (e_table e) = false -> find_table ts (e_table e) <> None ->
  snd (process_entity_den e r ok ts) = ts.
Proof.
  intros He Hx Hf. unfold process_entity_den. rewrite (entities_schema e He).
  assert (Hi : init_den ts (e_table e) (CreateTable (e_table e) (e_columns e)) = (Ok false, ts)).
  { unfold init_den. rewrite Hx. unfold exec_create. cbn [sc_name].
    destruct (find_table ts (e_table e)) as [t|] eqn:Ef; [|congruence].
    rewrite (find_table_existsb _ _ _ Ef). reflexivity. }
  destruct (has_data_of (e_field e) r) as [[|]|x]; try reflexivity.
  destruct (py_getitem r (e_field e)) as [il|x]; try reflexivity.
  destruct (py_len il) as [n|x]; try reflexivity.
  destruct ok; cbn [negb]; try reflexivity. rewrite Hi. reflexivity.
Qed.

(** X1. [save_data_to_db] only ever appends: it changes no table but
    [table_name], changes or deletes no stored row, adds no table, and
    when it returns [n] it has appended exactly [n] rows, with
    [0 <= n <= len(data)]. The only exceptions it lets through are
    [OverflowError] (an integer outside 64 bits) and [UnicodeEncodeError]
    (a text with a lone surrogate), and the database is then unchanged. *)
Theorem save_data_to_db_appends tn data cols w :
  touches_only tn (w_tables w) (w_tables (snd (save_data_to_db tn data cols w))) /\
  (forall n, fst (save_data_to_db tn data cols w) = Ok n ->
     0 <= n <= Z.of_nat (length data) /\
     Z.of_nat (length (table_rows (w_tables (snd (save_data_to_db tn data cols w))) tn))
     = Z.of_nat (length (table_rows (w_tables w) tn)) + n) /\
  (forall e, fst (save_data_to_db tn data cols w) = Raise e ->
     (e = OverflowError \/ e = UnicodeEncodeError) /\
     w_tables (snd (save_data_to_db tn data cols w)) = w_tables w).
Proof.
  destruct (save_world tn data cols w) as [evs ->]. cbn [fst snd w_tables].
  split; [apply touches_save|split].
  - intros n Hn. split.
    2: { apply (save_den_count (w_tables w) tn cols data). rewrite <- Hn. apply surjective_pairing. }
    + destruct data as [|d ds]; cbn in Hn; [injection Hn as <-; cbn; lia|].
      unfold exec_insert_many in Hn. destruct (find_table (w_tables w) tn) as [t|]; [|injection Hn as <-; lia].
      destruct (negb (insert_cols_ok (t_cols t) cols)); [cbv beta iota in Hn; injection Hn as <-; lia|].
  destruct (executemany (t_cols t) cols (t_rows t) (d :: ds)) as [[rows m]|[]] eqn:Ee; cbv beta iota in Hn;
        try discriminate; try (injection Hn as <-; lia).
      injection Hn as <-. exact (executemany_bound _ _ _ _ _ _ Ee).
  - intros e He. destruct data as [|d ds]; cbn [save_den fst] in He |- *; [discriminate|].
    unfold exec_insert_many in He |- *. destruct (find_table (w_tables w) tn) as [t|]; [|discriminate].
    destruct (negb (insert_cols_ok (t_cols t) cols)); [cbv beta iota in He; discriminate|].
  destruct (executemany (t_cols t) cols (t_rows t) (d :: ds)) as [[rows m]|e'] eqn:Ee; cbv beta iota in He |- *;
      [discriminate|].
    destruct (executemany_raise_kind _ _ _ _ _ Ee) as [-> | [-> | ->]]; [discriminate| |];
      injection He as <-; split; auto.
Qed.

Lemma save_data_to_db_appends_witness :
  fst (save_data_to_db "products" [[JInt 1]; [JInt 1]] ["api_id"]
         (mkWorld true [mkTable "products" ["api_id"] []] [])) = Ok 1 /\
  (0 <= 1 <= Z.of_nat (length [[JInt 1]; [JInt 1]]) /\
   Z.of_nat (length (table_rows (w_tables (snd (save_data_to_db "products" [[JInt 1]; [JInt 1]]
        ["api_id"] (mkWorld true [mkTable "products" ["api_id"] []] [])))) "products"))
   = Z.of_nat (length (table_rows (w_tables (mkWorld true [mkTable "products" ["api_id"] []] []))
        "products")) + 1).
Proof.
  destruct (save_data_to_db_appends "products" [[JInt 1]; [JInt 1]] ["api_id"]
              (mkWorld true [mkTable "products" ["api_id"] []] [])) as (_ & H & _).
  split; [reflexivity|]. exact (H 1 eq_refl).
Defined.

(** X2. A batch is saved whole or not at all: when the column list does
    not fit the table (it is empty or names a column the table lacks) or a
    tuple of [data] cannot be inserted (its length is not that of
    [columns], a value does not bind, or the value for the table's
    [INTEGER PRIMARY KEY] column is no valid rowid), the database is left
    as it was, the valid tuples before it included, and [save_data_to_db]
    returns 0 or raises [OverflowError] or [UnicodeEncodeError]. Saving
    into a table that does not exist returns 0 and changes nothing. *)
Theorem save_data_to_db_all_or_nothing tn data cols w :
  ((forall t, find_table (w_tables w) tn = Some t ->
      insert_cols_ok (t_cols t) cols = false \/ existsb (row_rejected (t_cols t) cols) data = true) ->
     w_tables (snd (save_data_to_db tn data cols w)) = w_tables w /\
     (fst (save_data_to_db tn data cols w) = Ok 0 \/
      fst (save_data_to_db tn data cols w) = Raise OverflowError \/
      fst (save_data_to_db tn data cols w) = Raise UnicodeEncodeError)) /\
  (find_table (w_tables w) tn = None ->
     fst (save_data_to_db tn data cols w) = Ok 0 /\
     w_tables (snd (save_data_to_db tn data cols w)) = w_tables w).
Proof.
  destruct (save_world tn data cols w) as [evs ->]. cbn [fst snd w_tables].
  split.
  - intro H. destruct data as [|d ds]; [cbn; auto|]. cbn [save_den]. unfold exec_insert_many.
    destruct (find_table (w_tables w) tn) as [t|]; [|auto].
    destruct (H t eq_refl) as [Hc | Hr].
    + rewrite Hc. cbv beta iota. auto.
    + destruct (negb (insert_cols_ok (t_cols t) cols)); cbv beta iota; [auto|].
      destruct (executemany_rejected (t_cols t) cols (t_rows t) _ Hr) as (e & -> & [-> | [-> | ->]]);
        cbv beta iota; auto.
  - intro H. rewrite (save_den_missing _ _ _ _ H). auto.
Qed.

Lemma save_data_to_db_all_or_nothing_witness :
  (forall t, find_table [mkTable "posts" ["api_id"; "title"] []] "posts" = Some t ->
     insert_cols_ok (t_cols t) ["api_id"; "title"] = false \/
     existsb (row_rejected (t_cols t) ["api_id"; "title"])
       [[JInt 1; JStr "ok"]; [JStr "abc"; JStr "bad key"]] = true) /\
  (w_tables (snd (save_data_to_db "posts" [[JInt 1; JStr "ok"]; [JStr "abc"; JStr "bad key"]]
                    ["api_id"; "title"] (mkWorld true [mkTable "posts" ["api_id"; "title"] []] [])))
   = w_tables (mkWorld true [mkTable "posts" ["api_id"; "title"] []] []) /\
   (fst (save_data_to_db "posts" [[JInt 1; JStr "ok"]; [JStr "abc"; JStr "bad key"]]
           ["api_id"; "title"] (mkWorld true [mkTable "posts" ["api_id"; "title"] []] [])) = Ok 0 \/
    fst (save_data_to_db "posts" [[JInt 1; JStr "ok"]; [JStr "abc"; JStr "bad key"]]
           ["api_id"; "title"] (mkWorld true [mkTable "posts" ["api_id"; "title"] []] []))
    = Raise OverflowError \/
    fst (save_data_to_db "posts" [[JInt 1; JStr "ok"]; [JStr "abc"; JStr "bad key"]]
           ["api_id"; "title"] (mkWorld true [mkTable "posts" ["api_id"; "title"] []] []))
    = Raise UnicodeEncodeError)).
Proof.
  assert (Hh : forall t, find_table [mkTable "posts" ["api_id"; "title"] []] "posts" = Some t ->
     insert_cols_ok (t_cols t) ["api_id"; "title"] = false \/
     existsb (row_rejected (t_cols t) ["api_id"; "title"])
       [[JInt 1; JStr "ok"]; [JStr "abc"; JStr "bad key"]] = true).
  { intros t Ht. vm_compute in Ht. injection Ht as <-. right. vm_compute. reflexivity. }
  split; [exact Hh|].
  apply (proj1 (save_data_to_db_all_or_nothing "posts"
                  [[JInt 1; JStr "ok"]; [JStr "abc"; JStr "bad key"]] ["api_id"; "title"]
                  (mkWorld true [mkTable "posts" ["api_id"; "title"] []] []))).
  exact Hh.
Defined.

(** X4. [init_db_table] returns [True] exactly when, afterwards, a table
    named [table_name] (same case) exists; it never raises, changes the
    rows of no table, and touches no table but [table_name]. *)
Theorem init_db_table_result tn cols w :
  fst (init_db_table tn (CreateTable tn cols) w)
  = Ok (table_exists (w_tables (snd (init_db_table tn (CreateTable tn cols) w))) tn) /\
  (forall n, table_rows (w_tables (snd (init_db_table tn (CreateTable tn cols) w))) n
             = table_rows (w_tables w) n) /\
  touches_only tn (w_tables w) (w_tables (snd (init_db_table tn (CreateTable tn cols) w))).
Proof.
  destruct (init_world tn (CreateTable tn cols) w) as [evs ->]. cbn [fst snd w_tables].
  split; [|split; [intro n; apply table_rows_init | apply touches_init]].
  unfold init_den. destruct (table_exists (w_tables w) tn) eqn:Ex; [cbn [fst snd]; rewrite Ex; reflexivity|].
  unfold exec_create. cbn [sc_name sc_cols].
  match goal with |- context [existsb ?f (w_tables w)] => destruct (existsb f (w_tables w)) end;
    cbn [fst snd].
  - rewrite Ex. reflexivity.
  - unfold table_exists. rewrite existsb_app. cbn [existsb t_name]. rewrite String.eqb_refl, orb_true_r.
    reflexivity.
Qed.

(** X5. When the database has a table whose name equals [table_name] only
    up to case, [init_db_table] cannot create [table_name]: it returns
    [False] and changes nothing, and so the processor of that table
    leaves the database as it was. *)
Theorem table_name_case_clash tn cols net depth w :
  table_exists (w_tables w) tn = false -> find_table (w_tables w) tn <> None ->
  fst (init_db_table tn (CreateTable tn cols) w) = Ok false /\
  w_tables (snd (init_db_table tn (CreateTable tn cols) w)) = w_tables w /\
  (tn = "products" -> forall q, w_tables (snd (process_products net depth q w)) = w_tables w) /\
  (tn = "users" -> forall limit skip, w_tables (snd (process_users net depth limit skip w)) = w_tables w) /\
  (tn = "posts" ->
     forall limit skip u, w_tables (snd (process_posts net depth limit skip u w)) = w_tables w).
Proof.
  intros Hx Hf.
  assert (Hp : forall e m, runs_entity net depth e m -> In e entities -> tn = e_table e ->
                           w_tables (snd (m w)) = w_tables w).
  { intros e m Hm He ->.
    destruct (processor_world net depth e m w Hm He) as [(r & evs & ->) | (x & evs & ->)];
      [apply init_den_blocked; assumption | reflexivity]. }
  destruct (processors_run_entities net depth) as (H1 & H2 & H3).
  destruct (init_world tn (CreateTable tn cols) w) as [evs ->]. cbn [fst snd w_tables].
  assert (Hi : init_den (w_tables w) tn (CreateTable tn cols) = (Ok false, w_tables w)).
  { unfold init_den. rewrite Hx. unfold exec_create. cbn [sc_name].
    destruct (find_table (w_tables w) tn) as [t|] eqn:Ef; [|congruence].
    rewrite (find_table_existsb _ _ _ Ef). reflexivity. }
  rewrite Hi. split; [reflexivity|split; [reflexivity|]].
  split; [|split].
  - intros Ht q. apply (Hp products_entity); [apply H1 | left; reflexivity | exact Ht].
  - intros Ht l s. apply (Hp users_entity); [apply H2 | right; left; reflexivity | exact Ht].
  - intros Ht l s u. apply (Hp posts_entity); [apply H3 | right; right; left; reflexivity | exact Ht].
Qed.

Lemma table_name_case_clash_witness :
  w_tables (snd (process_posts (fun _ _ => HTimeout) 10 30 0 None
                   (mkWorld true [mkTable "Posts" ["api_id"] []] [])))
  = w_tables (mkWorld true [mkTable "Posts" ["api_id"] []] []).
Proof.
  destruct (table_name_case_clash "posts" posts_columns (fun _ _ => HTimeout) 10
              (mkWorld true [mkTable "Posts" ["api_id"] []] [])) as (_ & _ & _ & _ & H).
  - reflexivity.
  - vm_compute. discriminate.
  - exact (H eq_refl 30 0 None).
Defined.

(** X6. Each processor touches only its own table: the other tables stay
    as they were, in the same order, no table but its own is created,
    and no stored row of any table is changed or deleted (rows are only
    appended). *)
Theorem processors_touch_only_their_table net depth w :
  (forall q, touches_only "products" (w_tables w) (w_tables (snd (process_products net depth q w)))) /\
  (forall limit skip,
     touches_only "users" (w_tables w) (w_tables (snd (process_users net depth limit skip w)))) /\
  (forall limit skip u,
     touches_only "posts" (w_tables w) (w_tables (snd (process_posts net depth limit skip u w)))).
Proof.
  destruct (processors_run_entities net depth) as (H1 & H2 & H3). split; [|split].
  - intro q. apply (runs_entity_touches net depth products_entity); [apply H1 | left; reflexivity].
  - intros l s. apply (runs_entity_touches net depth users_entity); [apply H2 | right; left; reflexivity].
  - intros l s u. apply (runs_entity_touches net depth posts_entity);
      [apply H3 | right; right; left; reflexivity].
Qed.

(** ** Traces of selected events *)

(** The events of [m] kept by [p] satisfy [S], from whatever world it
    starts in. *)
Definition traces (p : event -> bool) {A} (S : list event -> Prop) (m : M A) : Prop :=
  forall w, exists evs, w_events (snd (m w)) = app (w_events w) evs /\ S (filter p evs).

Definition no_events (l : list event) : Prop := l = [].

Definition cat (S T : list event -> Prop) (l : list event) : Prop :=
  exists a b, l = app a b /\ S a /\ T b.

Definition monoid (S : list event -> Prop) : Prop :=
  S [] /\ forall a b, S a -> S b -> S (app a b).

Definition db_event (e : event) : bool :=
  match e with Connect | Commit | Rollback | Close => true | _ => false end.

Definition is_request (e : event) : bool :=
  match e with Request _ _ => true | _ => false end.

(** Commits and rollbacks only. *)
Definition commits (l : list event) : Prop := Forall (fun e => e = Commit \/ e = Rollback) l.

Lemma traces_weaken p {A} (S S' : list event -> Prop) (m : M A) :
  traces p S m -> (forall l, S l -> S' l) -> traces p S' m.
Proof. intros H HS w. destruct (H w) as (evs & E & Hs). exists evs. auto. Qed.

Lemma traces_ret p {A} S (a : A) : S [] -> traces p S (ret a).
Proof. intros H w. exists []. rewrite app_nil_r. auto. Qed.

Lemma traces_raise p {A} S e : S [] -> traces p S (@raise A e).
Proof. intros H w. exists []. rewrite app_nil_r. auto. Qed.

Lemma traces_lift p {A} S (r : result A) : S [] -> traces p S (lift r).
Proof. destruct r; [apply traces_ret | apply traces_raise]. Qed.

Lemma traces_get_tables p S : S [] -> traces p S get_tables.
Proof. intros H w. exists []. rewrite app_nil_r. auto. Qed.

Lemma traces_set_tables p S ts : S [] -> traces p S (set_tables ts).
Proof. intros H w. exists []. rewrite app_nil_r. auto. Qed.

Lemma traces_emit (p : event -> bool) (S : list event -> Prop) (e : event) : S (if p e then [e] else []) -> traces p S (emit e).
Proof. intros H w. exists [e]. split; [reflexivity | exact H]. Qed.

Lemma traces_log p S lvl msg : p (Log lvl msg) = false -> S [] -> traces p S (log lvl msg).
Proof. intros Hp H. apply traces_emit. rewrite Hp. exact H. Qed.

Lemma traces_bind p {A B} S T (m : M A) (k : A -> M B) :
  traces p S m -> (forall a, traces p T (k a)) -> T [] -> traces p (cat S T) (bind m k).
Proof.
  intros Hm Hk HT w. unfold bind. destruct (Hm w) as (evs1 & E1 & Hs1).
  destruct (m w) as [[a|e] w1]; cbn [snd] in E1.
  - destruct (Hk a w1) as (evs2 & E2 & Hs2). exists (app evs1 evs2).
    rewrite E2, E1, app_assoc. split; [reflexivity|].
    rewrite filter_app. exists (filter p evs1), (filter p evs2). auto.
  - exists evs1. split; [exact E1|]. exists (filter p evs1), []. rewrite app_nil_r. auto.
Qed.

Lemma traces_try_sqlite p {A} S T (m h : M A) :
  traces p S m -> traces p T h -> T [] -> traces p (cat S T) (try_sqlite m h).
Proof.
  intros Hm Hh HT w. unfold try_sqlite. destruct (Hm w) as (evs1 & E1 & Hs1).
  assert (Hd : exists evs, w_events (snd (m w)) = app (w_events w) evs /\ cat S T (filter p evs))
    by (exists evs1; split; [exact E1 | exists (filter p evs1), []; rewrite app_nil_r; auto]).
  destruct (m w) as [[a|[]] w1]; cbn [snd] in E1; try exact Hd.
  destruct (Hh w1) as (evs2 & E2 & Hs2). exists (app evs1 evs2).
  rewrite E2, E1, app_assoc. split; [reflexivity|].
  rewrite filter_app. exists (filter p evs1), (filter p evs2). auto.
Qed.

Lemma traces_try_finally p {A} S T (m : M A) (f : M unit) :
  traces p S m -> traces p T f -> traces p (cat S T) (try_finally m f).
Proof.
  intros Hm Hf w. unfold try_finally. destruct (Hm w) as (evs1 & E1 & Hs1).
  destruct (m w) as [r w1]. cbn [snd] in E1.
  destruct (Hf w1) as (evs2 & E2 & Hs2).
  assert (H : exists evs, w_events (snd (f w1)) = app (w_events w) evs /\ cat S T (filter p evs)).
  { exists (app evs1 evs2). rewrite E2, E1, app_assoc. split; [reflexivity|].
    rewrite filter_app. exists (filter p evs1), (filter p evs2). auto. }
  destruct (f w1) as [[u|e] w2]; exact H.
Qed.

Lemma cat_monoid S l : monoid S -> cat S S l -> S l.
Proof. intros [_ HS] (a & b & -> & Ha & Hb). auto. Qed.

Lemma cat_nil_l S l : cat no_events S l -> S l.
Proof. intros (a & b & -> & Ha & Hb). unfold no_events in Ha. subst a. exact Hb. Qed.

Lemma cat_nil_r S l : cat S no_events l -> S l.
Proof. intros (a & b & -> & Ha & Hb). unfold no_events in Hb. subst b. rewrite app_nil_r. exact Ha. Qed.

Lemma traces_bind_m p {A B} S (m : M A) (k : A -> M B) :
  monoid S -> traces p S m -> (forall a, traces p S (k a)) -> traces p S (bind m k).
Proof.
  intros HS Hm Hk. apply (traces_weaken p (cat S S)); [|intro; apply cat_monoid, HS].
  apply traces_bind; [exact Hm | exact Hk | apply HS].
Qed.

Lemma traces_try_sqlite_m p {A} S (m h : M A) :
  monoid S -> traces p S m -> traces p S h -> traces p S (try_sqlite m h).
Proof.
  intros HS Hm Hh. apply (traces_weaken p (cat S S)); [|intro; apply cat_monoid, HS].
  apply traces_try_sqlite; [exact Hm | exact Hh | apply HS].
Qed.

Lemma traces_bind_pre p {A B} T (m : M A) (k : A -> M B) :
  traces p no_events m -> (forall a, traces p T (k a)) -> T [] -> traces p T (bind m k).
Proof.
  intros Hm Hk HT. apply (traces_weaken p (cat no_events T)); [|intro; apply cat_nil_l].
  apply traces_bind; assumption.
Qed.

Lemma traces_bind_post p {A B} T (m : M A) (k : A -> M B) :
  traces p T m -> (forall a, traces p no_events (k a)) -> traces p T (bind m k).
Proof.
  intros Hm Hk. apply (traces_weaken p (cat T no_events)); [|intro; apply cat_nil_r].
  apply traces_bind; [assumption | assumption | reflexivity].
Qed.

Lemma monoid_no_events : monoid no_events.
Proof. split; [reflexivity | intros a b -> ->; reflexivity]. Qed.

Lemma monoid_commits : monoid commits.
Proof. split; [constructor | intros a b Ha Hb; apply Forall_app; auto]. Qed.

(** Computations whose events [p] selects satisfy a monoid [S], step by
    step; [emit] goals of selected events are left over. *)
Ltac traces_tac HS :=
  repeat match goal with
  | |- traces _ _ (bind _ _) => apply traces_bind_m; [exact HS| |intro]
  | |- traces _ _ (try_sqlite _ _) => apply traces_try_sqlite_m; [exact HS| |]
  | |- traces _ _ (if ?b then _ else _) => destruct b
  | |- traces _ _ (let '(_, _) := ?q in _) => destruct q
  | |- traces _ _ (match ?x with _ => _ end) => destruct x
  | |- traces _ _ (ret _) => apply traces_ret, HS
  | |- traces _ _ (raise _) => apply traces_raise, HS
  | |- traces _ _ (lift _) => apply traces_lift, HS
  | |- traces _ _ get_tables => apply traces_get_tables, HS
  | |- traces _ _ (set_tables _) => apply traces_set_tables, HS
  | |- traces _ _ (log _ _) => apply traces_log; [solve [reflexivity | auto] | apply HS]
  | |- traces _ _ (emit _) => apply traces_emit; cbn [db_event is_request]
  end.

Section EventTraces.

Variable p : event -> bool.
Hypothesis p_log : forall lvl msg, p (Log lvl msg) = false.
Variable S : list event -> Prop.
Hypothesis HS : monoid S.

Lemma traces_prepare_rows row items acc :
  (forall x, traces p S (row x)) -> traces p S (prepare_rows row items acc).
Proof.
  intro Hr. revert acc. induction items as [|x r IH]; intro acc; cbn [prepare_rows].
  - apply traces_ret, HS.
  - apply traces_bind_m; [exact HS | apply Hr | intro; apply IH].
Qed.

Lemma traces_rows e x : In e entities -> traces p S (e_row e x).
Proof.
  intros [<-|[<-|[<-|[]]]]; cbn [e_row products_entity users_entity posts_entity];
    [unfold product_row | unfold user_row | unfold post_row]; traces_tac HS.
Qed.

End EventTraces.

Lemma commits_init_db_table tn sc : traces db_event commits (init_db_table tn sc).
Proof.
  unfold init_db_table. traces_tac monoid_commits; apply Forall_cons; auto.
Qed.

Lemma commits_save_data_to_db tn data cols : traces db_event commits (save_data_to_db tn data cols).
Proof.
  unfold save_data_to_db. traces_tac monoid_commits; apply Forall_cons; auto.
Qed.

Lemma no_db_fetch_api_data net depth entity params :
  traces db_event no_events (fetch_api_data net depth entity params).
Proof. unfold fetch_api_data. cbv zeta. traces_tac monoid_no_events; reflexivity. Qed.

Lemma traces_close_connection : traces db_event (eq [Close]) close_connection.
Proof.
  intro w. exists [Close; Log INFO "Database connection closed"]. cbn.
  rewrite <- app_assoc. split; reflexivity.
Qed.

Lemma traces_get_db_connection {A} (k : bool -> M A) S T :
  traces db_event S (k false) -> traces db_event T (k true) ->
  traces db_event (fun l => S l \/ exists l', l = Connect :: l' /\ T l') (bind get_db_connection k).
Proof.
  intros Hf Ht w. unfold bind, get_db_connection. destruct (w_db_ok w).
  - cbn. destruct (Ht (mkWorld (w_db_ok w) (w_tables w)
                      (app (app (w_events w) [Connect]) [Log INFO "Connected to the database"])))
      as (evs & E & H).
    exists (Connect :: Log INFO "Connected to the database" :: evs). rewrite E. cbn [w_events].
    rewrite <- !app_assoc. split; [reflexivity|]. right. exists (filter db_event evs). auto.
  - cbn. destruct (Hf (mkWorld (w_db_ok w) (w_tables w)
                      (app (w_events w) [Log ERROR "Database connection error"]))) as (evs & E & H).
    exists (Log ERROR "Database connection error" :: evs). rewrite E. cbn [w_events].
    rewrite <- app_assoc. split; [reflexivity|]. left. exact H.
Qed.

(** What a processor does with its connection: it opens none, or it
    opens one, commits or rolls back, and closes it at the end. *)
Definition connection_ok (l : list event) : Prop :=
  l = [] \/ exists mid, l = Connect :: app mid [Close] /\ commits mid.

Lemma traces_process_entity net depth e endpoint params :
  In e entities -> traces db_event connection_ok (process_entity net depth e endpoint params).
Proof.
  intro He. unfold process_entity.
  apply traces_bind_pre; [apply no_db_fetch_api_data | intro r | left; reflexivity].
  apply traces_bind_pre; [traces_tac monoid_no_events | intro hd | left; reflexivity].
  destruct (negb hd).
  { apply traces_log; [reflexivity | left; reflexivity]. }
  apply traces_bind_pre; [traces_tac monoid_no_events | intro il | left; reflexivity].
  apply traces_bind_pre; [traces_tac monoid_no_events | intro n | left; reflexivity].
  apply traces_bind_pre; [traces_tac monoid_no_events | intros [] | left; reflexivity].
  eapply traces_weaken.
  - apply traces_get_db_connection with (S := no_events) (T := cat commits (eq [Close])).
    + apply traces_log; reflexivity.
    + apply traces_try_finally; [|apply traces_close_connection].
      traces_tac monoid_commits.
      * apply commits_init_db_table.
      * apply traces_prepare_rows; [exact monoid_commits | intro x].
        apply traces_rows; [intros; reflexivity | exact monoid_commits | exact He].
      * apply commits_save_data_to_db.
  - intros l [Hl | (l' & -> & (a & b & -> & Ha & <-))]; [left; exact Hl | right].
    exists a. auto.
Qed.

Lemma runs_entity_connection net depth e m :
  runs_entity net depth e m -> In e entities -> traces db_event connection_ok m.
Proof.
  intros (msg & endpoint & params & ->) He.
  apply traces_bind_pre; [apply traces_log; reflexivity | intro; apply traces_process_entity, He |].
  left. reflexivity.
Qed.

(** X7. Each processor opens at most one database connection, and one it
    opens it closes before returning, also when it raises; in between it
    only commits or rolls back. *)
Theorem processors_close_their_connection net depth w :
  (forall q, exists evs, w_events (snd (process_products net depth q w)) = app (w_events w) evs /\
                         connection_ok (filter db_event evs)) /\
  (forall limit skip, exists evs,
     w_events (snd (process_users net depth limit skip w)) = app (w_events w) evs /\
     connection_ok (filter db_event evs)) /\
  (forall limit skip u, exists evs,
     w_events (snd (process_posts net depth limit skip u w)) = app (w_events w) evs /\
     connection_ok (filter db_event evs)).
Proof.
  destruct (processors_run_entities net depth) as (H1 & H2 & H3). split; [|split].
  - intro q. apply (runs_entity_connection net depth products_entity); [apply H1 | left; reflexivity].
  - intros l s. apply (runs_entity_connection net depth users_entity); [apply H2 | right; left; reflexivity].
  - intros l s u. apply (runs_entity_connection net depth posts_entity);
      [apply H3 | right; right; left; reflexivity].
Qed.

(** ** The entry point *)

Lemma no_request_get_db_connection : traces is_request no_events get_db_connection.
Proof.
  intro w. unfold get_db_connection. destruct (w_db_ok w); cbn.
  - exists [Connect; Log INFO "Connected to the database"]. rewrite <- app_assoc. split; reflexivity.
  - exists [Log ERROR "Database connection error"]. split; reflexivity.
Qed.

Lemma no_request_close_connection : traces is_request no_events close_connection.
Proof. unfold close_connection. traces_tac monoid_no_events. reflexivity. Qed.

Lemma traces_emit_then p {A} S e (k : M A) :
  traces p (fun l => S (app (if p e then [e] else []) l)) k -> traces p S (emit e ;; k).
Proof.
  intros Hk w. unfold bind, emit. cbv beta iota.
  destruct (Hk (mkWorld (w_db_ok w) (w_tables w) (app (w_events w) [e]))) as (evs & E & H).
  exists (e :: evs). rewrite E. cbn [w_events]. rewrite <- app_assoc. split; [reflexivity|].
  cbn [filter]. destruct (p e); exact H.
Qed.

Lemma request_fetch_api_data net depth entity params :
  traces is_request (eq [Request (BASE_API_URL ++ entity) params]) (fetch_api_data net depth entity params).
Proof.
  unfold fetch_api_data. cbv zeta. unfold log at 1.
  apply traces_emit_then, traces_emit_then. cbn [is_request app].
  apply (traces_weaken _ no_events); [|intros l ->; reflexivity].
  traces_tac monoid_no_events.
Qed.

Lemma traces_try_finally_m p {A} S (m : M A) (f : M unit) :
  monoid S -> traces p S m -> traces p S f -> traces p S (try_finally m f).
Proof.
  intros HS Hm Hf. apply (traces_weaken p (cat S S)); [|intro; apply cat_monoid, HS].
  apply traces_try_finally; assumption.
Qed.

Lemma no_request_init_db_table tn sc : traces is_request no_events (init_db_table tn sc).
Proof. unfold init_db_table. traces_tac monoid_no_events; reflexivity. Qed.

Lemma no_request_save_data_to_db tn data cols :
  traces is_request no_events (save_data_to_db tn data cols).
Proof. unfold save_data_to_db. traces_tac monoid_no_events; reflexivity. Qed.

Lemma request_processor net depth e endpoint params msg :
  In e entities ->
  traces is_request (eq [Request (BASE_API_URL ++ endpoint) params])
         (log INFO msg ;; process_entity net depth e endpoint params).
Proof.
  intro He. apply traces_emit_then. cbn [is_request app]. unfold process_entity.
  apply traces_bind_post; [apply request_fetch_api_data | intro r].
  traces_tac monoid_no_events.
  all: try apply no_request_get_db_connection.
  all: try (apply traces_try_finally_m; [exact monoid_no_events | | apply no_request_close_connection]).
  all: traces_tac monoid_no_events.
  all: first [ apply no_request_init_db_table | apply no_request_save_data_to_db
             | apply traces_prepare_rows; [exact monoid_no_events | intro x];
               apply traces_rows; [intros; reflexivity | exact monoid_no_events | exact He] ].
Qed.

Lemma clean_step_world argv db_exists remove w :
  w_events (snd (clean_step argv db_exists remove w)) = w_events w /\
  w_tables (snd (clean_step argv db_exists remove w))
  = (if Nat.ltb 1 (length argv) && String.eqb (nth 1 argv "") "--clean" && db_exists
     then match remove with None => [] | Some _ => w_tables w end else w_tables w).
Proof.
  unfold clean_step. destruct (_ && _ && _); [destruct remove|]; split; reflexivity.
Qed.

Definition main_requests : list event :=
  [Request (BASE_API_URL ++ "products/search") [("q", JStr "iPhone")];
   Request (BASE_API_URL ++ "users") [("limit", JInt 20); ("skip", JInt DEFAULT_SKIP)];
   Request (BASE_API_URL ++ "posts") [("limit", JInt 30); ("skip", JInt DEFAULT_SKIP)]].

(** X8. The [__main__] block of [processor.py] sends the requests for
    products ([q=iPhone]), users ([limit=20], [skip=0]) and posts
    ([limit=30], [skip=0]) in this order and no others; a processor that
    raises ends the script before the later requests, and when the
    script ends normally all three have been sent. *)
Theorem processor_main_requests net depth argv db_exists remove w :
  exists evs k,
    w_events (snd (processor_main net depth argv db_exists remove w)) = app (w_events w) evs /\
    filter is_request evs = firstn k main_requests /\ (1 <= k)%nat /\
    (snd (fst (processor_main net depth argv db_exists remove w)) = Ok tt -> k = 3%nat).
Proof.
  assert (Hp : traces is_request (eq [Request (BASE_API_URL ++ "products/search") [("q", JStr "iPhone")]])
                 (process_products net depth "iPhone"))
    by (unfold process_products; apply request_processor; left; reflexivity).
  assert (Hu : traces is_request
                 (eq [Request (BASE_API_URL ++ "users") [("limit", JInt 20); ("skip", JInt DEFAULT_SKIP)]])
                 (process_users net depth 20 DEFAULT_SKIP))
    by (unfold process_users; apply request_processor; right; left; reflexivity).
  assert (Hs : traces is_request
                 (eq [Request (BASE_API_URL ++ "posts") [("limit", JInt 30); ("skip", JInt DEFAULT_SKIP)]])
                 (process_posts net depth 30 DEFAULT_SKIP None))
    by (unfold process_posts; cbv beta iota zeta; apply request_processor; right; right; left; reflexivity).
  destruct (clean_step_world argv db_exists remove w) as [Hw0 _].
  unfold processor_main.
  destruct (clean_step argv db_exists remove w) as [out0 w0]. cbn [snd] in Hw0. cbv beta iota zeta.
  destruct (Hp w0) as (e1 & E1 & F1).
  destruct (process_products net depth "iPhone" w0) as [[u1|x1] w1]; cbn [snd] in E1.
  2: { exists e1, 1%nat. cbn [snd fst]. rewrite E1, Hw0. split; [reflexivity|].
       split; [rewrite <- F1; reflexivity|]. split; [lia | discriminate]. }
  destruct (Hu w1) as (e2 & E2 & F2).
  destruct (process_users net depth 20 DEFAULT_SKIP w1) as [[u2|x2] w2]; cbn [snd] in E2.
  2: { exists (app e1 e2), 2%nat. cbn [snd fst]. rewrite E2, E1, Hw0, app_assoc. split; [reflexivity|].
       split; [rewrite filter_app, <- F1, <- F2; reflexivity|]. split; [lia | discriminate]. }
  destruct (Hs w2) as (e3 & E3 & F3).
  destruct (process_posts net depth 30 DEFAULT_SKIP None w2) as [r3 w3]. cbn [snd] in E3.
  exists (app e1 (app e2 e3)), 3%nat.
  destruct r3; cbn [snd fst]; rewrite E3, E2, E1, Hw0, !app_assoc;
    (split; [reflexivity|]); (split; [rewrite !filter_app, <- F1, <- F2, <- F3; reflexivity|]);
    (split; [lia | intros _; reflexivity]).
Qed.

Lemma processor_main_requests_witness :
  exists evs k,
    w_events (snd (processor_main (fun _ _ => HTimeout) 10 ["processor.py"] false None w_empty))
    = app (w_events w_empty) evs /\
    filter is_request evs = firstn k main_requests /\ (1 <= k)%nat /\ k = 3%nat.
Proof.
  destruct (processor_main_requests (fun _ _ => HTimeout) 10 ["processor.py"] false None w_empty)
    as (evs & k & H1 & H2 & H3 & H4).
  exists evs, k. split; [exact H1|]. split; [exact H2|]. split; [exact H3|].
  apply H4. reflexivity.
Defined.

(** The tables other than those named in [ns] (names compare without
    case). *)
Definition keep_others (ns : list string) (ts : list table) : list table :=
  filter (fun t => negb (existsb (fun n => String.eqb (lower_string (t_name t)) (lower_string n)) ns))
         ts.

(** [ts'] differs from [ts] only in the tables named in [ns]: the others
    are the same, in the same order; every table name of [ts'] is in [ns]
    or was in [ts]; and no table loses or changes a stored row. *)
Definition touches_only_these (ns : list string) (ts ts' : list table) : Prop :=
  keep_others ns ts' = keep_others ns ts /\
  incl (map t_name ts') (app ns (map t_name ts)) /\
  (forall n, exists extra, table_rows ts' n = app (table_rows ts n) extra).

Lemma filter_filter_sub {A} (P Q : A -> bool) l :
  (forall x, P x = true -> Q x = true) -> filter P (filter Q l) = filter P l.
Proof.
  intro H. induction l as [|a l IH]; cbn; [reflexivity|].
  destruct (Q a) eqn:Eq; cbn.
  - destruct (P a); [f_equal|]; exact IH.
  - destruct (P a) eqn:Ep; [apply H in Ep; congruence | exact IH].
Qed.

Lemma touches_only_these_of tn ns a b :
  In tn ns -> touches_only tn a b -> touches_only_these ns a b.
Proof.
  intros Hin (H1 & H2 & H3). split; [|split; [|exact H3]].
  - unfold keep_others, others in *.
    assert (Hsub : forall t : table,
      negb (existsb (fun n => String.eqb (lower_string (t_name t)) (lower_string n)) ns) = true ->
      negb (String.eqb (lower_string (t_name t)) (lower_string tn)) = true).
    { intros t Ht. apply negb_true_iff in Ht. apply negb_true_iff.
      destruct (String.eqb (lower_string (t_name t)) (lower_string tn)) eqn:E; [|reflexivity].
      assert (Hx : existsb (fun n => String.eqb (lower_string (t_name t)) (lower_string n)) ns = true)
        by (apply existsb_exists; exists tn; auto).
      congruence. }
    rewrite <- (filter_filter_sub _ _ b Hsub), <- (filter_filter_sub _ _ a Hsub), H1. reflexivity.
  - intros x Hx. apply in_or_app. destruct (H2 x Hx) as [<-|Hy]; [left; exact Hin | right; exact Hy].
Qed.

Lemma touches_only_these_trans ns a b c :
  touches_only_these ns a b -> touches_only_these ns b c -> touches_only_these ns a c.
Proof.
  intros (H1 & H2 & H3) (G1 & G2 & G3). split; [congruence|split].
  - intros x Hx. apply G2, in_app_or in Hx as [Hn|Hb].
    + apply in_or_app. left. exact Hn.
    + exact (H2 x Hb).
  - intro n. destruct (H3 n) as [e1 E1]. destruct (G3 n) as [e2 E2].
    exists (app e1 e2). rewrite E2, E1, app_assoc. reflexivity.
Qed.

Definition main_tables : list string := ["products"; "users"; "posts"].

Lemma touches_only_these_refl ns ts : touches_only_these ns ts ts.
Proof.
  split; [reflexivity|split].
  - intros x Hx. apply in_or_app. right. exact Hx.
  - intro n. exists []. rewrite app_nil_r. reflexivity.
Qed.

(** X9. What the [__main__] block of [processor.py] does to the database:
    with [--clean] and a database file that [os.remove] deletes, it
    starts from no tables, otherwise from the tables there were. From
    there it leaves the tables other than [products], [users] and [posts]
    as they were, in the same order, creates no other table, and changes
    or deletes no stored row; so after a clean run the database holds
    only these three tables. *)
Theorem processor_main_tables net depth argv db_exists remove w :
  w_tables (snd (clean_step argv db_exists remove w))
  = (if Nat.ltb 1 (length argv) && String.eqb (nth 1 argv "") "--clean" && db_exists
     then match remove with None => [] | Some _ => w_tables w end else w_tables w) /\
  touches_only_these main_tables (w_tables (snd (clean_step argv db_exists remove w)))
                     (w_tables (snd (processor_main net depth argv db_exists remove w))) /\
  (Nat.ltb 1 (length argv) && String.eqb (nth 1 argv "") "--clean" && db_exists = true ->
   remove = None ->
   Forall (fun t => In (t_name t) main_tables) (w_tables (snd (processor_main net depth argv db_exists remove w)))).
Proof.
  destruct (processors_run_entities net depth) as (H1 & H2 & H3).
  assert (Ht : forall e m w, runs_entity net depth e m -> In e entities -> In (e_table e) main_tables ->
                 touches_only_these main_tables (w_tables w) (w_tables (snd (m w))))
    by (intros e m w' Hm He Hn; apply (touches_only_these_of (e_table e)); [exact Hn |
        apply (runs_entity_touches net depth); assumption]).
  assert (Hp : forall w, touches_only_these main_tables (w_tables w)
                           (w_tables (snd (process_products net depth "iPhone" w))))
    by (intro; apply (Ht products_entity); [apply H1 | left | left]; reflexivity).
  assert (Hu : forall w, touches_only_these main_tables (w_tables w)
                           (w_tables (snd (process_users net depth 20 DEFAULT_SKIP w))))
    by (intro; apply (Ht users_entity); [apply H2 | right; left | right; left]; reflexivity).
  assert (Hs : forall w, touches_only_these main_tables (w_tables w)
                           (w_tables (snd (process_posts net depth 30 DEFAULT_SKIP None w))))
    by (intro; apply (Ht posts_entity); [apply H3 | right; right; left | right; right; left];
        reflexivity).
  assert (Hm : touches_only_these main_tables (w_tables (snd (clean_step argv db_exists remove w)))
                 (w_tables (snd (processor_main net depth argv db_exists remove w)))).
  { unfold processor_main. destruct (clean_step argv db_exists remove w) as [out0 w0].
    cbv beta iota zeta. cbn [snd]. specialize (Hp w0).
    destruct (process_products net depth "iPhone" w0) as [[u1|x1] w1]; [|exact Hp].
    specialize (Hu w1).
    destruct (process_users net depth 20 DEFAULT_SKIP w1) as [[u2|x2] w2];
      [|exact (touches_only_these_trans _ _ _ _ Hp Hu)].
    specialize (Hs w2).
    destruct (process_posts net depth 30 DEFAULT_SKIP None w2) as [[u3|x3] w3];
      exact (touches_only_these_trans _ _ _ _ (touches_only_these_trans _ _ _ _ Hp Hu) Hs). }
  destruct (clean_step_world argv db_exists remove w) as [_ Hc].
  split; [exact Hc|]. split; [exact Hm|].
  intros Hcl ->. rewrite Hcl in Hc. destruct Hm as (_ & Hn & _). rewrite Hc in Hn.
  apply Forall_forall. intros t Ht'. rewrite app_nil_r in Hn. apply Hn, in_map, Ht'.
Qed.

Lemma processor_main_tables_witness :
  Forall (fun t => In (t_name t) main_tables)
    (w_tables (snd (processor_main (fun _ _ => HTimeout) 10 ["processor.py"; "--clean"] true None
                      (mkWorld true [mkTable "old" ["x"] [(1, [SInt 1])]] [])))).
Proof.
  destruct (processor_main_tables (fun _ _ => HTimeout) 10 ["processor.py"; "--clean"] true None
              (mkWorld true [mkTable "old" ["x"] [(1, [SInt 1])]] [])) as (_ & _ & H).
  apply H; reflexivity.
Defined.

(* ------------------------------------------------------------------ *)
(** * Properties of the inspector [view_db.py] *)

(** ** Output only grows *)

(** A computation that only appends to the output: what it returns and
    appends does not depend on the output so far. *)
Definition vgrows {A} (m : VM A) : Prop :=
  forall o, m o = (fst (m []), app o (snd (m []))).

Lemma vgrows_ret {A} (a : A) : vgrows (vret a).
Proof. intro o. unfold vret. cbn. rewrite app_nil_r. reflexivity. Qed.

Lemma vgrows_lift {A} (r : result A) : vgrows (vlift r).
Proof. intro o. unfold vlift. cbn. rewrite app_nil_r. reflexivity. Qed.

Lemma vgrows_emit e : vgrows (vemit e).
Proof. intro o. reflexivity. Qed.

Lemma vgrows_print s : vgrows (print s).
Proof. apply vgrows_emit. Qed.

Lemma vgrows_bind {A B} (m : VM A) (k : A -> VM B) :
  vgrows m -> (forall a, vgrows (k a)) -> vgrows (vbind m k).
Proof.
  intros Hm Hk o. unfold vbind. rewrite (Hm o). destruct (m []) as [[a|e] out]; cbn [fst snd].
  - rewrite (Hk a (app o out)), (Hk a out). cbn [fst snd]. rewrite app_assoc. reflexivity.
  - reflexivity.
Qed.

Lemma vgrows_try_sqlite {A} (m h : VM A) : vgrows m -> vgrows h -> vgrows (vtry_sqlite m h).
Proof.
  intros Hm Hh o. unfold vtry_sqlite. rewrite (Hm o). destruct (m []) as [[a|[]] out];
    cbn [fst snd]; try reflexivity.
  rewrite (Hh (app o out)), (Hh out). cbn [fst snd]. rewrite app_assoc. reflexivity.
Qed.

Lemma vgrows_for {A} (l : list A) body : (forall x, vgrows (body x)) -> vgrows (vfor l body).
Proof.
  intro Hb. induction l as [|x r IH]; cbn [vfor]; [apply vgrows_ret|].
  apply vgrows_bind; [apply Hb | intros _; exact IH].
Qed.

Lemma vgrows_for_i {A} i (l : list A) body :
  (forall j x, vgrows (body j x)) -> vgrows (vfor_i i l body).
Proof.
  intro Hb. revert i. induction l as [|x r IH]; intro i; cbn [vfor_i]; [apply vgrows_ret|].
  apply vgrows_bind; [apply Hb | intros _; apply IH].
Qed.

Lemma vgrows_map {A B} (f : A -> VM B) l : (forall x, vgrows (f x)) -> vgrows (vmap f l).
Proof.
  intro Hf. induction l as [|x r IH]; cbn [vmap]; [apply vgrows_ret|].
  apply vgrows_bind; [apply Hf | intro y; apply vgrows_bind; [exact IH | intro; apply vgrows_ret]].
Qed.

Create HintDb vgrows_db.
#[local] Hint Resolve vgrows_ret vgrows_lift vgrows_emit vgrows_print : vgrows_db.

Ltac vgrows_tac :=
  repeat match goal with
  | |- vgrows (vbind _ _) => apply vgrows_bind; [|intro]
  | |- vgrows (vtry_sqlite _ _) => apply vgrows_try_sqlite
  | |- vgrows (vfor _ _) => apply vgrows_for; intro
  | |- vgrows (vfor_i _ _ _) => apply vgrows_for_i; intros
  | |- vgrows (vmap _ _) => apply vgrows_map; intro
  | |- vgrows (if ?b then _ else _) => destruct b
  | |- vgrows (match ?x with _ => _ end) => destruct x
  | |- vgrows _ => solve [auto with vgrows_db]
  end.

Lemma vgrows_print_table_data pok sok dp c name limit :
  vgrows (print_table_data pok sok dp c name limit).
Proof. unfold print_table_data. vgrows_tac. Qed.

#[local] Hint Resolve vgrows_print_table_data : vgrows_db.

Lemma vgrows_vconnect f : vgrows (vconnect f).
Proof. unfold vconnect. vgrows_tac. Qed.

#[local] Hint Resolve vgrows_vconnect : vgrows_db.

Lemma vgrows_view_database pok sok err dp f db tn : vgrows (view_database pok sok err dp f db tn).
Proof. unfold view_database. vgrows_tac. Qed.

Lemma vbind_step {A B} (m : VM A) (k : A -> VM B) o a o' res :
  m o = (Ok a, o') -> k a o' = res -> vbind m k o = res.
Proof. intros H Hk. unfold vbind. rewrite H. exact Hk. Qed.

Lemma vbind_raise {A B} (m : VM A) (k : A -> VM B) o e o' :
  m o = (Raise e, o') -> vbind m k o = (Raise e, o').
Proof. intro H. unfold vbind. rewrite H. reflexivity. Qed.

Lemma vbind_grows_raise {A B} (m : VM A) (k : A -> VM B) o e :
  vgrows m -> fst (m []) = Raise e -> vbind m k o = (Raise e, app o (snd (m []))).
Proof. intros Hm He. unfold vbind. rewrite (Hm o), He. reflexivity. Qed.

Lemma vtry_ok {A} (m h : VM A) o a o' : m o = (Ok a, o') -> vtry_sqlite m h o = (Ok a, o').
Proof. intro H. unfold vtry_sqlite. rewrite H. reflexivity. Qed.

Lemma vtry_raise {A} (m h : VM A) o o' res :
  m o = (Raise SqliteError, o') -> h o' = res -> vtry_sqlite m h o = res.
Proof. intros H Hh. unfold vtry_sqlite. rewrite H. exact Hh. Qed.

Lemma vtry_at {A} (m m' h : VM A) o : m o = m' o -> vtry_sqlite m h o = vtry_sqlite m' h o.
Proof. intro H. unfold vtry_sqlite. rewrite H. reflexivity. Qed.

Lemma vtry_other {A} (m h : VM A) o e o' :
  m o = (Raise e, o') -> e <> SqliteError -> vtry_sqlite m h o = (Raise e, o').
Proof. intros H He. unfold vtry_sqlite. rewrite H. destruct e; try reflexivity; congruence. Qed.

(** ** Printing a table *)

(** The exceptions [format_value] lets through: the [RecursionError] and
    [ValueError] of [json.loads], and the [OverflowError] of an [int]
    price too large for a float; never an [sqlite3.Error]. *)
Lemma format_value_raise dp key v e :
  format_value dp key v = Raise e -> e = RecursionError \/ e = ValueError \/ e = OverflowError.
Proof.
  unfold format_value, format_json, format_2f. destruct v as [|z|f|s]; [discriminate| | |].
  - destruct (_ && _); [discriminate|].
    destruct (in_keys key _); [|discriminate].
    destruct (int_to_float z); [discriminate|]. intro H. injection H as <-. auto.
  - destruct (_ && _); [discriminate|]. destruct (in_keys key _); discriminate.
  - destruct (_ && _).
    + destruct (json_loads dp s) as [o|e'] eqn:Ej.
      * destruct o as [j|]; [|discriminate]. cbv beta iota.
        match goal with |- match ?x with _ => _ end = _ -> _ => destruct x end; discriminate.
      * intro H. injection H as <-. apply json_loads_raise, json_exc_cases in Ej. tauto.
    + destruct (_ && _); discriminate.
Qed.

Lemma format_value_not_sqlite dp key v e : format_value dp key v = Raise e -> e <> SqliteError.
Proof. intros H ->. destruct (format_value_raise _ _ _ _ H) as [E|[E|E]]; discriminate E. Qed.

(** A stored value [format_value] shows without raising, and the text it
    shows for it. *)
Definition formats (dp : nat) (kv : string * sqlval) : bool :=
  match format_value dp (fst kv) (snd kv) with Ok _ => true | Raise _ => false end.

Definition shown_value (dp : nat) (kv : string * sqlval) : string :=
  match format_value dp (fst kv) (snd kv) with Ok s => s | Raise _ => "" end.

(** Every stored value of the table [t] can be shown. *)
Definition table_formats (dp : nat) (t : vtable) : bool :=
  forallb (fun row => forallb (formats dp) (combine (map c_name (v_cols t)) row)) (v_rows t).

Definition value_line (dp : nat) (kv : string * sqlval) : vevent :=
  Out ("  " ++ fst kv ++ ": " ++ shown_value dp kv).

Definition record_header (i : Z) : string := nl ++ "--- Запись #" ++ z_to_string i ++ " ---".

Definition is_record_header (e : vevent) : bool :=
  match e with Out s => String.prefix (nl ++ "--- Запись #") s | _ => false end.

Fixpoint zseq (i : Z) (n : nat) : list Z :=
  match n with O => [] | S n' => i :: zseq (i + 1) n' end.

(** The lines printed for the rows [rows], numbered from [i]. *)
Fixpoint records_out (dp : nat) (i : Z) (rows : list (list (string * sqlval))) : list vevent :=
  match rows with
  | [] => []
  | row :: r => Out (record_header i) :: app (map (value_line dp) row) (records_out dp (i + 1) r)
  end.

Lemma vfor_prints {A} (l : list A) (f : A -> string) o :
  vfor l (fun x => print (f x)) o = (Ok tt, app o (map (fun x => Out (f x)) l)).
Proof.
  revert o. induction l as [|x r IH]; intro o; cbn; [rewrite app_nil_r; reflexivity|].
  unfold vbind, print, vemit. rewrite IH, <- app_assoc. reflexivity.
Qed.

Lemma vfor_values dp row o :
  forallb (formats dp) row = true ->
  vfor row (fun kv =>
    let* formatted_value := vlift (format_value dp (fst kv) (snd kv)) in
    print ("  " ++ fst kv ++ ": " ++ formatted_value)) o
  = (Ok tt, app o (map (value_line dp) row)).
Proof.
  revert o. induction row as [|kv r IH]; intros o H.
  - cbn. rewrite app_nil_r. reflexivity.
  - cbn [forallb] in H. apply andb_prop in H as [Hk Hr].
    unfold formats in Hk. destruct (format_value dp (fst kv) (snd kv)) as [s|e] eqn:Ef; [|discriminate].
    cbn [vfor]. eapply vbind_step.
    + eapply vbind_step; [unfold vlift; rewrite Ef; reflexivity | reflexivity].
    + cbv beta. rewrite IH by exact Hr. cbn [map]. unfold value_line, shown_value.
      rewrite Ef, <- app_assoc. reflexivity.
Qed.

Lemma vfor_values_raise dp row o :
  forallb (formats dp) row = false ->
  exists e o', vfor row (fun kv =>
    let* formatted_value := vlift (format_value dp (fst kv) (snd kv)) in
    print ("  " ++ fst kv ++ ": " ++ formatted_value)) o = (Raise e, o') /\
  exists kv, In kv row /\ format_value dp (fst kv) (snd kv) = Raise e.
Proof.
  revert o. induction row as [|kv r IH]; intros o H; [discriminate|].
  cbn [forallb] in H.
  destruct (format_value dp (fst kv) (snd kv)) as [s|e] eqn:Ef.
  - assert (Hk : formats dp kv = true) by (unfold formats; rewrite Ef; reflexivity).
    rewrite Hk in H. cbn [andb] in H.
    destruct (IH (app o [Out ("  " ++ fst kv ++ ": " ++ s)]) H) as (e & o' & He & kv' & Hi & Hf).
    exists e, o'. split; [|exists kv'; split; [right; exact Hi | exact Hf]].
    cbn [vfor]. eapply vbind_step; [|exact He].
    eapply vbind_step; [unfold vlift; rewrite Ef; reflexivity | reflexivity].
  - exists e, o. split; [|exists kv; split; [left; reflexivity | exact Ef]].
    cbn [vfor]. apply vbind_raise, vbind_raise. unfold vlift. rewrite Ef. reflexivity.
Qed.

Lemma vfor_i_records dp i rows o :
  forallb (forallb (formats dp)) rows = true ->
  vfor_i i rows (fun i row_dict =>
    let* _ := print (nl ++ "--- Запись #" ++ z_to_string i ++ " ---") in
    vfor row_dict (fun kv =>
      let* formatted_value := vlift (format_value dp (fst kv) (snd kv)) in
      print ("  " ++ fst kv ++ ": " ++ formatted_value))) o
  = (Ok tt, app o (records_out dp i rows)).
Proof.
  revert i o. induction rows as [|row r IH]; intros i o H; cbn [vfor_i records_out].
  - cbn. rewrite app_nil_r. reflexivity.
  - cbn [forallb] in H. apply andb_prop in H as [Hrow Hr].
    eapply vbind_step.
    + eapply vbind_step; [reflexivity | apply vfor_values, Hrow].
    + cbv beta. rewrite IH by exact Hr. unfold record_header. rewrite <- !app_assoc. reflexivity.
Qed.

Lemma vfor_i_records_raise dp i rows o :
  forallb (forallb (formats dp)) rows = false ->
  exists e o', vfor_i i rows (fun i row_dict =>
    let* _ := print (nl ++ "--- Запись #" ++ z_to_string i ++ " ---") in
    vfor row_dict (fun kv =>
      let* formatted_value := vlift (format_value dp (fst kv) (snd kv)) in
      print ("  " ++ fst kv ++ ": " ++ formatted_value))) o = (Raise e, o') /\
  exists row kv, In row rows /\ In kv row /\ format_value dp (fst kv) (snd kv) = Raise e.
Proof.
  revert i o. induction rows as [|row r IH]; intros i o H; [discriminate|].
  cbn [forallb] in H. cbn [vfor_i].
  destruct (forallb (formats dp) row) eqn:Erow; cbn [andb] in H.
  - destruct (IH (i + 1)
                 (app (app o [Out (nl ++ "--- Запись #" ++ z_to_string i ++ " ---")])
                      (map (value_line dp) row)) H)
      as (e & o' & He & row' & kv & Hr & Hk & Hf).
    exists e, o'. split; [|exists row', kv; split; [right; exact Hr | split; assumption]].
    eapply vbind_step; [eapply vbind_step; [reflexivity | apply vfor_values, Erow] | exact He].
  - destruct (vfor_values_raise dp row (app o [Out (nl ++ "--- Запись #" ++ z_to_string i ++ " ---")]) Erow)
      as (e & o' & He & kv & Hk & Hf).
    exists e, o'. split; [|exists row, kv; split; [left; reflexivity | split; assumption]].
    apply vbind_raise. eapply vbind_step; [reflexivity | exact He].
Qed.

Lemma prefix_app s t : String.prefix s (s ++ t) = true.
Proof.
  induction s as [|a s IH]; [destruct t; reflexivity|]. cbn.
  destruct (ascii_dec a a) as [_|n]; [exact IH | contradiction].
Qed.

Lemma filter_head {A} (f : A -> bool) x l : f x = true -> filter f (x :: l) = x :: filter f l.
Proof. intro H. cbn. rewrite H. reflexivity. Qed.

Lemma records_out_headers dp i rows :
  filter is_record_header (records_out dp i rows)
  = map (fun j => Out (record_header j)) (zseq i (length rows)).
Proof.
  revert i. induction rows as [|row r IH]; intro i; [reflexivity|]. cbn [records_out].
  rewrite filter_head by exact (prefix_app (nl ++ "--- Запись #") (z_to_string i ++ " ---")).
  rewrite filter_app, IH.
  replace (filter is_record_header _) with (@nil vevent); [reflexivity|].
  induction row as [|kv row' IHr]; [reflexivity|]. cbn [map filter]. rewrite <- IHr. reflexivity.
Qed.

Lemma print_table_data_prefix pok sok dp ts name limit t o :
  pok name = true -> sok name = true -> vlookup ts name = Some t ->
  let rows := map (combine (map c_name (v_cols t)))
                  (if limit <? 0 then v_rows t else firstn (Z.to_nat limit) (v_rows t)) in
  print_table_data pok sok dp (Some ts) name limit o
  = match rows with
    | [] => print (nl ++ "[ИНФОРМАЦИЯ] Таблица пуста.")
    | _ =>
        let* _ := print (nl ++ "Данные: (первые " ++ z_to_string (Z.min limit (Z.of_nat (length rows)))
                         ++ " строк)") in
        vfor_i 1 rows (fun i row_dict =>
          let* _ := print (nl ++ "--- Запись #" ++ z_to_string i ++ " ---") in
          vfor row_dict (fun kv =>
            let* formatted_value := vlift (format_value dp (fst kv) (snd kv)) in
            print ("  " ++ fst kv ++ ": " ++ formatted_value)))
    end (app o (Out (nl ++ "Структура таблицы:") :: map (fun col => Out (column_line col)) (v_cols t))).
Proof.
  intros Hp Hs Hl rows. unfold print_table_data.
  eapply vbind_step; [unfold vlift, pragma_table_info; cbv beta iota; rewrite Hp, Hl; reflexivity|]. cbv beta.
  eapply vbind_step; [reflexivity|]. cbv beta.
  eapply vbind_step; [apply vfor_prints|]. cbv beta.
  eapply vbind_step; [unfold vlift, select_limit; cbv beta iota; rewrite Hs, Hl; reflexivity|]. cbv beta.
  fold rows. rewrite <- app_assoc. reflexivity.
Qed.

Lemma print_table_data_out pok sok dp ts name limit t o :
  pok name = true -> sok name = true -> vlookup ts name = Some t ->
  let rows := map (combine (map c_name (v_cols t)))
                  (if limit <? 0 then v_rows t else firstn (Z.to_nat limit) (v_rows t)) in
  forallb (forallb (formats dp)) rows = true ->
  print_table_data pok sok dp (Some ts) name limit o
  = (Ok tt, app o (Out (nl ++ "Структура таблицы:")
                   :: app (map (fun col => Out (column_line col)) (v_cols t))
                          (match rows with
                           | [] => [Out (nl ++ "[ИНФОРМАЦИЯ] Таблица пуста.")]
                           | _ => Out (nl ++ "Данные: (первые "
                                       ++ z_to_string (Z.min limit (Z.of_nat (length rows)))
                                       ++ " строк)") :: records_out dp 1 rows
                           end))).
Proof.
  intros Hp Hs Hl rows Hf. rewrite (print_table_data_prefix pok sok dp ts name limit t o Hp Hs Hl).
  fold rows. destruct rows as [|row r].
  - unfold print, vemit. rewrite <- !app_assoc. reflexivity.
  - eapply vbind_step; [reflexivity|]. cbv beta. rewrite (vfor_i_records dp 1 _ _ Hf).
    rewrite <- !app_assoc. reflexivity.
Qed.

Lemma print_table_data_raise pok sok dp ts name limit t :
  pok name = true -> sok name = true -> vlookup ts name = Some t ->
  let rows := map (combine (map c_name (v_cols t)))
                  (if limit <? 0 then v_rows t else firstn (Z.to_nat limit) (v_rows t)) in
  forallb (forallb (formats dp)) rows = false ->
  exists e, fst (print_table_data pok sok dp (Some ts) name limit []) = Raise e /\
  exists row kv, In row rows /\ In kv row /\ format_value dp (fst kv) (snd kv) = Raise e.
Proof.
  intros Hp Hs Hl rows Hf. rewrite (print_table_data_prefix pok sok dp ts name limit t [] Hp Hs Hl).
  fold rows. destruct rows as [|row r]; [discriminate|].
  destruct (vfor_i_records_raise dp 1 (row :: r)
              (app (app [] (Out (nl ++ "Структура таблицы:") :: map (fun col => Out (column_line col)) (v_cols t)))
                   [Out (nl ++ "Данные: (первые " ++ z_to_string (Z.min limit (Z.of_nat (length (row :: r))))
                        ++ " строк)")]) Hf)
    as (e & o' & He & Hin).
  exists e. split; [|exact Hin].
  erewrite vbind_step; [| reflexivity | exact He]; reflexivity.
Qed.

Lemma filter_head_false {A} (f : A -> bool) x l : f x = false -> filter f (x :: l) = filter f l.
Proof. intro H. cbn. rewrite H. reflexivity. Qed.

Lemma no_record_headers_columns cols :
  filter is_record_header (map (fun col => Out (column_line col)) cols) = [].
Proof. induction cols as [|c r IH]; [reflexivity|]. exact IH. Qed.

(** X10. [print_table_data] prints one record per row the [LIMIT] query
    returns, numbered 1, 2, ... in rowid order: [min(limit, rows)] of
    them for a [limit >= 0], and every row for a negative [limit] (SQLite
    reads it as no limit). When no row is returned, also for [limit = 0]
    on a table with rows, it ends with "Таблица пуста."; otherwise it
    announces [min(limit, shown)] rows, a negative number for a negative
    [limit]. This holds when [format_value] can show every value of the
    rows returned; when it cannot (a JSON text nested too deeply, an
    over-long integer literal, an [int] price beyond the float range),
    [print_table_data] raises that value's exception, which is no
    [sqlite3.Error]. *)
Theorem print_table_data_records pok sok dp ts name limit t :
  pok name = true -> sok name = true -> vlookup ts name = Some t ->
  let shown := if limit <? 0 then v_rows t else firstn (Z.to_nat limit) (v_rows t) in
  let rows := map (combine (map c_name (v_cols t))) shown in
  (forallb (forallb (formats dp)) rows = true ->
   fst (print_table_data pok sok dp (Some ts) name limit []) = Ok tt /\
   filter is_record_header (snd (print_table_data pok sok dp (Some ts) name limit []))
   = map (fun j => Out (record_header j)) (zseq 1 (length shown)) /\
   length shown = (if limit <? 0 then length (v_rows t)
                   else Nat.min (Z.to_nat limit) (length (v_rows t))) /\
   (shown = [] ->
    last (snd (print_table_data pok sok dp (Some ts) name limit [])) VOpen
    = Out (nl ++ "[ИНФОРМАЦИЯ] Таблица пуста.")) /\
   (shown <> [] ->
    In (Out (nl ++ "Данные: (первые " ++ z_to_string (Z.min limit (Z.of_nat (length shown)))
             ++ " строк)")) (snd (print_table_data pok sok dp (Some ts) name limit [])))) /\
  (forallb (forallb (formats dp)) rows = false ->
   exists e, fst (print_table_data pok sok dp (Some ts) name limit []) = Raise e /\
   e <> SqliteError /\
   exists row kv, In row rows /\ In kv row /\ format_value dp (fst kv) (snd kv) = Raise e).
Proof.
  intros Hp Hs Hl shown rows. split; intro Hf.
  - rewrite (print_table_data_out pok sok dp ts name limit t [] Hp Hs Hl Hf).
    clear Hf. subst rows. fold shown.
    cbn [fst snd app].
    split; [reflexivity|]. split; [|split; [|split]].
    + rewrite filter_head_false by reflexivity. rewrite filter_app, no_record_headers_columns.
      cbn [app]. destruct shown as [|x r] eqn:Es; [reflexivity|]. cbn [map].
      rewrite filter_head_false by reflexivity. rewrite records_out_headers. cbn [map length].
      rewrite length_map. reflexivity.
    + unfold shown. destruct (limit <? 0); [reflexivity|]. apply length_firstn.
    + intro He. rewrite He. cbn [map]. rewrite app_comm_cons. apply last_last.
    + intro Hn. destruct shown as [|x r]; [congruence|]. cbn [map]. right. apply in_or_app. right.
      left. cbn [length]. rewrite length_map. reflexivity.
  - destruct (print_table_data_raise pok sok dp ts name limit t Hp Hs Hl Hf)
      as (e & He & row & kv & Hr & Hk & Hv).
    exists e. split; [exact He|]. split; [exact (format_value_not_sqlite _ _ _ _ Hv)|].
    exists row, kv. auto.
Qed.

Lemma print_table_data_records_witness :
  let t := mkVTable "posts" [mkColumn "api_id" "INTEGER" false 1]
             [[SInt 1]; [SInt 2]; [SInt 3]] in
  filter is_record_header
    (snd (print_table_data (fun _ => true) (fun _ => true) 10 (Some [t]) "posts" (-1) []))
  = map (fun j => Out (record_header j)) (zseq 1 (length (v_rows t))).
Proof.
  intro t.
  destruct (print_table_data_records (fun _ => true) (fun _ => true) 10 [t] "posts" (-1) t
              eq_refl eq_refl eq_refl) as [H _].
  destruct (H ltac:(vm_compute; reflexivity)) as (_ & H' & _). exact H'.
Defined.

(** ** The order of the listing *)

Lemma insert_by_count_perm x l : Permutation (x :: l) (insert_by_count x l).
Proof.
  induction l as [|y r IH]; cbn; [reflexivity|].
  destruct (ti_row_count y <? ti_row_count x); [reflexivity|].
  rewrite perm_swap. apply perm_skip, IH.
Qed.

Lemma sort_by_count_desc_perm_aux l acc :
  Permutation (app acc l) (fold_left (fun acc x => insert_by_count x acc) l acc).
Proof.
  revert acc. induction l as [|x r IH]; intro acc; cbn [fold_left].
  - rewrite app_nil_r. reflexivity.
  - rewrite <- IH. rewrite <- (insert_by_count_perm x acc).
    rewrite <- Permutation_middle. reflexivity.
Qed.

Definition count_desc (x y : table_info) : Prop := ti_row_count y <= ti_row_count x.

Lemma insert_by_count_sorted x l :
  StronglySorted count_desc l -> StronglySorted count_desc (insert_by_count x l).
Proof.
  induction l as [|y r IH]; intro H; cbn.
  - constructor; constructor.
  - inversion H as [|? ? Hr Hf]; subst.
    destruct (ti_row_count y <? ti_row_count x) eqn:E.
    + apply Z.ltb_lt in E. constructor; [exact H|]. constructor; [unfold count_desc; lia|].
      eapply Forall_impl; [|exact Hf]. unfold count_desc. intros z Hz. lia.
    + apply Z.ltb_ge in E. constructor; [exact (IH Hr)|].
      apply Forall_forall. intros z Hz.
      apply (Permutation_in _ (Permutation_sym (insert_by_count_perm x r))) in Hz.
      destruct Hz as [<-|Hz]; [unfold count_desc; lia|].
      exact (proj1 (Forall_forall _ _) Hf z Hz).
Qed.

Lemma sort_by_count_desc_sorted_aux l acc :
  StronglySorted count_desc acc ->
  StronglySorted count_desc (fold_left (fun acc x => insert_by_count x acc) l acc).
Proof.
  revert acc. induction l as [|x r IH]; intros acc H; cbn [fold_left]; [exact H|].
  apply IH, insert_by_count_sorted, H.
Qed.

Lemma filter_count_smaller l c :
  Forall (fun z => ti_row_count z < c) l -> filter (fun z => ti_row_count z =? c) l = [].
Proof.
  induction l as [|z r IH]; intro H; [reflexivity|]. inversion H as [|? ? Hz Hr]; subst.
  cbn. replace (ti_row_count z =? c) with false by (symmetry; apply Z.eqb_neq; lia). exact (IH Hr).
Qed.

Lemma insert_by_count_filter x l c :
  StronglySorted count_desc l ->
  filter (fun z => ti_row_count z =? c) (insert_by_count x l)
  = app (filter (fun z => ti_row_count z =? c) l) (if ti_row_count x =? c then [x] else []).
Proof.
  induction l as [|y r IH]; intro H; cbn.
  - destruct (ti_row_count x =? c); reflexivity.
  - inversion H as [|? ? Hr Hf]; subst.
    destruct (ti_row_count y <? ti_row_count x) eqn:E.
    + apply Z.ltb_lt in E. cbn [filter].
      destruct (ti_row_count x =? c) eqn:Ex.
      * apply Z.eqb_eq in Ex. subst c.
        assert (H0 : filter (fun z => ti_row_count z =? ti_row_count x) (y :: r) = []).
        { apply filter_count_smaller. constructor; [exact E|].
          eapply Forall_impl; [|exact Hf]. unfold count_desc. intros z Hz. lia. }
        cbn [filter] in H0. rewrite H0. reflexivity.
      * rewrite app_nil_r. reflexivity.
    + cbn [filter]. rewrite (IH Hr). destruct (ti_row_count y =? c); reflexivity.
Qed.

Lemma sort_by_count_desc_filter_aux l acc c :
  StronglySorted count_desc acc ->
  filter (fun z => ti_row_count z =? c) (fold_left (fun acc x => insert_by_count x acc) l acc)
  = app (filter (fun z => ti_row_count z =? c) acc) (filter (fun z => ti_row_count z =? c) l).
Proof.
  revert acc. induction l as [|x r IH]; intros acc H; cbn [fold_left].
  - rewrite app_nil_r. reflexivity.
  - rewrite (IH _ (insert_by_count_sorted x acc H)), (insert_by_count_filter x acc c H).
    rewrite <- app_assoc. cbn [filter]. destruct (ti_row_count x =? c); reflexivity.
Qed.

Lemma sort_by_count_desc_props l :
  Permutation l (sort_by_count_desc l) /\
  StronglySorted count_desc (sort_by_count_desc l) /\
  (forall c, filter (fun z => ti_row_count z =? c) (sort_by_count_desc l)
             = filter (fun z => ti_row_count z =? c) l).
Proof.
  unfold sort_by_count_desc. split; [|split].
  - exact (sort_by_count_desc_perm_aux l []).
  - apply sort_by_count_desc_sorted_aux. constructor.
  - intro c. rewrite (sort_by_count_desc_filter_aux l [] c); [reflexivity | constructor].
Qed.

(** ** Listing every table *)

(** The dict [get_table_info] returns for the table [t]. *)
Definition catalog_info (t : vtable) : table_info :=
  mkInfo (v_name t) (v_cols t) (Z.of_nat (length (v_rows t))).

(** The lines the listing prints for one table. *)
Definition listing_block (pok sok : string -> bool) (dp : nat) (ts : list vtable) (info : table_info)
  : list vevent :=
  Out (nl ++ rule50)
  :: Out ("=== Таблица: " ++ ti_name info ++ " (" ++ z_to_string (ti_row_count info) ++ " записей) ===")
  :: Out rule50 :: snd (print_table_data pok sok dp (Some ts) (ti_name info) 10 []).

Lemma vlookup_in ts t :
  NoDup (map (fun t => lower_string (v_name t)) ts) -> In t ts -> vlookup ts (v_name t) = Some t.
Proof.
  unfold vlookup. induction ts as [|t0 r IH]; intros Hd Hi; [destruct Hi|].
  inversion Hd as [|? ? Hn Hd']; subst. cbn [find].
  destruct Hi as [<-|Hi].
  - rewrite String.eqb_refl. reflexivity.
  - destruct (String.eqb (lower_string (v_name t0)) (lower_string (v_name t))) eqn:E.
    + apply String.eqb_eq in E. exfalso. apply Hn. rewrite E.
      apply (in_map (fun t => lower_string (v_name t))), Hi.
    + exact (IH Hd' Hi).
Qed.

Lemma vmap_get_table_info pok sok ts l o :
  (forall t, In t l ->
     pok (v_name t) = true /\ sok (v_name t) = true /\ vlookup ts (v_name t) = Some t) ->
  vmap (fun n => vlift (get_table_info pok sok (Some ts) n)) (map v_name l) o
  = (Ok (map catalog_info l), o).
Proof.
  induction l as [|t r IH]; intro H; [reflexivity|].
  destruct (H t (or_introl eq_refl)) as (Hp & Hs & Hl).
  cbn [vmap map]. unfold vbind at 1, vlift at 1.
  assert (Hg : get_table_info pok sok (Some ts) (v_name t) = Ok (catalog_info t)).
  { unfold get_table_info, pragma_table_info, select_count. rewrite Hp, Hs, Hl. reflexivity. }
  rewrite Hg. unfold vbind at 1. rewrite IH by (intros; apply H; right; assumption). reflexivity.
Qed.

Lemma forallb_map_comp {A B} (p : B -> bool) (f : A -> B) l :
  forallb p (map f l) = forallb (fun x => p (f x)) l.
Proof. induction l as [|x r IH]; cbn; [reflexivity | rewrite IH; reflexivity]. Qed.

Lemma table_formats_shown dp t limit :
  table_formats dp t = true ->
  forallb (forallb (formats dp))
    (map (combine (map c_name (v_cols t)))
         (if limit <? 0 then v_rows t else firstn (Z.to_nat limit) (v_rows t))) = true.
Proof.
  unfold table_formats. intro H. rewrite forallb_map_comp.
  destruct (limit <? 0); [exact H|]. exact (proj1 (forallb_firstn_skipn _ (Z.to_nat limit) _ H)).
Qed.

Lemma print_table_data_ok pok sok dp ts name limit t :
  pok name = true -> sok name = true -> vlookup ts name = Some t -> table_formats dp t = true ->
  fst (print_table_data pok sok dp (Some ts) name limit []) = Ok tt.
Proof.
  intros Hp Hs Hl Hf.
  rewrite (print_table_data_out pok sok dp ts name limit t [] Hp Hs Hl (table_formats_shown dp t limit Hf)).
  reflexivity.
Qed.

Lemma vfor_listing pok sok dp ts l o :
  (forall i, In i l -> fst (print_table_data pok sok dp (Some ts) (ti_name i) 10 []) = Ok tt) ->
  vfor l (fun info =>
    let* _ := print (nl ++ rule50) in
    let* _ := print ("=== Таблица: " ++ ti_name info ++ " ("
                     ++ z_to_string (ti_row_count info) ++ " записей) ===") in
    let* _ := print rule50 in
    print_table_data pok sok dp (Some ts) (ti_name info) 10) o
  = (Ok tt, app o (concat (map (listing_block pok sok dp ts) l))).
Proof.
  revert o. induction l as [|i r IH]; intros o H; cbn [vfor concat map].
  - cbn. rewrite app_nil_r. reflexivity.
  - unfold vbind at 1. unfold vbind at 1, print at 1, vemit at 1.
    unfold vbind at 1, print at 1, vemit at 1. unfold vbind at 1, print at 1, vemit at 1.
    rewrite vgrows_print_table_data, (H i (or_introl eq_refl)).
    rewrite IH by (intros; apply H; right; assumption).
    unfold listing_block. rewrite <- !app_assoc. reflexivity.
Qed.

Lemma listing_names pok sok dp ts :
  Forall (fun t => pok (v_name t) = true /\ sok (v_name t) = true /\ table_formats dp t = true) ts ->
  NoDup (map (fun t => lower_string (v_name t)) ts) ->
  forall t, In t ts ->
  pok (v_name t) = true /\ sok (v_name t) = true /\ vlookup ts (v_name t) = Some t /\
  table_formats dp t = true.
Proof.
  intros Hok Hd t Hi. destruct (proj1 (Forall_forall _ _) Hok t Hi) as (H1 & H2 & H3).
  exact (conj H1 (conj H2 (conj (vlookup_in ts t Hd Hi) H3))).
Qed.

(** X11. Without a table name (none given, or an empty one), on a
    database with at least one table whose names SQLite accepts unquoted
    (in [PRAGMA] and in [FROM]) and which differ also without case, and
    whose stored values [format_value] can all show, [view_database]
    opens the connection, prints the title, then one block per table and
    closes the connection, without error. The blocks come in the order
    of the tables sorted by row count: the tables of the catalog each
    once, row counts non-increasing, tables with the same count in
    catalog order; each block shows the table's real row count and
    [print_table_data] with [limit = 10]. *)
Theorem view_database_listing pok sok err dp ts db tn :
  ts <> [] -> tn = None \/ tn = Some "" ->
  Forall (fun t => pok (v_name t) = true /\ sok (v_name t) = true /\ table_formats dp t = true) ts ->
  NoDup (map (fun t => lower_string (v_name t)) ts) ->
  let order := sort_by_count_desc (map catalog_info ts) in
  view_database pok sok err dp (Database ts) db tn []
  = (Ok tt, VOpen :: Out ("Таблицы в базе данных " ++ db ++ ":")
            :: app (concat (map (listing_block pok sok dp ts) order)) [VClose]) /\
  Permutation (map catalog_info ts) order /\
  StronglySorted count_desc order /\
  (forall c, filter (fun z => ti_row_count z =? c) order
             = filter (fun z => ti_row_count z =? c) (map catalog_info ts)).
Proof.
  intros Hne Htn Hok Hd order.
  destruct (sort_by_count_desc_props (map catalog_info ts)) as (Hp & Hs & Hf).
  split; [|exact (conj Hp (conj Hs Hf))].
  pose proof (listing_names pok sok dp ts Hok Hd) as Hn.
  assert (Hb : forall i, In i order ->
                 fst (print_table_data pok sok dp (Some ts) (ti_name i) 10 []) = Ok tt).
  { intros i Hi. apply (Permutation_in _ (Permutation_sym Hp)), in_map_iff in Hi.
    destruct Hi as (t & <- & Ht). destruct (Hn t Ht) as (H1 & H2 & H3 & H4).
    exact (print_table_data_ok pok sok dp ts (v_name t) 10 t H1 H2 H3 H4). }
  assert (Hn' : forall t, In t ts ->
                  pok (v_name t) = true /\ sok (v_name t) = true /\ vlookup ts (v_name t) = Some t).
  { intros t Ht. destruct (Hn t Ht) as (H1 & H2 & H3 & _). auto. }
  destruct ts as [|t0 r]; [congruence|].
  unfold view_database. cbv beta iota. apply vtry_ok.
  eapply vbind_step; [reflexivity|]. cbv beta.
  eapply vbind_step; [reflexivity|]. cbv beta.
  change (map v_name (t0 :: r)) with (v_name t0 :: map v_name r). cbv beta iota.
  destruct Htn as [->| ->]; cbv beta iota;
    (eapply vbind_step; [reflexivity|]; cbv beta;
     eapply vbind_step; [apply (vmap_get_table_info pok sok (t0 :: r) (t0 :: r)), Hn'|]; cbv beta;
     eapply vbind_step; [apply vfor_listing, Hb|];
     unfold vemit; reflexivity).
Qed.

Lemma view_database_listing_witness :
  let ts := [mkVTable "users" [] [[SInt 1]]; mkVTable "posts" [] [[SInt 1]; [SInt 2]]] in
  fst (view_database (fun _ => true) (fun _ => true) "" 10 (Database ts) "dummy_data.db" None [])
  = Ok tt /\
  map ti_name (sort_by_count_desc (map catalog_info ts)) = ["posts"; "users"].
Proof.
  intro ts.
  assert (Hd : NoDup (map (fun t => lower_string (v_name t)) ts)).
  { constructor; [cbn; intros [H|[]]; discriminate H | constructor; [intros []|constructor]]. }
  assert (Hok : Forall (fun t => (fun _ => true) (v_name t) = true /\ (fun _ => true) (v_name t) = true
                                 /\ table_formats 10 t = true) ts)
    by (repeat constructor).
  destruct (view_database_listing (fun _ => true) (fun _ => true) "" 10 ts "dummy_data.db" None
              ltac:(discriminate) (or_introl eq_refl) Hok Hd) as (H & _).
  rewrite H. split; reflexivity.
Defined.

(** ** Early returns and a named table *)

(** X12. The cases in which [view_database] returns before the end: a
    missing file prints the five hints and opens nothing (so
    [sqlite3.connect] does not create the file); a file [connect]
    refuses, or one that is not a database, prints the [sqlite3.Error]
    line; a database without tables prints that it has none; a table
    name no table has exactly (the check is case-sensitive) prints that
    it is not found and the names of all tables. In every case the
    exception is caught and the connection, when opened, is left open:
    [conn.close()] is not reached. *)
Theorem view_database_early_returns pok sok err dp db tn :
  view_database pok sok err dp NoFile db tn []
  = (Ok tt, [Out ("[ОШИБКА] База данных '" ++ db ++ "' не найдена.");
             Out "Сначала запустите скрипт processor.py для создания БД:";
             Out "python dummy/processor.py"; Out "или с флагом очистки:";
             Out "python dummy/processor.py --clean"]) /\
  view_database pok sok err dp Unopenable db tn []
  = (Ok tt, [Out ("[ОШИБКА] Ошибка при работе с базой данных: " ++ err)]) /\
  view_database pok sok err dp NotADatabase db tn []
  = (Ok tt, [VOpen; Out ("[ОШИБКА] Ошибка при работе с базой данных: " ++ err)]) /\
  view_database pok sok err dp (Database []) db tn []
  = (Ok tt, [VOpen; Out ("[ИНФОРМАЦИЯ] База данных '" ++ db ++ "' не содержит таблиц.")]) /\
  (forall ts name, ts <> [] -> tn = Some name -> name <> "" ->
   existsb (fun t => String.eqb (v_name t) name) ts = false ->
   view_database pok sok err dp (Database ts) db tn []
   = (Ok tt, [VOpen; Out ("[ОШИБКА] Таблица '" ++ name ++ "' не найдена в БД.");
              Out ("Доступные таблицы: " ++ join ", " (map v_name ts))])).
Proof.
  split; [reflexivity|]. split; [reflexivity|]. split; [reflexivity|].
  split; [destruct tn; reflexivity|].
  intros ts name Hne -> Hname Hex. destruct ts as [|t0 r]; [congruence|].
  unfold view_database. cbv beta iota. apply vtry_ok.
  eapply vbind_step; [reflexivity|]. cbv beta.
  eapply vbind_step; [reflexivity|]. cbv beta.
  change (map v_name (t0 :: r)) with (v_name t0 :: map v_name r). cbv beta iota.
  replace (String.eqb name "") with false by (symmetry; apply String.eqb_neq, Hname). cbv beta iota.
  eapply vbind_step; [unfold vlift, query_table_named; rewrite Hex; reflexivity|]. cbv beta iota.
  reflexivity.
Qed.

Lemma view_database_early_returns_witness :
  let ts := [mkVTable "products" [] []] in
  view_database (fun _ => true) (fun _ => true) "" 10 (Database ts) "dummy_data.db" (Some "Products") []
  = (Ok tt, [VOpen; Out ("[ОШИБКА] Таблица '" ++ "Products" ++ "' не найдена в БД.");
             Out ("Доступные таблицы: " ++ join ", " (map v_name ts))]).
Proof.
  intro ts.
  destruct (view_database_early_returns (fun _ => true) (fun _ => true) "" 10 "dummy_data.db"
              (Some "Products")) as (_ & _ & _ & _ & H).
  apply H; [discriminate | reflexivity | discriminate | reflexivity].
Defined.

Lemma last_two {A} (l : list A) x y d : last (app l [x; y]) d = y.
Proof. change [x; y] with (app [x] [y]). rewrite app_assoc. apply last_last. Qed.

Lemma existsb_name_in ts t : In t ts -> existsb (fun t' => String.eqb (v_name t') (v_name t)) ts = true.
Proof. intro Hi. apply existsb_exists. exists t. split; [exact Hi | apply String.eqb_refl]. Qed.

(** The steps of [view_database] with the name of a table of the
    database, up to [print_table_data]. *)
Lemma view_database_named_prefix pok sok err dp ts db t :
  In t ts -> v_name t <> "" ->
  view_database pok sok err dp (Database ts) db (Some (v_name t)) []
  = vtry_sqlite
      (fun o => vbind (print_table_data pok sok dp (Some ts) (v_name t) 10)
         (fun _ =>
            let* count := vlift (select_count sok (Some ts) (v_name t)) in
            let* _ := print (nl ++ "Всего записей: " ++ z_to_string count) in
            vemit VClose)
         (app o [VOpen; Out ("=== Таблица: " ++ v_name t ++ " ===")]))
      (print ("[ОШИБКА] Ошибка при работе с базой данных: " ++ err)) [].
Proof.
  intros Hi Hname. pose proof (existsb_name_in ts t Hi) as Hex.
  destruct ts as [|t0 r]; [destruct Hi|].
  unfold view_database. cbv beta iota. apply vtry_at.
  eapply vbind_step; [reflexivity|]. cbv beta.
  eapply vbind_step; [reflexivity|]. cbv beta.
  change (map v_name (t0 :: r)) with (v_name t0 :: map v_name r). cbv beta iota.
  replace (String.eqb (v_name t) "") with false by (symmetry; apply String.eqb_neq, Hname).
  cbv beta iota.
  eapply vbind_step; [unfold vlift, query_table_named; rewrite Hex; reflexivity|]. cbv beta iota.
  eapply vbind_step; [reflexivity|]. cbv beta. reflexivity.
Qed.

(** X13. [view_database] with the name of a table of the database (name
    and table distinct up to case, as SQLite keeps them). When SQLite
    accepts the name unquoted in [PRAGMA table_info] and in [FROM], and
    [format_value] can show every value of the table, it prints the
    title, [print_table_data] with [limit = 10], then the total number of
    the table's rows (all of them, not only the ten shown) and closes the
    connection. When [PRAGMA table_info] refuses the name, the error line
    follows the title and nothing of the table is printed. When only the
    [SELECT] refuses it (a keyword such as [delete] is a pragma argument
    but no table name in [FROM]), the table's structure is printed
    before the error line. In both cases the connection stays open. When
    a value among the ten rows cannot be shown, its exception, which is
    no [sqlite3.Error], escapes [view_database]. *)
Theorem view_database_named pok sok err dp ts db t :
  In t ts -> NoDup (map (fun t => lower_string (v_name t)) ts) -> v_name t <> "" ->
  (pok (v_name t) = true -> sok (v_name t) = true -> table_formats dp t = true ->
   view_database pok sok err dp (Database ts) db (Some (v_name t)) []
   = (Ok tt, VOpen :: Out ("=== Таблица: " ++ v_name t ++ " ===")
             :: app (snd (print_table_data pok sok dp (Some ts) (v_name t) 10 []))
                    [Out (nl ++ "Всего записей: " ++ z_to_string (Z.of_nat (length (v_rows t))));
                     VClose])) /\
  (pok (v_name t) = false ->
   view_database pok sok err dp (Database ts) db (Some (v_name t)) []
   = (Ok tt, [VOpen; Out ("=== Таблица: " ++ v_name t ++ " ===");
              Out ("[ОШИБКА] Ошибка при работе с базой данных: " ++ err)])) /\
  (pok (v_name t) = true -> sok (v_name t) = false ->
   view_database pok sok err dp (Database ts) db (Some (v_name t)) []
   = (Ok tt, VOpen :: Out ("=== Таблица: " ++ v_name t ++ " ===")
             :: Out (nl ++ "Структура таблицы:")
             :: app (map (fun col => Out (column_line col)) (v_cols t))
                    [Out ("[ОШИБКА] Ошибка при работе с базой данных: " ++ err)])) /\
  (pok (v_name t) = true -> sok (v_name t) = true ->
   forallb (forallb (formats dp)) (map (combine (map c_name (v_cols t))) (firstn 10 (v_rows t)))
   = false ->
   exists e o, view_database pok sok err dp (Database ts) db (Some (v_name t)) [] = (Raise e, o) /\
               e <> SqliteError).
Proof.
  intros Hi Hd Hname. pose proof (vlookup_in ts t Hd Hi) as Hl.
  rewrite (view_database_named_prefix pok sok err dp ts db t Hi Hname).
  split; [|split; [|split]].
  - intros Hp Hs Hf. apply vtry_ok.
    eapply vbind_step;
      [rewrite vgrows_print_table_data, (print_table_data_ok pok sok dp _ _ 10 t Hp Hs Hl Hf);
       reflexivity|].
    cbv beta.
    eapply vbind_step; [unfold vlift, select_count; rewrite Hs, Hl; reflexivity|]. cbv beta.
    unfold vbind, print, vemit. rewrite <- !app_assoc. reflexivity.
  - intro Hp. apply (vtry_raise _ _ _ [VOpen; Out ("=== Таблица: " ++ v_name t ++ " ===")]); [|reflexivity].
    apply vbind_raise. unfold print_table_data, pragma_table_info. rewrite Hp. reflexivity.
  - intros Hp Hs.
    apply (vtry_raise _ _ _ (app [VOpen; Out ("=== Таблица: " ++ v_name t ++ " ===");
                                   Out (nl ++ "Структура таблицы:")]
                                (map (fun col => Out (column_line col)) (v_cols t)))).
    + apply vbind_raise. unfold print_table_data.
      eapply vbind_step; [unfold vlift, pragma_table_info; cbv beta iota; rewrite Hp, Hl; reflexivity|].
      cbv beta.
      eapply vbind_step; [reflexivity|]. cbv beta.
      eapply vbind_step; [apply vfor_prints|]. cbv beta.
      unfold vbind, vlift, select_limit. rewrite Hs. reflexivity.
    + unfold print, vemit. rewrite <- app_assoc. reflexivity.
  - intros Hp Hs Hf.
    destruct (print_table_data_raise pok sok dp ts (v_name t) 10 t Hp Hs Hl Hf)
      as (e & He & row & kv & _ & _ & Hv).
    pose proof (format_value_not_sqlite _ _ _ _ Hv) as Hne.
    exists e, (app [VOpen; Out ("=== Таблица: " ++ v_name t ++ " ===")]
                   (snd (print_table_data pok sok dp (Some ts) (v_name t) 10 []))).
    split; [|exact Hne].
    apply vtry_other; [|exact Hne].
    apply vbind_grows_raise; [apply vgrows_print_table_data | exact He].
Qed.

Lemma view_database_named_witness :
  let t := mkVTable "posts" [mkColumn "api_id" "INTEGER" false 1] [[SInt 7]] in
  fst (view_database (fun _ => true) (fun _ => true) "" 10 (Database [t]) "dummy_data.db"
         (Some "posts") []) = Ok tt /\
  last (snd (view_database (fun _ => true) (fun _ => true) "" 10 (Database [t]) "dummy_data.db"
               (Some "posts") [])) VOpen
  = VClose.
Proof.
  intro t.
  assert (Hd : NoDup (map (fun t => lower_string (v_name t)) [t])) by (constructor; [intros []|constructor]).
  destruct (view_database_named (fun _ => true) (fun _ => true) "" 10 [t] "dummy_data.db" t
              (or_introl eq_refl) Hd ltac:(discriminate)) as [H _].
  change "posts" with (v_name t). rewrite (H eq_refl eq_refl ltac:(vm_compute; reflexivity)).
  split; [reflexivity|].
  cbn [snd]. rewrite app_comm_cons, app_comm_cons. apply last_two.
Defined.

Lemma get_table_info_raise pok sok c n e : get_table_info pok sok c n = Raise e -> e = SqliteError.
Proof.
  unfold get_table_info, pragma_table_info, select_count. destruct c as [ts|]; [|congruence].
  destruct (pok n); [|congruence]. destruct (sok n); [|congruence].
  destruct (vlookup ts n); congruence.
Qed.

Lemma vmap_get_table_info_refused pok sok ts names o :
  (exists n, In n names /\ (pok n = false \/ sok n = false)) ->
  vmap (fun n => vlift (get_table_info pok sok (Some ts) n)) names o = (Raise SqliteError, o).
Proof.
  induction names as [|n0 r IH]; intros (n & Hi & Hn); [destruct Hi|].
  cbn [vmap]. unfold vbind at 1, vlift at 1.
  destruct (get_table_info pok sok (Some ts) n0) as [info|e] eqn:G.
  - destruct Hi as [<-|Hi].
    + unfold get_table_info, pragma_table_info, select_count in G.
      destruct Hn as [Hn|Hn]; rewrite Hn in G; [discriminate G | destruct (pok n0); discriminate G].
    + unfold vbind at 1. rewrite IH by (exists n; split; assumption). reflexivity.
  - rewrite (get_table_info_raise _ _ _ _ _ G). reflexivity.
Qed.

(** X14. Without a table name, when SQLite refuses the unquoted name of
    one of the tables, in [PRAGMA table_info] or in the [SELECT COUNT]
    of its rows, the listing fails while it collects the row counts: only the
    title is printed before the [sqlite3.Error] line, no table block at
    all, however many tables come before it, and the connection is not
    closed. *)
Theorem view_database_listing_refused pok sok err dp ts db tn t :
  In t ts -> pok (v_name t) = false \/ sok (v_name t) = false -> tn = None \/ tn = Some "" ->
  view_database pok sok err dp (Database ts) db tn []
  = (Ok tt, [VOpen; Out ("Таблицы в базе данных " ++ db ++ ":");
             Out ("[ОШИБКА] Ошибка при работе с базой данных: " ++ err)]).
Proof.
  intros Hi Hok Htn. destruct ts as [|t0 r]; [destruct Hi|].
  assert (Hm : forall o, vmap (fun n => vlift (get_table_info pok sok (Some (t0 :: r)) n))
                              (map v_name (t0 :: r)) o = (Raise SqliteError, o)).
  { intro o. apply vmap_get_table_info_refused. exists (v_name t). split; [apply in_map, Hi | exact Hok]. }
  unfold view_database. cbv beta iota.
  apply (vtry_raise _ _ _ [VOpen; Out ("Таблицы в базе данных " ++ db ++ ":")]); [|reflexivity].
  eapply vbind_step; [reflexivity|]. cbv beta.
  eapply vbind_step; [reflexivity|]. cbv beta.
  change (map v_name (t0 :: r)) with (v_name t0 :: map v_name r). cbv beta iota.
  destruct Htn as [->| ->]; cbv beta iota;
    (eapply vbind_step; [reflexivity|]; cbv beta; apply vbind_raise, Hm).
Qed.

Lemma view_database_listing_refused_witness :
  let ts := [mkVTable "products" [] [[SInt 1]]; mkVTable "order" [] []] in
  view_database (fun n => negb (String.eqb n "order")) (fun n => negb (String.eqb n "order")) ""
    10 (Database ts) "dummy_data.db" None []
  = (Ok tt, [VOpen; Out ("Таблицы в базе данных " ++ "dummy_data.db" ++ ":");
             Out ("[ОШИБКА] Ошибка при работе с базой данных: " ++ "")]).
Proof.
  intro ts.
  apply (view_database_listing_refused _ _ "" 10 ts "dummy_data.db" None (mkVTable "order" [] []));
    [right; left; reflexivity | left; reflexivity | left; reflexivity].
Defined.

(** ** Shortened texts *)

Definition cp_step (c : ascii) (acc : list ascii * list string) : list ascii * list string :=
  let '(p, gs) := acc in
  if is_cont c then (c :: p, gs) else ([], string_of_list (c :: p) :: gs).

Definition cp_finish (st : list ascii * list string) : list string :=
  let '(pending, groups) := st in
  match pending with [] => groups | _ => string_of_list pending :: groups end.

(** A code point: a byte that does not continue one, then the bytes
    that continue it. *)
Definition cp_group (g : string) : Prop :=
  exists c cs, list_of_string g = c :: cs /\ is_cont c = false /\ Forall (fun b => is_cont b = true) cs.

Lemma code_points_fold s : code_points s = cp_finish (fold_right cp_step ([], []) (list_of_string s)).
Proof. reflexivity. Qed.

Lemma cp_fold_invariant l :
  let st := fold_right cp_step ([], []) l in
  Forall (fun b => is_cont b = true) (fst st) /\ Forall cp_group (snd st).
Proof.
  induction l as [|c r IH]; cbn [fold_right]; [split; constructor|].
  destruct (fold_right cp_step ([], []) r) as [p gs]. destruct IH as [Hp Hg]. cbn [fst snd] in *.
  unfold cp_step. destruct (is_cont c) eqn:E; cbn [fst snd].
  - split; [constructor; assumption | exact Hg].
  - split; [constructor|]. constructor; [|exact Hg].
    exists c, p. rewrite list_of_string_of_list. auto.
Qed.

Lemma cp_fold_conts cs p gs :
  Forall (fun b => is_cont b = true) cs -> fold_right cp_step (p, gs) cs = (app cs p, gs).
Proof.
  induction cs as [|c r IH]; intro H; [reflexivity|]. inversion H as [|? ? Hc Hr]; subst.
  cbn [fold_right]. rewrite (IH Hr). unfold cp_step. rewrite Hc. reflexivity.
Qed.

Lemma cp_fold_groups G gs :
  Forall cp_group G -> fold_right cp_step ([], gs) (concat (map list_of_string G)) = ([], app G gs).
Proof.
  induction G as [|g r IH]; intro H; [reflexivity|]. inversion H as [|? ? Hg Hr]; subst.
  destruct Hg as (c & cs & Hl & Hc & Hcs).
  cbn [map concat]. rewrite fold_right_app, (IH Hr), Hl. cbn [fold_right].
  rewrite (cp_fold_conts cs [] _ Hcs), app_nil_r. unfold cp_step. rewrite Hc.
  rewrite <- Hl, string_of_list_of_string. reflexivity.
Qed.

Lemma Forall_firstn {A} (P : A -> Prop) n l : Forall P l -> Forall P (firstn n l).
Proof.
  revert l. induction n as [|n IH]; intros [|x r] H; cbn; try constructor.
  - inversion H; assumption.
  - apply IH. inversion H; assumption.
Qed.

(** Cutting a text after [n] code points and adding [...] gives text
    whose code points are the first [n] of it and the three dots. *)
Lemma code_points_cut s n :
  code_points (String.concat "" (firstn n (code_points s)) ++ "...")
  = app (firstn n (code_points s)) ["."; "."; "."].
Proof.
  rewrite (code_points_fold s).
  pose proof (cp_fold_invariant (list_of_string s)) as Hinv.
  destruct (fold_right cp_step ([], []) (list_of_string s)) as [p gs]. cbn [fst snd] in Hinv.
  destruct Hinv as [Hp Hg].
  rewrite code_points_fold, list_of_string_app, list_of_string_concat, fold_right_app.
  change (fold_right cp_step ([], []) (list_of_string "...")) with (@nil ascii, ["."; "."; "."]).
  destruct p as [|b p']; cbn [cp_finish].
  - rewrite cp_fold_groups by (apply Forall_firstn, Hg). reflexivity.
  - destruct n as [|n]; [reflexivity|]. cbn [firstn map concat].
    rewrite fold_right_app, cp_fold_groups by (apply Forall_firstn, Hg).
    rewrite list_of_string_of_list, (cp_fold_conts _ [] _ Hp), app_nil_r. reflexivity.
Qed.

(** X15. A [description] or [body] text is shown unchanged when it has at
    most 50 characters, and otherwise cut to exactly 50: its first 47
    characters, never splitting one, and [...]. *)
Theorem format_value_shortens dp key s :
  In key ["description"; "body"] ->
  ((length (code_points s) <= 50)%nat -> format_value dp key (SText s) = Ok s) /\
  ((50 < length (code_points s))%nat ->
   exists out, format_value dp key (SText s) = Ok out /\
   code_points out = app (firstn 47 (code_points s)) ["."; "."; "."] /\
   length (code_points out) = 50%nat).
Proof.
  intro Hk. split; intro Hl.
  - unfold format_value. apply Nat.ltb_ge in Hl. rewrite Hl.
    destruct Hk as [<-|[<-|[]]]; cbn [in_keys existsb JSON_KEYS String.eqb andb orb];
      destruct (String.eqb s ""); reflexivity.
  - exists (String.concat "" (firstn 47 (code_points s)) ++ "...").
    split.
    + unfold format_value. apply Nat.ltb_lt in Hl. rewrite Hl. destruct Hk as [<-|[<-|[]]]; reflexivity.
    + rewrite code_points_cut. split; [reflexivity|].
      rewrite length_app, length_firstn. cbn [length]. lia.
Qed.

Lemma format_value_shortens_witness :
  exists out, format_value 10 "body" (SText (string_of_list (repeat "x"%char 60))) = Ok out /\
  code_points out = app (repeat "x" 47) ["."; "."; "."].
Proof.
  destruct (format_value_shortens 10 "body" (string_of_list (repeat "x"%char 60))
              (or_intror (or_introl eq_refl))) as [_ H].
  destruct (H ltac:(vm_compute; lia)) as (out & H1 & H2 & _).
  exists out. split; [exact H1|]. rewrite H2. reflexivity.
Defined.
